(** * niceplots.utils: a shallow embedding and its properties

    The module [niceplots/utils.py] is a set of helpers over matplotlib and
    numpy: [adjust_spines], [draggable_legend], [auto_place_legend],
    [horiz_bar] and [stacked_plots].  Each of them is a straight sequence of
    calls on the plotting library's objects with some arithmetic in between.

    The embedding keeps that shape.
    - Python numbers are [pynum]: unbounded integers ([Z]) and binary64
      floats ([spec_float] with 53 bits of precision), with Python's
      promotion rules and exceptions.
    - The plotting library is modelled at its interface: an axes object is a
      record of the properties the helpers set or read (spines, ticks,
      limits, lines, texts), a setter stores its argument, the limit
      setters adjust theirs as the library does, and the library's failures
      are raised where the helpers can meet them.
    - The interpreter state is threaded explicitly: a store of axes, figures
      and numpy buffers, with an exception monad on top. *)

From Stdlib Require Import ZArith List String Ascii Bool Lia Arith.
From Stdlib Require Import SpecFloat DecimalString.
Import ListNotations.

(** ** Exceptions *)

Inductive exn : Type :=
| TypeError | ValueError | IndexError | KeyError
| OverflowError | ZeroDivisionError | AttributeError.

Inductive result (A : Type) : Type :=
| Ok (a : A)
| Raise (e : exn).

Arguments Ok {A} a.
Arguments Raise {A} e.

Definition rbind {A B} (r : result A) (k : A -> result B) : result B :=
  match r with
  | Ok a => k a
  | Raise e => Raise e
  end.

Notation "'let*' x ':=' r 'in' k" := (rbind r (fun x => k))
  (at level 10, x name, r at level 100, k at level 200).

(** ** Binary64 arithmetic *)

Module B64.

Definition prec : Z := 53.
Definition emax : Z := 1024.

Definition float := spec_float.

Definition add : float -> float -> float := SFadd prec emax.
Definition sub : float -> float -> float := SFsub prec emax.
Definition mul : float -> float -> float := SFmul prec emax.
Definition div : float -> float -> float := SFdiv prec emax.
Definition sqrt : float -> float := SFsqrt prec emax.
Definition opp : float -> float := SFopp.
Definition abs : float -> float := SFabs.
Definition ltb : float -> float -> bool := SFltb.
Definition leb : float -> float -> bool := SFleb.
Definition eqb : float -> float -> bool := SFeqb.
Definition valid : float -> bool := valid_binary prec emax.

(** The float nearest to an integer (round to nearest, ties to even). *)
Definition of_Z (z : Z) : float := binary_normalize prec emax z 0 false.

(** A decimal literal [n/d]: the float nearest to the rational, which is
    what the parser produces for [.1], [.9], [1.05] and the like. *)
Definition lit (n d : Z) : float := div (of_Z n) (of_Z d).

Definition is_finite (f : float) : bool :=
  match f with
  | S754_zero _ | S754_finite _ _ _ => true
  | _ => false
  end.

Definition is_zero (f : float) : bool :=
  match f with
  | S754_zero _ => true
  | _ => false
  end.

Definition sign (f : float) : bool :=
  match f with
  | S754_zero s | S754_infinity s | S754_finite s _ _ => s
  | S754_nan => false
  end.


Definition ceil (f : float) : option Z :=
  match f with
  | S754_zero _ => Some 0%Z
  | S754_finite s m e => Some (- Z.shiftl (cond_Zopp (negb s) (Zpos m)) e)%Z
  | _ => None
  end.

(** Rounding toward zero. *)
Definition trunc (f : float) : option Z :=
  match f with
  | S754_zero _ => Some 0%Z
  | S754_finite s m e => Some (cond_Zopp s (Z.shiftl (Zpos m) e))
  | _ => None
  end.

(** Exact comparison of an integer with a float. *)
Definition Zcompare (z : Z) (f : float) : option comparison :=
  match f with
  | S754_nan => None
  | S754_infinity s => Some (if s then Gt else Lt)
  | S754_zero _ => Some (Z.compare z 0)
  | S754_finite s m e =>
      let v := cond_Zopp s (Zpos m) in
      Some (if (0 <=? e)%Z
            then Z.compare z (Z.shiftl v e)
            else Z.compare (Z.shiftl z (- e)) v)
  end.

End B64.

(** ** Python numbers *)

Inductive pynum : Type :=
| PInt (z : Z)
| PFloat (f : B64.float).

(** [float(x)]: an integer too large for a double raises. *)
Definition py_float (x : pynum) : result B64.float :=
  match x with
  | PFloat f => Ok f
  | PInt z =>
      let f := B64.of_Z z in
      if B64.is_finite f then Ok f else Raise OverflowError
  end.

Definition py_arith (fi : Z -> Z -> Z) (ff : B64.float -> B64.float -> B64.float)
    (a b : pynum) : result pynum :=
  match a, b with
  | PInt x, PInt y => Ok (PInt (fi x y))
  | _, _ =>
      let* x := py_float a in
      let* y := py_float b in
      Ok (PFloat (ff x y))
  end.

Definition py_add : pynum -> pynum -> result pynum := py_arith Z.add B64.add.
Definition py_sub : pynum -> pynum -> result pynum := py_arith Z.sub B64.sub.
Definition py_mul : pynum -> pynum -> result pynum := py_arith Z.mul B64.mul.

Definition py_neg (a : pynum) : pynum :=
  match a with
  | PInt x => PInt (- x)
  | PFloat f => PFloat (B64.opp f)
  end.

(** True division ([from __future__ import division]). *)
Definition py_truediv (a b : pynum) : result pynum :=
  let* x := py_float a in
  let* y := py_float b in
  if B64.is_zero y then Raise ZeroDivisionError
  else Ok (PFloat (B64.div x y)).

(** [a > b], exact across integers and floats; false when either is nan. *)
Definition py_gt (a b : pynum) : bool :=
  match a, b with
  | PInt x, PInt y => (y <? x)%Z
  | PFloat f, PFloat g => B64.ltb g f
  | PInt x, PFloat g =>
      match B64.Zcompare x g with Some Gt => true | _ => false end
  | PFloat f, PInt y =>
      match B64.Zcompare y f with Some Lt => true | _ => false end
  end.

(** [int(x)]: truncation toward zero. *)
Definition py_int (x : pynum) : result Z :=
  match x with
  | PInt z => Ok z
  | PFloat f =>
      match B64.trunc f with
      | Some z => Ok z
      | None =>
          match f with
          | S754_nan => Raise ValueError
          | _ => Raise OverflowError
          end
      end
  end.

(** [np.isfinite(x)] on one Python number.  An integer that fits neither
    a signed nor an unsigned 64-bit integer becomes an array of objects,
    which the function refuses. *)
Definition np_isfinite (x : pynum) : result bool :=
  match x with
  | PInt z =>
      if ((- 2 ^ 63 <=? z) && (z <? 2 ^ 64))%Z then Ok true else Raise TypeError
  | PFloat f => Ok (B64.is_finite f)
  end.

(** ** Strings and number formatting *)

Local Open Scope string_scope.

(** [str(z)] for an integer. *)
Definition py_str_int (z : Z) : string := NilZero.string_of_int (Z.to_int z).

(** [len(s)]; strings are taken to be ASCII, one character per byte. *)
Definition py_len (s : string) : Z := Z.of_nat (String.length s).

Fixpoint zeros (n : nat) : string :=
  match n with
  | O => ""
  | S k => String "0" (zeros k)
  end.

(** The quotient [num / den] rounded to the nearest integer, ties to
    even; [den] is positive. *)
Definition round_half_even (num den : Z) : Z :=
  let q := (num / den)%Z in
  let r := (num mod den)%Z in
  match (2 * r ?= den)%Z with
  | Lt => q
  | Gt => (q + 1)%Z
  | Eq => if Z.even q then q else (q + 1)%Z
  end.

(** [m * 2^e * 10^nd] as an integer, correctly rounded. *)
Definition scaled_decimal (nd : nat) (m : positive) (e : Z) : Z :=
  if (0 <=? e)%Z
  then (Zpos m * 2 ^ e * 10 ^ Z.of_nat nd)%Z
  else round_half_even (Zpos m * 10 ^ Z.of_nat nd) (2 ^ (- e)).

(** The digits of [q] with a point before the last [nd] of them. *)
Definition fixed_point (nd : nat) (q : Z) : string :=
  let ds := NilZero.string_of_uint (N.to_uint (Z.to_N q)) in
  let ds := zeros (S nd - String.length ds) ++ ds in
  let k := (String.length ds - nd)%nat in
  substring 0 k ds ++
  match nd with
  | O => ""
  | S _ => String "." (substring k nd ds)
  end.

(** The presentation type [f] with a precision, for a float. *)
Definition format_float_f (nd : nat) (f : B64.float) : string :=
  match f with
  | S754_nan => "nan"
  | S754_infinity s => if s then "-inf" else "inf"
  | S754_zero s => (if s then "-" else "") ++ fixed_point nd 0
  | S754_finite s m e =>
      (if s then "-" else "") ++ fixed_point nd (scaled_decimal nd m e)
  end.

(** ['{number:.{digits}f}'.format(number=x, digits=nd)]: an integer is
    converted to a float first; a negative precision is refused. *)
Definition py_format_f (x : pynum) (nd : Z) : result string :=
  if (nd <? 0)%Z then Raise ValueError
  else
    let* f := py_float x in
    Ok (format_float_f (Z.to_nat nd) f).

(** ** Python sequences *)

(** [l[i]] with Python's negative indices. *)
Definition py_index {A} (l : list A) (i : Z) : result A :=
  let n := Z.of_nat (List.length l) in
  let j := if (i <? 0)%Z then (i + n)%Z else i in
  if ((0 <=? j)%Z && (j <? n)%Z)%bool
  then match nth_error l (Z.to_nat j) with
       | Some x => Ok x
       | None => Raise IndexError
       end
  else Raise IndexError.

Definition enumerate {A} (l : list A) : list (nat * A) :=
  combine (seq 0 (List.length l)) l.

(** [max(l)]: the first of the largest elements. *)
Fixpoint py_max_from (best : pynum) (l : list pynum) : pynum :=
  match l with
  | [] => best
  | x :: r => py_max_from (if py_gt x best then x else best) r
  end.

Definition py_max (l : list pynum) : result pynum :=
  match l with
  | [] => Raise ValueError
  | x :: r => Ok (py_max_from x r)
  end.

(** [max(l, key=len)] on strings. *)
Fixpoint py_max_len_from (best : string) (l : list string) : string :=
  match l with
  | [] => best
  | x :: r =>
      py_max_len_from
        (if (String.length best <? String.length x)%nat then x else best) r
  end.

Definition py_max_len (l : list string) : result string :=
  match l with
  | [] => Raise ValueError
  | x :: r => Ok (py_max_len_from x r)
  end.

(** ** The plotting library's objects *)

Record spine : Type := mk_spine {
  sp_color : string;
  sp_visible : bool;
  sp_position : option (string * Z);
  sp_smart_bounds : bool
}.

Record axis_label : Type := mk_axis_label {
  al_text : string;
  al_rotation : option string;
  al_ha : option string;
  al_pad : option pynum
}.

(** The switches of the tick marks and of the tick labels of an axis.
    Side 1 is the left of a y-axis and the bottom of an x-axis, side 2 the
    right and the top. *)
Record tick_flags : Type := mk_tick_flags {
  tick1On : bool;
  tick2On : bool;
  label1On : bool;
  label2On : bool
}.

(** An x- or y-axis: the side last asked for with [set_ticks_position],
    the tick locations when they were fixed by [set_ticks] ([None] while
    the library's locator chooses them), the axis label, and the switches
    of its ticks. *)
Record axis_obj : Type := mk_axis {
  ticks_position : string;
  ticks : option (list pynum);
  axis_lab : option axis_label;
  tick_kw : tick_flags
}.

Record line2d : Type := mk_line {
  l_label : string;
  l_color : string;
  l_xydata : list (pynum * pynum);
  l_lw : option pynum;
  l_clip_on : bool
}.

(** A text artist.  An annotation is a text that also keeps, in [t_xy],
    the very array it was given as [xy] (a reference, not a copy). *)
Record text : Type := mk_text {
  t_x : pynum;
  t_y : pynum;
  t_text : string;
  t_color : option string;
  t_ha : string;
  t_va : string;
  t_fontsize : option Z;
  t_xy : option nat;
  t_xycoords : string;
  t_draggable : bool
}.

Record scatter_obj : Type := mk_scatter {
  sc_x : list pynum;
  sc_y : list pynum;
  sc_color : option string;
  sc_size : Z;
  sc_clip_on : bool
}.

Record tick_params_obj : Type := mk_tick_params {
  tp_axis : string;
  tp_which : string;
  tp_flags : list (string * bool)
}.

(** An axes (a panel).  [ax_xlim] and [ax_ylim] hold the view limits
    once [set_xlim] and [set_ylim] fixed them; [None] means the library
    autoscales.  [ax_tick_params] keeps the keywords of the last call of
    [ax.tick_params]. *)
Record axes : Type := mk_axes {
  ax_spines : list (string * spine);
  ax_xaxis : axis_obj;
  ax_yaxis : axis_obj;
  ax_xlim : option (pynum * pynum);
  ax_ylim : option (pynum * pynum);
  ax_lines : list line2d;
  ax_texts : list text;
  ax_collections : list scatter_obj;
  ax_tick_params : option tick_params_obj
}.

Record figure : Type := mk_figure {
  fig_axes : list nat;
  fig_size : option (pynum * pynum);
  fig_aligned : bool;
  fig_tight : bool
}.

(** What an interpreter holds between two statements: the axes and the
    figures created so far (an object is its index in the store), pyplot's
    current figure and axes, numpy float buffers, the files written, and
    the values the random generator is going to draw. *)
Record pyplot : Type := mk_pyplot {
  all_axes : list axes;
  all_figures : list figure;
  gcf_ : option nat;
  gca_ : option nat;
  buffers : list (list B64.float);
  saved : list (string * nat);
  randoms : list Z
}.

Definition new_spine : spine :=
  {| sp_color := "black"; sp_visible := true;
     sp_position := None; sp_smart_bounds := false |}.

(** A fresh axis, with the library's default settings: marks and labels
    on side 1 only. *)
Definition new_axis : axis_obj :=
  {| ticks_position := "default"; ticks := None; axis_lab := None;
     tick_kw := mk_tick_flags true false true false |}.

(** A fresh rectilinear axes: four spines, in the library's order. *)
Definition new_axes : axes :=
  {| ax_spines := [("left", new_spine); ("right", new_spine);
                   ("bottom", new_spine); ("top", new_spine)];
     ax_xaxis := new_axis; ax_yaxis := new_axis;
     ax_xlim := None; ax_ylim := None;
     ax_lines := []; ax_texts := []; ax_collections := [];
     ax_tick_params := None |}.

Definition new_figure (l : list nat) (size : option (pynum * pynum)) : figure :=
  {| fig_axes := l; fig_size := size; fig_aligned := false; fig_tight := false |}.

Definition empty_pyplot : pyplot :=
  {| all_axes := []; all_figures := []; gcf_ := None; gca_ := None;
     buffers := []; saved := []; randoms := [] |}.

(** A spine is drawn when it is visible and has a colour. *)
Definition spine_drawn (s : spine) : bool :=
  sp_visible s && negb (String.eqb (sp_color s) "none").

(** *** Field updates *)

Definition with_spines (f : list (string * spine) -> list (string * spine))
    (p : axes) : axes :=
  mk_axes (f (ax_spines p)) (ax_xaxis p) (ax_yaxis p) (ax_xlim p) (ax_ylim p)
    (ax_lines p) (ax_texts p) (ax_collections p) (ax_tick_params p).

Definition with_xaxis (f : axis_obj -> axis_obj) (p : axes) : axes :=
  mk_axes (ax_spines p) (f (ax_xaxis p)) (ax_yaxis p) (ax_xlim p) (ax_ylim p)
    (ax_lines p) (ax_texts p) (ax_collections p) (ax_tick_params p).

Definition with_yaxis (f : axis_obj -> axis_obj) (p : axes) : axes :=
  mk_axes (ax_spines p) (ax_xaxis p) (f (ax_yaxis p)) (ax_xlim p) (ax_ylim p)
    (ax_lines p) (ax_texts p) (ax_collections p) (ax_tick_params p).

Definition with_xlim (v : option (pynum * pynum)) (p : axes) : axes :=
  mk_axes (ax_spines p) (ax_xaxis p) (ax_yaxis p) v (ax_ylim p)
    (ax_lines p) (ax_texts p) (ax_collections p) (ax_tick_params p).

Definition with_ylim (v : option (pynum * pynum)) (p : axes) : axes :=
  mk_axes (ax_spines p) (ax_xaxis p) (ax_yaxis p) (ax_xlim p) v
    (ax_lines p) (ax_texts p) (ax_collections p) (ax_tick_params p).

Definition with_lines (f : list line2d -> list line2d) (p : axes) : axes :=
  mk_axes (ax_spines p) (ax_xaxis p) (ax_yaxis p) (ax_xlim p) (ax_ylim p)
    (f (ax_lines p)) (ax_texts p) (ax_collections p) (ax_tick_params p).

Definition with_texts (f : list text -> list text) (p : axes) : axes :=
  mk_axes (ax_spines p) (ax_xaxis p) (ax_yaxis p) (ax_xlim p) (ax_ylim p)
    (ax_lines p) (f (ax_texts p)) (ax_collections p) (ax_tick_params p).

Definition with_collections (f : list scatter_obj -> list scatter_obj)
    (p : axes) : axes :=
  mk_axes (ax_spines p) (ax_xaxis p) (ax_yaxis p) (ax_xlim p) (ax_ylim p)
    (ax_lines p) (ax_texts p) (f (ax_collections p)) (ax_tick_params p).

(** [axis.set_ticks_position(pos)].  The library does it through
    [set_tick_params]: the marks and the labels go to one side, or the
    marks to both sides or to none.  Any other word is refused there; the
    helpers pass "left" and "bottom" only. *)
Definition position_flags (pos : string) (f : tick_flags) : tick_flags :=
  if String.eqb pos "left" || String.eqb pos "bottom"
  then mk_tick_flags true false true false
  else if String.eqb pos "right" || String.eqb pos "top"
  then mk_tick_flags false true false true
  else if String.eqb pos "both"
  then mk_tick_flags true true (label1On f) (label2On f)
  else if String.eqb pos "none"
  then mk_tick_flags false false (label1On f) (label2On f)
  else if String.eqb pos "default"
  then mk_tick_flags true true true false
  else f.

Definition set_ticks_position (pos : string) (a : axis_obj) : axis_obj :=
  mk_axis pos (ticks a) (axis_lab a) (position_flags pos (tick_kw a)).

Definition set_ticks (l : list pynum) (a : axis_obj) : axis_obj :=
  mk_axis (ticks_position a) (Some l) (axis_lab a) (tick_kw a).

Definition set_label (l : axis_label) (a : axis_obj) : axis_obj :=
  mk_axis (ticks_position a) (ticks a) (Some l) (tick_kw a).

Definition set_color (c : string) (s : spine) : spine :=
  mk_spine c (sp_visible s) (sp_position s) (sp_smart_bounds s).

Definition set_visible (b : bool) (s : spine) : spine :=
  mk_spine (sp_color s) b (sp_position s) (sp_smart_bounds s).

Definition set_position (pos : string * Z) (s : spine) : spine :=
  mk_spine (sp_color s) (sp_visible s) (Some pos) (sp_smart_bounds s).

Definition set_smart_bounds (b : bool) (s : spine) : spine :=
  mk_spine (sp_color s) (sp_visible s) (sp_position s) b.

Definition set_draggable (t : text) : text :=
  mk_text (t_x t) (t_y t) (t_text t) (t_color t) (t_ha t) (t_va t)
    (t_fontsize t) (t_xy t) (t_xycoords t) true.

(** [update_nth i f l] applies [f] to the element of index [i], if any. *)
Fixpoint update_nth {A} (i : nat) (f : A -> A) (l : list A) : list A :=
  match l, i with
  | [], _ => []
  | x :: r, O => f x :: r
  | x :: r, S k => x :: update_nth k f r
  end.

(** The spine at a location: [ax.spines[loc]]. *)
Fixpoint lookup {A} (k : string) (l : list (string * A)) : option A :=
  match l with
  | [] => None
  | (k', v) :: r => if String.eqb k k' then Some v else lookup k r
  end.

Fixpoint update_key {A} (k : string) (f : A -> A) (l : list (string * A))
    : list (string * A) :=
  match l with
  | [] => []
  | (k', v) :: r =>
      if String.eqb k k' then (k', f v) :: r else (k', v) :: update_key k f r
  end.

(** [axis.set_tick_params] with keywords for the switches: [side1] and [side2]
    are the names of the two sides of the axis, and a keyword that is not
    given leaves its switch alone. *)
Definition flag (k : string) (kw : list (string * bool)) (old : bool) : bool :=
  match lookup k kw with
  | Some b => b
  | None => old
  end.

Definition set_tick_params (side1 side2 : string) (kw : list (string * bool))
    (a : axis_obj) : axis_obj :=
  let f := tick_kw a in
  mk_axis (ticks_position a) (ticks a) (axis_lab a)
    (mk_tick_flags (flag side1 kw (tick1On f)) (flag side2 kw (tick2On f))
       (flag ("label" ++ side1) kw (label1On f))
       (flag ("label" ++ side2) kw (label2On f))).

(** [ax.tick_params(axis=..., which=..., ...)]: the keywords go to the
    x-axis, to the y-axis or to both. *)
Definition with_tick_params (v : tick_params_obj) (p : axes) : axes :=
  let on_x := String.eqb (tp_axis v) "x" || String.eqb (tp_axis v) "both" in
  let on_y := String.eqb (tp_axis v) "y" || String.eqb (tp_axis v) "both" in
  mk_axes (ax_spines p)
    (if on_x then set_tick_params "bottom" "top" (tp_flags v) (ax_xaxis p)
     else ax_xaxis p)
    (if on_y then set_tick_params "left" "right" (tp_flags v) (ax_yaxis p)
     else ax_yaxis p)
    (ax_xlim p) (ax_ylim p)
    (ax_lines p) (ax_texts p) (ax_collections p) (Some v).

(** [x in l] for a list of strings. *)
Definition py_in (x : string) (l : list string) : bool :=
  existsb (String.eqb x) l.

(** [l.append(x)]. *)
Definition snoc {A} (l : list A) (x : A) : list A := (l ++ [x])%list.

(** ** The interpreter monad: state and exceptions *)

Definition M (A : Type) : Type := pyplot -> result (A * pyplot).

Definition ret {A} (a : A) : M A := fun w => Ok (a, w).

Definition bind {A B} (m : M A) (k : A -> M B) : M B :=
  fun w =>
    match m w with
    | Ok (a, w') => k a w'
    | Raise e => Raise e
    end.

Definition raise {A} (e : exn) : M A := fun _ => Raise e.

Definition lift {A} (r : result A) : M A :=
  fun w =>
    match r with
    | Ok a => Ok (a, w)
    | Raise e => Raise e
    end.

Declare Scope py_scope.
Delimit Scope py_scope with py.

Notation "x <- m ;; k" := (bind m (fun x => k))
  (at level 61, m at next level, right associativity) : py_scope.
Notation "m ;; k" := (bind m (fun _ => k))
  (at level 61, right associativity) : py_scope.

Local Open Scope py_scope.

(** [for x in l: body]. *)
Fixpoint for_each {A} (l : list A) (body : A -> M unit) : M unit :=
  match l with
  | [] => ret tt
  | x :: r => body x ;; for_each r body
  end.

(** A loop that also carries the local variables it assigns. *)
Fixpoint for_fold {A S} (l : list A) (s : S) (body : A -> S -> M S) : M S :=
  match l with
  | [] => ret s
  | x :: r => s' <- body x s ;; for_fold r s' body
  end.

(** *** Store access *)

Definition set_all_axes (l : list axes) (w : pyplot) : pyplot :=
  mk_pyplot l (all_figures w) (gcf_ w) (gca_ w) (buffers w) (saved w)
    (randoms w).

Definition set_all_figures (l : list figure) (w : pyplot) : pyplot :=
  mk_pyplot (all_axes w) l (gcf_ w) (gca_ w) (buffers w) (saved w)
    (randoms w).

Definition set_current (f a : option nat) (w : pyplot) : pyplot :=
  mk_pyplot (all_axes w) (all_figures w) f a (buffers w) (saved w)
    (randoms w).

Definition set_buffers (l : list (list B64.float)) (w : pyplot) : pyplot :=
  mk_pyplot (all_axes w) (all_figures w) (gcf_ w) (gca_ w) l (saved w)
    (randoms w).

Definition set_saved (l : list (string * nat)) (w : pyplot) : pyplot :=
  mk_pyplot (all_axes w) (all_figures w) (gcf_ w) (gca_ w) (buffers w) l
    (randoms w).

Definition set_randoms (l : list Z) (w : pyplot) : pyplot :=
  mk_pyplot (all_axes w) (all_figures w) (gcf_ w) (gca_ w) (buffers w)
    (saved w) l.

Definition get_axes (a : nat) : M axes :=
  fun w =>
    match nth_error (all_axes w) a with
    | Some p => Ok (p, w)
    | None => Raise AttributeError
    end.

Definition modify_axes (a : nat) (f : axes -> axes) : M unit :=
  fun w =>
    match nth_error (all_axes w) a with
    | Some _ => Ok (tt, set_all_axes (update_nth a f (all_axes w)) w)
    | None => Raise AttributeError
    end.

Definition modify_figure (g : nat) (f : figure -> figure) : M unit :=
  fun w =>
    match nth_error (all_figures w) g with
    | Some _ => Ok (tt, set_all_figures (update_nth g f (all_figures w)) w)
    | None => Raise AttributeError
    end.

(** *** pyplot *)

(** [plt.gcf()]: the current figure, created when there is none. *)
Definition gcf : M nat :=
  fun w =>
    match gcf_ w with
    | Some g => Ok (g, w)
    | None =>
        let g := List.length (all_figures w) in
        Ok (g, set_current (Some g) (gca_ w)
                 (set_all_figures (snoc (all_figures w) (new_figure [] None)) w))
    end.

(** [plt.gca()]: the current axes, created in the current figure when
    there is none. *)
Definition gca : M nat :=
  fun w =>
    match gca_ w with
    | Some a => Ok (a, w)
    | None =>
        match gcf w with
        | Ok (g, w1) =>
            let a := List.length (all_axes w1) in
            Ok (a, set_current (Some g) (Some a)
                     (set_all_figures
                        (update_nth g
                           (fun f => mk_figure (snoc (fig_axes f) a) (fig_size f)
                                       (fig_aligned f) (fig_tight f))
                           (all_figures w1))
                        (set_all_axes (snoc (all_axes w1) new_axes) w1)))
        | Raise e => Raise e
        end
    end.

(** What [plt.subplots] hands back for the axes: with the default
    [squeeze=True] a single axes comes as the object itself, several as an
    array. *)
Inductive axarr : Type :=
| OneAxes (a : nat)
| AxesArray (l : list nat).

(** [plt.subplots(nrows, 1, figsize=...)]: a new figure, which becomes
    current, with [nrows] fresh axes. *)
Definition subplots (nrows : nat) (figsize : option (pynum * pynum))
    : M (nat * axarr) :=
  fun w =>
    match nrows with
    | O => Raise ValueError
    | S k =>
        let base := List.length (all_axes w) in
        let ids := seq base nrows in
        let g := List.length (all_figures w) in
        Ok ((g, match ids with [a] => OneAxes a | _ => AxesArray ids end),
            set_current (Some g) (Some (base + k))
              (set_all_figures (snoc (all_figures w) (new_figure ids figsize))
                 (set_all_axes (all_axes w ++ repeat new_axes nrows)%list w)))
    end.

(** Iterating over, indexing and measuring the result of [subplots]: a
    single axes object supports none of them. *)
Definition axarr_iter (x : axarr) : result (list nat) :=
  match x with
  | OneAxes _ => Raise TypeError
  | AxesArray l => Ok l
  end.

Definition axarr_index (x : axarr) (i : Z) : result nat :=
  match x with
  | OneAxes _ => Raise TypeError
  | AxesArray l => py_index l i
  end.

Definition fig_savefig (g : nat) (name : string) : M unit :=
  fun w =>
    match nth_error (all_figures w) g with
    | Some _ => Ok (tt, set_saved (snoc (saved w) (name, g)) w)
    | None => Raise AttributeError
    end.

Definition savefig (name : string) : M unit :=
  g <- gcf ;; fig_savefig g name.

Definition tight_layout : M unit :=
  g <- gcf ;;
  modify_figure g
    (fun f => mk_figure (fig_axes f) (fig_size f) (fig_aligned f) true).

Definition align_labels (g : nat) : M unit :=
  modify_figure g
    (fun f => mk_figure (fig_axes f) (fig_size f) true (fig_tight f)).

Definition set_size_inches (g : nat) (w h : pynum) : M unit :=
  modify_figure g
    (fun f => mk_figure (fig_axes f) (Some (w, h)) (fig_aligned f) (fig_tight f)).

(** *** Axes methods *)

(** The limit setters, as in the releases 3.1 to 3.3 of the library. *)

(** [_validate_converted_limit]: a limit that is not finite is refused. *)
Definition validate_limit (x : pynum) : result pynum :=
  let* finite := np_isfinite x in
  if finite then Ok x else Raise ValueError.

(** [max(a, b)] on two floats: the first one unless the second is larger. *)
Definition float_max (a b : B64.float) : B64.float :=
  if B64.ltb a b then b else a.

(** [np.finfo(float).tiny], the smallest positive normal number. *)
Definition finfo_tiny : B64.float := S754_finite false 4503599627370496 (-1074).

(** [transforms.nonsingular(vmin, vmax, expander, tiny=1e-15)]: the two
    ends in increasing order, as floats, moved apart when they are too
    close to each other or to zero. *)
Definition nonsingular (vmin vmax : pynum) (expander : B64.float)
    : result (B64.float * B64.float) :=
  let tiny := B64.lit 1 (10 ^ 15) in
  let* finite := np_isfinite vmin in
  if negb finite then Ok (B64.opp expander, expander)
  else
    let* finite := np_isfinite vmax in
    if negb finite then Ok (B64.opp expander, expander)
    else
      let swapped := py_gt vmin vmax in
      let* a := py_float (if swapped then vmax else vmin) in
      let* b := py_float (if swapped then vmin else vmax) in
      let maxabsvalue := float_max (B64.abs a) (B64.abs b) in
      if B64.ltb maxabsvalue
           (B64.mul (B64.div (B64.of_Z 1000000) tiny) finfo_tiny)
      then Ok (B64.opp expander, expander)
      else if B64.leb (B64.sub b a) (B64.mul maxabsvalue tiny)
      then
        if B64.eqb b (B64.of_Z 0) && B64.eqb a (B64.of_Z 0)
        then Ok (B64.opp expander, expander)
        else Ok (B64.sub a (B64.mul expander (B64.abs a)),
                 B64.add b (B64.mul expander (B64.abs b)))
      else Ok (a, b).

(** [sorted([a, b], reverse=...)]. *)
Definition sorted2 (reverse : bool) (a b : B64.float)
    : B64.float * B64.float :=
  if reverse
  then if B64.ltb a b then (b, a) else (a, b)
  else if B64.ltb b a then (b, a) else (a, b).

(** What [ax.set_xlim(lo, hi)] and [ax.set_ylim(lo, hi)] make of their
    arguments on a linear axis: each limit is validated, the pair goes
    through the locator's [nonsingular], which widens by 5 per cent, and
    is stored in the direction it was given in. *)
Definition check_limits (lo hi : pynum) : result (pynum * pynum) :=
  let* lo := validate_limit lo in
  let* hi := validate_limit hi in
  let reverse := py_gt lo hi in
  let* v := nonsingular lo hi (B64.lit 5 100) in
  let v := sorted2 reverse (fst v) (snd v) in
  Ok (PFloat (fst v), PFloat (snd v)).

Definition set_xlim (a : nat) (lo hi : pynum) : M unit :=
  v <- lift (check_limits lo hi) ;; modify_axes a (with_xlim (Some v)).

Definition set_ylim (a : nat) (lo hi : pynum) : M unit :=
  v <- lift (check_limits lo hi) ;; modify_axes a (with_ylim (Some v)).

(** [ax.set_ylim(seq)]: the sequence is unpacked into bottom and top. *)
Definition set_ylim_seq (a : nat) (l : list pynum) : M unit :=
  match l with
  | [lo; hi] => set_ylim a lo hi
  | _ => raise ValueError
  end.

Definition new_line_label (p : axes) : string :=
  "_line" ++ py_str_int (Z.of_nat (List.length (ax_lines p))).

(** [ax.axhline(y=..., c=..., lw=...)]: a line across the axes. *)
Definition axhline (a : nat) (y : pynum) (c : string) (lw : pynum) : M unit :=
  modify_axes a
    (fun p => with_lines
       (fun l => snoc l (mk_line (new_line_label p) c
                           [(PInt 0, y); (PInt 1, y)] (Some lw) true)) p).

(** [ax.add_line(Line2D(xs, ys, lw=..., color=...))] after
    [line.set_clip_on(False)]. *)
Definition add_line (a : nat) (xs ys : list pynum) (lw : pynum) (c : string)
    : M unit :=
  modify_axes a
    (fun p => with_lines
       (fun l => snoc l (mk_line (new_line_label p) c (combine xs ys)
                           (Some lw) false)) p).

(** The colour the property cycle gives to the next plotted line. *)
Definition cycle_color (p : axes) : string :=
  "C" ++ py_str_int (Z.of_nat (List.length (ax_lines p)) mod 10).

(** [ax.plot(x, y, clip_on=False, lw=...)]: [x] and [y] must have the same
    length. *)
Definition plot (a : nat) (xs ys : list pynum) (lw : pynum) : M unit :=
  if (List.length xs =? List.length ys)%nat
  then modify_axes a
         (fun p => with_lines
            (fun l => snoc l (mk_line (new_line_label p) (cycle_color p)
                                (combine xs ys) (Some lw) false)) p)
  else raise ValueError.

(** [ax.scatter(x, y, c=..., s=..., clip_on=False)]. *)
Definition scatter (a : nat) (xs ys : list pynum) (c : option string)
    (size : Z) : M unit :=
  if (List.length xs =? List.length ys)%nat
  then modify_axes a
         (with_collections (fun l => snoc l (mk_scatter xs ys c size false)))
  else raise ValueError.

(** [ax.text(x, y, s, ...)]: the new text's index among the axes' texts
    is returned with the axes, as a handle on the artist. *)
Definition ax_text (a : nat) (x y : pynum) (s : string) (color : option string)
    (ha va : string) (fontsize : option Z) : M (nat * nat) :=
  p <- get_axes a ;;
  modify_axes a
    (with_texts (fun l => snoc l (mk_text x y s color ha va fontsize None
                                    "data" false))) ;;
  ret (a, List.length (ax_texts p)).

(** [ax.set_ylabel(s, rotation=..., horizontalalignment=..., labelpad=...)]
    and [ax.set_xlabel(s)]. *)
Definition set_ylabel (a : nat) (s : string) (rotation ha : string)
    (pad : pynum) : M unit :=
  modify_axes a
    (with_yaxis (set_label (mk_axis_label s (Some rotation) (Some ha) (Some pad)))).

Definition set_xlabel (a : nat) (s : string) : M unit :=
  modify_axes a (with_xaxis (set_label (mk_axis_label s None None None))).

(** [ax.spines[loc].set_visible(b)]. *)
Definition spine_set_visible (a : nat) (loc : string) (b : bool) : M unit :=
  p <- get_axes a ;;
  match lookup loc (ax_spines p) with
  | Some _ => modify_axes a (with_spines (update_key loc (set_visible b)))
  | None => raise KeyError
  end.

(** *** numpy *)

Definition np_sqrt (x : pynum) : result B64.float :=
  let* f := py_float x in
  Ok (B64.sqrt f).

(** [np.ceil]: a float again; a negative argument above -1 gives -0.0. *)
Definition np_ceil (f : B64.float) : B64.float :=
  match B64.ceil f with
  | Some z =>
      if ((z =? 0)%Z && B64.sign f)%bool then S754_zero true else B64.of_Z z
  | None => f
  end.

Definition set_last {A} (l : list A) (x : A) : list A :=
  match l with
  | [] => []
  | _ => (removelast l ++ [x])%list
  end.

(** [np.linspace(start, stop, num)] with the end point included.  The
    count is passed through [int], as numpy did for a float count up to
    release 1.17; the last sample is set to [stop] itself. *)
Definition np_linspace (start stop num : B64.float) : result (list B64.float) :=
  let* n := py_int (PFloat num) in
  if (n <? 0)%Z then Raise ValueError
  else
    let n := Z.to_nat n in
    let div := B64.of_Z (Z.of_nat (n - 1)) in
    let delta := B64.sub stop start in
    let y := map (fun k => B64.of_Z (Z.of_nat k)) (seq 0 n) in
    let y :=
      if (1 <? n)%nat
      then
        let step := B64.div delta div in
        if B64.is_zero step
        then map (fun v => B64.mul (B64.div v div) delta) y
        else map (fun v => B64.mul v step) y
      else map (fun v => B64.mul v delta) y in
    let y := map (fun v => B64.add v start) y in
    Ok (if (1 <? n)%nat then set_last y stop else y).

(** [np.meshgrid(x, y)]: two [len(y)] by [len(x)] arrays, the first with
    [x] in every row, the second with [y] down every column. *)
Definition np_meshgrid (x y : list B64.float)
    : list (list B64.float) * list (list B64.float) :=
  (map (fun _ => x) y, map (fun v => map (fun _ => v) x) y).

(** [a.reshape(-1)]: the rows one after the other. *)
Definition reshape_flat (a : list (list B64.float)) : list B64.float :=
  List.concat a.

(** [a[i]] for a one-dimensional array and a non-negative index. *)
Definition np_index {A} (l : list A) (i : nat) : result A :=
  match nth_error l i with
  | Some x => Ok x
  | None => Raise IndexError
  end.

(** [np.zeros(n)]: a new buffer; the result is the reference to it. *)
Definition np_zeros (n : nat) : M nat :=
  fun w =>
    Ok (List.length (buffers w),
        set_buffers (snoc (buffers w) (repeat (S754_zero false) n)) w).

Definition get_buffer (b : nat) : M (list B64.float) :=
  fun w =>
    match nth_error (buffers w) b with
    | Some l => Ok (l, w)
    | None => Raise AttributeError
    end.

(** [buf[i] = v], in place. *)
Definition buf_set (b i : nat) (v : B64.float) : M unit :=
  l <- get_buffer b ;;
  if (i <? List.length l)%nat
  then fun w => Ok (tt, set_buffers
                          (update_nth b (update_nth i (fun _ => v)) (buffers w)) w)
  else raise IndexError.

(** [np.random.randint(low, high)]: the next value of the generator,
    brought into [low, high). *)
Definition randint (low high : Z) : M Z :=
  if (high <=? low)%Z then raise ValueError
  else fun w =>
    match randoms w with
    | [] => Ok (low, w)
    | r :: rest => Ok ((low + r mod (high - low))%Z, set_randoms rest w)
    end.

(** [ax.annotate(s, xy=buf, ha=..., va=..., color=..., xycoords=...)].
    The text is placed at the two numbers read from the array now; the
    annotation keeps the array itself as its [xy]. *)
Definition annotate (a : nat) (s : string) (xy : nat) (ha va color : string)
    (xycoords : string) : M (nat * nat) :=
  buf <- get_buffer xy ;;
  match buf with
  | [x; y] =>
      p <- get_axes a ;;
      modify_axes a
        (with_texts (fun l => snoc l (mk_text (PFloat x) (PFloat y) s
                                        (Some color) ha va None (Some xy)
                                        xycoords false))) ;;
      ret (a, List.length (ax_texts p))
  | _ => raise ValueError
  end.

(** [t.draggable()] on the artist behind a handle. *)
Definition draggable (h : nat * nat) : M unit :=
  modify_axes (fst h) (with_texts (update_nth (snd h) set_draggable)).

(** * The helpers of [niceplots/utils.py] *)

(** [if ax == None: ax = plt.gca()]. *)
Definition default_axes (ax : option nat) : M nat :=
  match ax with
  | None => gca
  | Some a => ret a
  end.

(** ** [adjust_spines] *)

(** The body of the loop over [ax.spines.items()]. *)
Definition adjust_spine (spines : list string) (smart_bounds outward : bool)
    (item : string * spine) : string * spine :=
  let (loc, spine) := item in
  if py_in loc spines
  then
    let spine := if outward then set_position ("outward", 12%Z) spine else spine in
    (loc, set_smart_bounds smart_bounds spine)
  else (loc, set_color "none" spine).

Definition adjust_spines (ax : option nat) (spines : list string)
    (smart_bounds outward : bool) : M unit :=
  ax <- default_axes ax ;;
  modify_axes ax (with_spines (map (adjust_spine spines smart_bounds outward))) ;;
  (if py_in "left" spines
   then modify_axes ax (with_yaxis (set_ticks_position "left"))
   else modify_axes ax (with_yaxis (set_ticks []))) ;;
  (if py_in "bottom" spines
   then modify_axes ax (with_xaxis (set_ticks_position "bottom"))
   else modify_axes ax (with_xaxis (set_ticks []))).

(** The defaults of the signature. *)
Definition default_spines : list string := ["left"; "bottom"].

(** ** [draggable_legend] *)

(** The limits read at the top of the function ([xlim], [ylim], [xl],
    [yl]) are never used and reading them changes nothing, so they have no
    counterpart here. *)
Definition draggable_legend (axis : option nat) (color_on : bool) : M unit :=
  axis <- default_axes axis ;;
  p <- get_axes axis ;;
  let lines := ax_lines p in
  let nlines := List.length lines in
  s <- lift (np_sqrt (PInt (Z.of_nat nlines))) ;;
  let n := np_ceil s in
  lins <- lift (np_linspace (B64.lit 1 10) (B64.lit 9 10) n) ;;
  let xs := reshape_flat (fst (np_meshgrid lins lins)) in
  let ys := reshape_flat (snd (np_meshgrid lins lins)) in
  coords <- np_zeros 2 ;;
  for_fold (enumerate lines) []
    (fun il legend =>
       let idx := fst il in
       let line := snd il in
       x <- lift (np_index xs idx) ;;
       buf_set coords 0 x ;;
       y <- lift (np_index ys idx) ;;
       buf_set coords 1 y ;;
       let label := l_label line in
       let color := if color_on then l_color line else "k" in
       h <- annotate axis label coords "center" "center" color "axes fraction" ;;
       let legend := snoc legend h in
       h' <- lift (np_index legend idx) ;;
       draggable h' ;;
       ret legend) ;;
  ret tt.

(** ** [auto_place_legend] *)

(** The [rel_xloc] argument: absent, one number, or a list of numbers. *)
Inductive rel_xloc_arg : Type :=
| RelNone
| RelScalar (x : pynum)
| RelList (l : list pynum).

(** [if type(rel_xloc) is float: rel_xloc = nLines * [rel_xloc]]. *)
Definition broadcast_rel_xloc (nLines : nat) (rel_xloc : rel_xloc_arg)
    : rel_xloc_arg :=
  match rel_xloc with
  | RelScalar (PFloat f) => RelList (repeat (PFloat f) nLines)
  | other => other
  end.

(** [rel_xloc[i]]: a number that was not broadcast cannot be subscripted. *)
Definition rel_xloc_item (rel_xloc : rel_xloc_arg) (i : nat) : result pynum :=
  match rel_xloc with
  | RelList l => py_index l (Z.of_nat i)
  | _ => Raise TypeError
  end.

(** The index of the data point a label starts on:
    [int(rel_xloc[i] * coords[:,0].shape[0])], or a random one. *)
Definition anchor_index (rel_xloc : rel_xloc_arg) (i : nat) (npoints : Z)
    : M Z :=
  match rel_xloc with
  | RelNone => randint 0 npoints
  | _ =>
      r <- lift (rel_xloc_item rel_xloc i) ;;
      v <- lift (py_mul r (PInt npoints)) ;;
      lift (py_int v)
  end.

(** The body of the loop over [enumerate(ax.lines)]. *)
Definition place_text (ax : nat) (rel_xloc : rel_xloc_arg) (color_on : bool)
    (il : nat * line2d) (texts : list (nat * nat)) : M (list (nat * nat)) :=
  let i := fst il in
  let line := snd il in
  let coords := l_xydata line in
  idx <- anchor_index rel_xloc i (Z.of_nat (List.length coords)) ;;
  pt <- lift (py_index coords idx) ;;
  let label := l_label line in
  let color := if color_on then l_color line else "k" in
  t <- ax_text ax (fst pt) (snd pt) label (Some color) "center" "center" None ;;
  ret (snoc texts t).

(** The function up to the call of [adjust_text]: the texts it creates. *)
Definition place_texts (ax : nat) (rel_xloc : rel_xloc_arg) (color_on : bool)
    : M (list (nat * nat)) :=
  p <- get_axes ax ;;
  let nLines := List.length (ax_lines p) in
  let rel_xloc := broadcast_rel_xloc nLines rel_xloc in
  for_fold (enumerate (ax_lines p)) [] (place_text ax rel_xloc color_on).

Section AutoPlaceLegend.

(** The overlap solver of the adjustText package is not part of this
    module: it is any action on the texts it is given. *)
Variable kwargs : Type.
Variable adjust_text : list (nat * nat) -> nat -> kwargs -> M unit.

Definition auto_place_legend (ax : nat) (rel_xloc : rel_xloc_arg)
    (color_on : bool) (kw : kwargs) : M unit :=
  texts <- place_texts ax rel_xloc color_on ;;
  adjust_text texts ax kw.

End AutoPlaceLegend.

(** ** [horiz_bar] *)

Fixpoint zip3 {A B C} (la : list A) (lb : list B) (lc : list C)
    : list (A * B * C) :=
  match la, lb, lc with
  | a :: ra, b :: rb, c :: rc => (a, b, c) :: zip3 ra rb rc
  | _, _, _ => []
  end.

(** The loop that finds the largest number of integer digits. *)
Fixpoint max_digits (times : list pynum) (t_max_digits : Z) : result Z :=
  match times with
  | [] => Ok t_max_digits
  | t :: r =>
      let* k := py_int t in
      let tm := py_len (py_str_int k) in
      max_digits r (if (t_max_digits <? tm)%Z then tm else t_max_digits)
  end.

Record bar_layout : Type := mk_bar_layout {
  bl_left_lim : pynum;
  bl_right_lim : pynum;
  bl_left_header_pos : pynum;
  bl_right_header_pos : pynum;
  bl_rule_end : pynum;
  bl_value_x : pynum;
  bl_xmax : pynum
}.

(** The positions computed from [t_max], [l_max], the header and [nd]. *)
Definition bar_positions (ts t_max : pynum) (l_max : Z) (header : list string)
    (nd : Z) : result bar_layout :=
  let* a := py_mul (py_neg ts) (PInt l_max) in
  let* a := py_mul a (PFloat (B64.lit 38 1000)) in
  let* left_lim := py_mul a t_max in
  let* right_lim := py_mul t_max (PFloat (B64.lit 111 100)) in
  let* h0 := py_index header 0 in
  let* a := py_mul (PInt (- py_len h0)) (PFloat (B64.lit 18 1000)) in
  let* a := py_mul a t_max in
  let* b := py_truediv left_lim (PInt 2) in
  let* left_header_pos := py_add a b in
  let* h1 := py_index header 1 in
  let* a := py_mul (PInt (- py_len h1)) (PFloat (B64.lit 18 1000)) in
  let* a := py_mul a t_max in
  let* a := py_add a right_lim in
  let* b := py_mul (PInt nd) (PFloat (B64.lit 2 100)) in
  let* b := py_add (PFloat (B64.lit 9 100)) b in
  let* b := py_mul t_max b in
  let* right_header_pos := py_add a b in
  let* c := py_mul (PInt nd) (PFloat (B64.lit 3 100)) in
  let* c := py_add (PFloat (B64.lit 15 100)) c in
  let* c := py_mul t_max c in
  let* rule_end := py_add right_lim c in
  let* value_x := py_mul right_lim (PFloat (B64.lit 115 100)) in
  let* xmax := py_mul t_max (PFloat (B64.lit 105 100)) in
  Ok (mk_bar_layout left_lim right_lim left_header_pos right_header_pos
        rule_end value_x xmax).

(** The body of the loop that draws one bar. *)
Definition draw_bar (num : nat) (t_max_digits nd : Z) (lay : bar_layout)
    (header : list string) (color : string)
    (jlta : nat * (string * pynum * nat)) : M unit :=
  let j := fst jlta in
  let l := fst (fst (snd jlta)) in
  let t := snd (fst (snd jlta)) in
  let ax := snd (snd jlta) in
  axhline ax (PInt 1) "#C0C0C0" (PInt 3) ;;
  scatter ax [t] [PInt 1] (Some color) 100 ;;
  set_ylim ax (PFloat (B64.lit 99 100)) (PFloat (B64.lit 101 100)) ;;
  set_xlim ax (PInt 0) (bl_xmax lay) ;;
  modify_axes ax
    (with_tick_params
       (mk_tick_params "both" "both"
          [("left", false); ("labelleft", false); ("labelright", false);
           ("labelbottom", false); ("right", false);
           ("bottom", (j =? num)%nat); ("top", false)])) ;;
  spine_set_visible ax "top" false ;;
  spine_set_visible ax "left" false ;;
  spine_set_visible ax "right" false ;;
  spine_set_visible ax "bottom" false ;;
  ax_text ax (bl_left_lim lay) (PInt 1) l None "left" "center" None ;;
  k <- lift (py_int t) ;;
  let d := (t_max_digits - py_len (py_str_int k))%Z in
  string <- lift (py_format_f t nd) ;;
  ax_text ax (bl_value_x lay) (PInt 1) string None "right" "center" None ;;
  (if (j =? 0)%nat
   then
     h0 <- lift (py_index header 0) ;;
     ax_text ax (bl_left_header_pos lay) (PFloat (B64.lit 102 100)) h0 None
       "left" "baseline" (Some 13%Z) ;;
     h1 <- lift (py_index header 1) ;;
     ax_text ax (bl_right_header_pos lay) (PFloat (B64.lit 102 100)) h1 None
       "left" "baseline" (Some 13%Z) ;;
     add_line ax [bl_left_lim lay; bl_rule_end lay]
       [PFloat (B64.lit 1014 1000); PFloat (B64.lit 1014 1000)]
       (PFloat (B64.lit 12 10)) "k"
   else ret tt).

Definition horiz_bar (labels : list string) (times : list pynum)
    (header : list string) (ts : pynum) (nd : Z) (size : list pynum)
    (color : string) : M unit :=
  let num := List.length times in
  width <- lift (py_index size 0) ;;
  h <- lift (py_index size 1) ;;
  height <- lift (py_mul h (PInt (Z.of_nat num))) ;;
  t_max <- lift (py_max times) ;;
  longest <- lift (py_max_len labels) ;;
  let l_max := py_len longest in
  fa <- subplots num None ;;
  let fig := fst fa in
  let axarr := snd fa in
  lay <- lift (bar_positions ts t_max l_max header nd) ;;
  t_max_digits <- lift (max_digits times 0) ;;
  axs <- lift (axarr_iter axarr) ;;
  for_each (enumerate (zip3 labels times axs))
    (draw_bar num t_max_digits nd lay header color) ;;
  set_size_inches fig width height ;;
  fig_savefig fig "bar_chart.pdf".

(** The defaults of the signature: [ts=1, nd=1, size=[5, .5],
    color='#FFCC00']. *)
Definition horiz_bar_default (labels : list string) (times : list pynum)
    (header : list string) : M unit :=
  horiz_bar labels times header (PInt 1) 1 [PInt 5; PFloat (B64.lit 5 10)]
    "#FFCC00".

(** ** [stacked_plots] *)

(** A descriptor mapping: the keys looked at are ['data'], ['limits'] and
    ['ticks']; a field is [None] when the key is absent. *)
Record descriptor : Type := mk_descriptor {
  d_data : option (list pynum);
  d_limits : option (list pynum);
  d_ticks : option (list pynum)
}.

(** A value of the data mapping: a plain sequence or a descriptor. *)
Inductive ydata_arg : Type :=
| RawData (l : list pynum)
| Descr (d : descriptor).

(** The mapping from series name to data, in insertion order. *)
Definition data_dict : Type := list (string * ydata_arg).

(** The [data_dict_list] argument: a [dict], a mapping of another type
    (a [collections.OrderedDict], say), or a list of mappings. *)
Inductive data_arg : Type :=
| OneDict (d : data_dict)
| OtherMapping (d : data_dict)
| DictList (l : list data_dict).

(** [if type(data_dict_list) == type({}): data_dict_list = [data_dict_list]]:
    the test is on the exact type, so only a [dict] is wrapped. *)
Definition wrap_dict (data_dict_list : data_arg) : data_arg :=
  match data_dict_list with
  | OneDict d => DictList [d]
  | other => other
  end.

(** [data_dict_list[0]]: the first element of a list; a mapping is looked
    up at the key 0, and the keys of a data mapping are names. *)
Definition first_item (data_dict_list : data_arg) : result data_dict :=
  match data_dict_list with
  | DictList l => py_index l 0
  | OneDict _ | OtherMapping _ => Raise KeyError
  end.

(** [for data_dict in data_dict_list: body]: the elements of a list; a
    mapping yields its keys, and a name has no [items()]. *)
Definition for_each_mapping (data_dict_list : data_arg)
    (body : data_dict -> M unit) : M unit :=
  match data_dict_list with
  | DictList l => for_each l body
  | OneDict d | OtherMapping d =>
      match d with
      | [] => ret tt
      | _ :: _ => raise AttributeError
      end
  end.

(** The list of mappings that a call walks: the one holding the [dict],
    or the list given; a mapping that is not wrapped gives none. *)
Definition as_dict_list (data_dict_list : data_arg) : list data_dict :=
  match wrap_dict data_dict_list with
  | DictList l => l
  | _ => []
  end.

Definition set_yticks (a : nat) (l : list pynum) : M unit :=
  modify_axes a (with_yaxis (set_ticks l)).

(** The limits derived from the ticks:
    [[low_tick - cushion * height, high_tick + cushion * height]]. *)
Definition tick_limits (tk : list pynum) (cushion : pynum)
    : result (list pynum) :=
  let* low_tick := py_index tk 0 in
  let* high_tick := py_index tk (-1) in
  let* height := py_sub high_tick low_tick in
  let* c := py_mul cushion height in
  let* lo := py_sub low_tick c in
  let* c := py_mul cushion height in
  let* hi := py_add high_tick c in
  Ok [lo; hi].

(** The y-range of one panel: the [if]/[elif] on the descriptor's keys. *)
Definition setup_ylim (axs : axarr) (cushion : pynum) (i : nat)
    (ydata : ydata_arg) : M unit :=
  match ydata with
  | Descr d =>
      match d_limits d with
      | Some limits =>
          a <- lift (axarr_index axs (Z.of_nat i)) ;;
          set_ylim_seq a limits
      | None =>
          match d_ticks d with
          | Some tk =>
              a <- lift (axarr_index axs (Z.of_nat i)) ;;
              set_yticks a tk ;;
              limits <- lift (tick_limits tk cushion) ;;
              a <- lift (axarr_index axs (Z.of_nat i)) ;;
              set_ylim_seq a limits
          | None => ret tt
          end
      end
  | RawData _ => ret tt
  end.

(** The body of the first loop. *)
Definition setup_panel (axs : axarr) (pad cushion : pynum)
    (item : nat * (string * ydata_arg)) : M unit :=
  let i := fst item in
  let ylabel := fst (snd item) in
  let ydata := snd (snd item) in
  setup_ylim axs cushion i ydata ;;
  a <- lift (axarr_index axs (Z.of_nat i)) ;;
  set_ylabel a ylabel "horizontal" "left" pad.

(** The body of the second loop: one line and its markers. *)
Definition plot_series (axs : axarr) (xdata : list pynum)
    (item : nat * (string * ydata_arg)) : M unit :=
  let i := fst item in
  let ydata := snd (snd item) in
  ydata <- (match ydata with
            | Descr d =>
                match d_data d with
                | Some l => ret l
                | None => raise KeyError
                end
            | RawData l => ret l
            end) ;;
  a <- lift (axarr_index axs (Z.of_nat i)) ;;
  plot a xdata ydata (PInt 6) ;;
  a <- lift (axarr_index axs (Z.of_nat i)) ;;
  scatter a xdata ydata None 100.

(** The body of the third loop. *)
Definition finish_panel (naxes : nat) (xticks : option (list pynum))
    (ia : nat * nat) : M unit :=
  let i := fst ia in
  let ax := snd ia in
  adjust_spines (Some ax) default_spines true false ;;
  if (Z.of_nat i <? Z.of_nat naxes - 1)%Z
  then modify_axes ax (with_xaxis (set_ticks []))
  else
    modify_axes ax (with_xaxis (set_ticks_position "bottom")) ;;
    match xticks with
    | Some l => modify_axes ax (with_xaxis (set_ticks l))
    | None => ret tt
    end.

Definition stacked_plots (xlabel : string) (xdata : list pynum)
    (data_dict_list : data_arg) (figsize : pynum * pynum) (pad : pynum)
    (filename : string) (xticks : option (list pynum)) (cushion : pynum)
    : M (nat * axarr) :=
  let data_dict_list := wrap_dict data_dict_list in
  data_dict <- lift (first_item data_dict_list) ;;
  let n := List.length data_dict in
  fa <- subplots n (Some figsize) ;;
  let f := fst fa in
  let axs := snd fa in
  for_each (enumerate data_dict) (setup_panel axs pad cushion) ;;
  for_each_mapping data_dict_list
    (fun data_dict => for_each (enumerate data_dict) (plot_series axs xdata)) ;;
  l <- lift (axarr_iter axs) ;;
  for_each (enumerate l) (finish_panel (List.length l) xticks) ;;
  align_labels f ;;
  last <- lift (axarr_index axs (-1)) ;;
  set_xlabel last xlabel ;;
  tight_layout ;;
  savefig filename ;;
  ret (f, axs).

(** ** [handle_close] and [all] *)

(** The handler of the close event: the event itself is not looked at. *)
Definition handle_close : M unit :=
  tight_layout ;;
  savefig "figure.pdf".

(** The functions of this module that are registered as callbacks. *)
Inductive callback : Type :=
| HandleClose.

(** [fig.canvas.mpl_connect(event, handler)]: the registry of the canvas
    callbacks, one entry per connection, is passed along explicitly. *)
Definition mpl_connect (g : nat) (event : string) (handler : callback)
    (registry : list (nat * string * callback))
    : list (nat * string * callback) :=
  snoc registry (g, event, handler).

Definition all (registry : list (nat * string * callback))
    : M (list (nat * string * callback)) :=
  adjust_spines None default_spines true false ;;
  draggable_legend None true ;;
  g <- gcf ;;
  ret (mpl_connect g "close_event" HandleClose registry).

(** * Properties *)

(** ** Running the monad *)

Lemma bind_Ok {A B} (m : M A) (k : A -> M B) w b w2 :
  bind m k w = Ok (b, w2) <->
  exists a w1, m w = Ok (a, w1) /\ k a w1 = Ok (b, w2).
Proof.
  unfold bind. split.
  - destruct (m w) as [[a w1]|e]; [eauto | discriminate].
  - intros (a & w1 & -> & H). exact H.
Qed.

Lemma bind_run {A B} (m : M A) (k : A -> M B) w a w1 :
  m w = Ok (a, w1) -> bind m k w = k a w1.
Proof. unfold bind. intros ->. reflexivity. Qed.

Lemma bind_raise {A B} (m : M A) (k : A -> M B) w e :
  m w = Raise e -> bind m k w = Raise e.
Proof. unfold bind. intros ->. reflexivity. Qed.

Lemma lift_Ok {A} (r : result A) w a w1 :
  lift r w = Ok (a, w1) <-> r = Ok a /\ w1 = w.
Proof.
  unfold lift. destruct r; split.
  - intros [= -> ->]. auto.
  - intros [[= ->] ->]. reflexivity.
  - discriminate.
  - intros [[=] _].
Qed.

Lemma rbind_Ok {A B} (r : result A) (k : A -> result B) b :
  rbind r k = Ok b <-> exists a, r = Ok a /\ k a = Ok b.
Proof.
  destruct r; simpl; split.
  - eauto.
  - intros (x & [= ->] & H). exact H.
  - discriminate.
  - intros (x & [=] & _).
Qed.

Lemma bind_ext {A B} (m : M A) (k1 k2 : A -> M B) w :
  (forall a w1, k1 a w1 = k2 a w1) -> bind m k1 w = bind m k2 w.
Proof.
  intros E. unfold bind. destruct (m w) as [[a w1]|e]; auto.
Qed.

Ltac run_step H x w1 H1 :=
  apply bind_Ok in H; destruct H as (x & w1 & H1 & H).

(** Peeling the binds off a run that is known to succeed. *)
Ltac run_inv H :=
  repeat match type of H with
  | bind _ _ _ = Ok _ =>
      let a := fresh "a" in
      let w := fresh "w" in
      let H1 := fresh "Hrun" in
      apply bind_Ok in H; destruct H as (a & w & H1 & H)
  end.

(** ** Lists updated in place *)

Lemma update_nth_length {A} i (f : A -> A) l :
  List.length (update_nth i f l) = List.length l.
Proof.
  revert i. induction l as [|x r IH]; intros [|i]; simpl; auto.
Qed.

Lemma nth_error_update_nth_eq {A} i (f : A -> A) l :
  nth_error (update_nth i f l) i = option_map f (nth_error l i).
Proof.
  revert i. induction l as [|x r IH]; intros [|i]; simpl; auto.
Qed.

Lemma nth_error_update_nth_neq {A} i j (f : A -> A) l :
  i <> j -> nth_error (update_nth i f l) j = nth_error l j.
Proof.
  revert i j. induction l as [|x r IH]; intros [|i] [|j] Hij; simpl; auto.
  congruence.
Qed.

Lemma update_nth_compose {A} i (f g : A -> A) l :
  update_nth i f (update_nth i g l) = update_nth i (fun x => f (g x)) l.
Proof.
  revert i. induction l as [|x r IH]; intros [|i]; simpl; auto.
  now rewrite IH.
Qed.

Lemma update_nth_ext {A} i (f g : A -> A) l :
  (forall x, f x = g x) -> update_nth i f l = update_nth i g l.
Proof.
  intros E. revert i. induction l as [|x r IH]; intros [|i]; simpl; auto.
  - now rewrite E.
  - now rewrite IH.
Qed.

(** ** The store after a sequence of updates of one axes *)

Lemma modify_axes_run a f w p :
  nth_error (all_axes w) a = Some p ->
  modify_axes a f w = Ok (tt, set_all_axes (update_nth a f (all_axes w)) w).
Proof. unfold modify_axes. intros ->. reflexivity. Qed.

Lemma modify_axes_Ok a f w u w1 :
  modify_axes a f w = Ok (u, w1) ->
  (exists p, nth_error (all_axes w) a = Some p) /\
  w1 = set_all_axes (update_nth a f (all_axes w)) w.
Proof.
  unfold modify_axes. destruct (nth_error (all_axes w) a) eqn:E.
  - intros [= _ <-]. eauto.
  - discriminate.
Qed.

Lemma set_all_axes_twice l1 l2 w :
  set_all_axes l2 (set_all_axes l1 w) = set_all_axes l2 w.
Proof. reflexivity. Qed.

Lemma all_axes_set l w : all_axes (set_all_axes l w) = l.
Proof. reflexivity. Qed.

(** Two updates of the same axes in a row are one update. *)
Lemma modify_axes_twice {B} a f g (k : M B) w :
  bind (modify_axes a f) (fun _ => bind (modify_axes a g) (fun _ => k)) w =
  bind (modify_axes a (fun p => g (f p))) (fun _ => k) w.
Proof.
  unfold bind, modify_axes.
  destruct (nth_error (all_axes w) a) as [p|] eqn:E; [|reflexivity].
  rewrite all_axes_set, nth_error_update_nth_eq, E. simpl.
  rewrite set_all_axes_twice, update_nth_compose. reflexivity.
Qed.

Lemma modify_axes_twice_end a f g w :
  bind (modify_axes a f) (fun _ => modify_axes a g) w =
  modify_axes a (fun p => g (f p)) w.
Proof.
  unfold bind, modify_axes.
  destruct (nth_error (all_axes w) a) as [p|] eqn:E; [|reflexivity].
  rewrite all_axes_set, nth_error_update_nth_eq, E. simpl.
  rewrite set_all_axes_twice, update_nth_compose. reflexivity.
Qed.

Lemma modify_axes_thrice a f g h w :
  bind (modify_axes a f)
    (fun _ => bind (modify_axes a g) (fun _ => modify_axes a h)) w =
  modify_axes a (fun p => h (g (f p))) w.
Proof.
  rewrite modify_axes_twice. apply modify_axes_twice_end.
Qed.

(** ** [adjust_spines] *)

(** What a call does to the axes it is applied to. *)
Definition adjust_spines_panel (spines : list string)
    (smart_bounds outward : bool) (p : axes) : axes :=
  let p := with_spines (map (adjust_spine spines smart_bounds outward)) p in
  let p := if py_in "left" spines
           then with_yaxis (set_ticks_position "left") p
           else with_yaxis (set_ticks []) p in
  if py_in "bottom" spines
  then with_xaxis (set_ticks_position "bottom") p
  else with_xaxis (set_ticks []) p.

Lemma adjust_spines_as_update ax spines sb ow w :
  adjust_spines ax spines sb ow w =
  bind (default_axes ax)
    (fun a => modify_axes a (adjust_spines_panel spines sb ow)) w.
Proof.
  unfold adjust_spines. apply bind_ext. intros a w1.
  unfold adjust_spines_panel.
  destruct (py_in "left" spines); destruct (py_in "bottom" spines);
    cbv beta iota zeta; apply modify_axes_thrice.
Qed.

Lemma default_axes_stable ax w a w1 l :
  default_axes ax w = Ok (a, w1) ->
  default_axes ax (set_all_axes l w1) = Ok (a, set_all_axes l w1).
Proof.
  destruct ax as [b|]; simpl.
  - unfold ret. intros [= -> ->]. reflexivity.
  - unfold gca. destruct (gca_ w) as [b|] eqn:E.
    + intros [= -> ->]. simpl. rewrite E. reflexivity.
    + destruct (gcf w) as [[g w2]|e]; [|discriminate].
      intros [= <- <-]. reflexivity.
Qed.

Lemma adjust_spine_twice spines sb ow item :
  adjust_spine spines sb ow (adjust_spine spines sb ow item) =
  adjust_spine spines sb ow item.
Proof.
  destruct item as [loc [c v pos b]]. unfold adjust_spine.
  destruct (py_in loc spines) eqn:E; rewrite E; [|reflexivity].
  destruct ow; reflexivity.
Qed.

Lemma adjust_spines_panel_twice spines sb ow p :
  adjust_spines_panel spines sb ow (adjust_spines_panel spines sb ow p) =
  adjust_spines_panel spines sb ow p.
Proof.
  destruct p as [sp xa ya xl yl ls ts cs tp].
  assert (E : map (adjust_spine spines sb ow) (map (adjust_spine spines sb ow) sp)
              = map (adjust_spine spines sb ow) sp).
  { rewrite map_map. apply map_ext. intros. apply adjust_spine_twice. }
  unfold adjust_spines_panel.
  destruct (py_in "left" spines); destruct (py_in "bottom" spines);
    cbv beta iota zeta delta [with_spines with_yaxis with_xaxis ax_spines
      ax_xaxis ax_yaxis ax_xlim ax_ylim ax_lines ax_texts ax_collections
      ax_tick_params set_ticks_position set_ticks ticks_position ticks axis_lab];
    rewrite E; reflexivity.
Qed.

Lemma adjust_spine_drawn spines sb ow item :
  fst (adjust_spine spines sb ow item) = fst item /\
  spine_drawn (snd (adjust_spine spines sb ow item)) =
    (py_in (fst item) spines && spine_drawn (snd item))%bool.
Proof.
  destruct item as [loc [c v pos b]]. unfold adjust_spine. simpl.
  destruct (py_in loc spines); simpl.
  - destruct ow; auto.
  - split; [reflexivity|]. unfold spine_drawn. simpl. apply andb_false_r.
Qed.

Lemma adjust_spines_panel_spines spines sb ow p :
  ax_spines (adjust_spines_panel spines sb ow p) =
  map (adjust_spine spines sb ow) (ax_spines p).
Proof.
  unfold adjust_spines_panel.
  destruct (py_in "left" spines), (py_in "bottom" spines); reflexivity.
Qed.

Lemma adjust_spines_panel_yticks spines sb ow p :
  py_in "left" spines = false ->
  ticks (ax_yaxis (adjust_spines_panel spines sb ow p)) = Some [].
Proof.
  unfold adjust_spines_panel. intros ->.
  destruct (py_in "bottom" spines); reflexivity.
Qed.

Lemma adjust_spines_panel_xticks spines sb ow p :
  py_in "bottom" spines = false ->
  ticks (ax_xaxis (adjust_spines_panel spines sb ow p)) = Some [].
Proof.
  unfold adjust_spines_panel. intros ->.
  destruct (py_in "left" spines); reflexivity.
Qed.

Lemma adjust_spines_panel_ylim spines sb ow p :
  ax_ylim (adjust_spines_panel spines sb ow p) = ax_ylim p /\
  ticks (ax_yaxis (adjust_spines_panel spines sb ow p)) =
    if py_in "left" spines then ticks (ax_yaxis p) else Some [].
Proof.
  unfold adjust_spines_panel.
  destruct (py_in "left" spines), (py_in "bottom" spines); auto.
Qed.

Lemma adjust_spines_run ax spines sb ow w a w1 p :
  default_axes ax w = Ok (a, w1) ->
  nth_error (all_axes w1) a = Some p ->
  adjust_spines ax spines sb ow w =
  Ok (tt, set_all_axes
            (update_nth a (adjust_spines_panel spines sb ow) (all_axes w1)) w1).
Proof.
  intros Ha Hp. rewrite adjust_spines_as_update.
  rewrite (bind_run _ _ _ _ _ Ha). apply (modify_axes_run _ _ _ _ Hp).
Qed.

(** C5. After [adjust_spines] on a panel, a spine is drawn exactly when it
    is in the keep-set and was drawn before (every other spine is hidden,
    whatever the keep-set, so in particular for a subset of left and
    bottom); the y-ticks are removed when "left" is not kept and the
    x-ticks when "bottom" is not kept. *)
Theorem adjust_spines_keeps_exactly :
  forall (ax : option nat) (spines : list string) (smart_bounds outward : bool)
         (w w1 : pyplot) (a : nat) (p : axes),
    default_axes ax w = Ok (a, w1) ->
    nth_error (all_axes w1) a = Some p ->
    exists w' p',
      adjust_spines ax spines smart_bounds outward w = Ok (tt, w') /\
      nth_error (all_axes w') a = Some p' /\
      Forall2 (fun old new =>
                 fst new = fst old /\
                 spine_drawn (snd new) =
                   (py_in (fst old) spines && spine_drawn (snd old))%bool)
        (ax_spines p) (ax_spines p') /\
      (py_in "left" spines = false -> ticks (ax_yaxis p') = Some []) /\
      (py_in "bottom" spines = false -> ticks (ax_xaxis p') = Some []).
Proof.
  intros ax spines sb ow w w1 a p Ha Hp.
  exists (set_all_axes
            (update_nth a (adjust_spines_panel spines sb ow) (all_axes w1)) w1).
  exists (adjust_spines_panel spines sb ow p).
  split; [exact (adjust_spines_run _ _ _ _ _ _ _ _ Ha Hp)|].
  split.
  { rewrite all_axes_set, nth_error_update_nth_eq, Hp. reflexivity. }
  split.
  { rewrite adjust_spines_panel_spines.
    induction (ax_spines p) as [|item r IH]; simpl; constructor; auto.
    apply adjust_spine_drawn. }
  split.
  - apply adjust_spines_panel_yticks.
  - apply adjust_spines_panel_xticks.
Qed.

(** A store with one figure holding one panel, which is current. *)
Definition one_panel (p : axes) : pyplot :=
  set_current (Some 0%nat) (Some 0%nat)
    (set_all_figures [new_figure [0%nat] None]
       (set_all_axes [p] empty_pyplot)).

(** The keep-set [["left"]] on a fresh panel: the left spine stays, the
    top, right and bottom spines are hidden and the x-ticks are removed. *)
Lemma adjust_spines_keeps_exactly_witness :
  exists w' p',
    adjust_spines None ["left"] true false (one_panel new_axes) = Ok (tt, w') /\
    nth_error (all_axes w') 0 = Some p' /\
    map (fun item => (fst item, spine_drawn (snd item))) (ax_spines p') =
      [("left", true); ("right", false); ("bottom", false); ("top", false)] /\
    ticks (ax_xaxis p') = Some [] /\
    ticks (ax_yaxis p') = None.
Proof.
  destruct (adjust_spines_keeps_exactly None ["left"] true false
              (one_panel new_axes) (one_panel new_axes) 0%nat new_axes
              eq_refl eq_refl)
    as (w' & p' & Hrun & Hp' & _ & _ & Hx).
  exists w', p'.
  split; [exact Hrun|].
  split; [exact Hp'|].
  vm_compute in Hrun. injection Hrun as <-.
  vm_compute in Hp'. injection Hp' as <-.
  repeat split.
Defined.

(** C6. Calling [adjust_spines] twice in a row with the same arguments
    gives the same outcome as calling it once: the same store, hence the
    same spines, colours and ticks, or the same exception. *)
Theorem adjust_spines_idempotent :
  forall (ax : option nat) (spines : list string) (smart_bounds outward : bool)
         (w : pyplot),
    bind (adjust_spines ax spines smart_bounds outward)
      (fun _ => adjust_spines ax spines smart_bounds outward) w =
    adjust_spines ax spines smart_bounds outward w.
Proof.
  intros ax spines sb ow w.
  destruct (default_axes ax w) as [[a w1]|e] eqn:Ha.
  - destruct (nth_error (all_axes w1) a) as [p|] eqn:Hp.
    + rewrite (bind_run _ _ _ _ _ (adjust_spines_run _ spines sb ow _ _ _ _ Ha Hp)).
      rewrite (adjust_spines_run _ spines sb ow _ _ _
                 (adjust_spines_panel spines sb ow p)
                 (default_axes_stable _ _ _ _ _ Ha)).
      * rewrite (adjust_spines_run _ _ _ _ _ _ _ _ Ha Hp).
        rewrite all_axes_set, set_all_axes_twice, update_nth_compose.
        f_equal. f_equal. f_equal.
        apply update_nth_ext. intros x. apply adjust_spines_panel_twice.
      * rewrite all_axes_set, nth_error_update_nth_eq, Hp. reflexivity.
    + assert (H : adjust_spines ax spines sb ow w = Raise AttributeError).
      { rewrite adjust_spines_as_update, (bind_run _ _ _ _ _ Ha).
        unfold modify_axes. rewrite Hp. reflexivity. }
      rewrite (bind_raise _ _ _ _ H). symmetry. exact H.
  - assert (H : adjust_spines ax spines sb ow w = Raise e).
    { rewrite adjust_spines_as_update. apply bind_raise. exact Ha. }
    rewrite (bind_raise _ _ _ _ H). symmetry. exact H.
Qed.

(** ** Views of the store that a computation leaves alone *)

(** A property [g] of every axes of the store, in store order. *)
Definition view {T} (g : axes -> T) (w : pyplot) : list T :=
  map g (all_axes w).

(** [stable g m]: when [m] returns, no axes was created and [g] is the
    same on every axes. *)
Definition stable {T A} (g : axes -> T) (m : M A) : Prop :=
  forall w x w', m w = Ok (x, w') -> view g w' = view g w.

Lemma map_update_nth {A B} (g : A -> B) (f : A -> A) (h : B -> B) a l :
  (forall x, g (f x) = h (g x)) ->
  map g (update_nth a f l) = update_nth a h (map g l).
Proof.
  intros E. revert a. induction l as [|x r IH]; intros [|a]; simpl; auto.
  - now rewrite E.
  - now rewrite IH.
Qed.

Lemma update_nth_id {A} a (f : A -> A) l :
  (forall x, f x = x) -> update_nth a f l = l.
Proof.
  intros E. revert a. induction l as [|x r IH]; intros [|a]; simpl; auto.
  - now rewrite E.
  - now rewrite IH.
Qed.

Lemma view_modify {T} (g : axes -> T) (h : T -> T) a f w u w' :
  (forall p, g (f p) = h (g p)) ->
  modify_axes a f w = Ok (u, w') ->
  view g w' = update_nth a h (view g w).
Proof.
  intros E H. apply modify_axes_Ok in H. destruct H as [_ ->].
  unfold view. rewrite all_axes_set. now apply map_update_nth.
Qed.

Lemma stable_modify {T} (g : axes -> T) a f :
  (forall p, g (f p) = g p) -> stable g (modify_axes a f).
Proof.
  intros E w u w' H.
  rewrite (view_modify g (fun x => x) a f w u w' E H).
  now apply update_nth_id.
Qed.

Lemma stable_ret {T A} (g : axes -> T) (x : A) : stable g (ret x).
Proof. intros w y w'. unfold ret. now intros [= _ <-]. Qed.

Lemma stable_lift {T A} (g : axes -> T) (r : result A) : stable g (lift r).
Proof. intros w y w' H. apply lift_Ok in H. now destruct H as [_ ->]. Qed.

Lemma stable_raise {T A} (g : axes -> T) e : stable g (@raise A e).
Proof. intros w y w'. discriminate. Qed.

Lemma stable_bind {T A B} (g : axes -> T) (m : M A) (k : A -> M B) :
  stable g m -> (forall a, stable g (k a)) -> stable g (bind m k).
Proof.
  intros Hm Hk w y w' H. apply bind_Ok in H. destruct H as (a & w1 & H1 & H2).
  rewrite (Hk a _ _ _ H2). exact (Hm _ _ _ H1).
Qed.

Lemma stable_for_each {T A} (g : axes -> T) (l : list A) body :
  (forall x, stable g (body x)) -> stable g (for_each l body).
Proof.
  intros Hb. induction l as [|x r IH]; simpl.
  - apply stable_ret.
  - apply stable_bind; auto.
Qed.

Lemma stable_if {T A} (g : axes -> T) (b : bool) (m1 m2 : M A) :
  stable g m1 -> stable g m2 -> stable g (if b then m1 else m2).
Proof. destruct b; auto. Qed.

Lemma stable_modify_figure {T} (g : axes -> T) f h :
  stable g (modify_figure f h).
Proof.
  intros w u w'. unfold modify_figure.
  destruct (nth_error (all_figures w) f); [|discriminate].
  now intros [= _ <-].
Qed.

Lemma stable_gcf {T} (g : axes -> T) : stable g gcf.
Proof.
  intros w u w'. unfold gcf. destruct (gcf_ w); now intros [= _ <-].
Qed.

Lemma stable_fig_savefig {T} (g : axes -> T) f name :
  stable g (fig_savefig f name).
Proof.
  intros w u w'. unfold fig_savefig.
  destruct (nth_error (all_figures w) f); [|discriminate].
  now intros [= _ <-].
Qed.

Create HintDb stable.
#[export] Hint Resolve stable_ret stable_lift stable_raise stable_modify_figure
  stable_gcf stable_fig_savefig : stable.

Ltac stable_step :=
  first
    [ apply stable_bind; [|intro]
    | apply stable_for_each; intro
    | apply stable_if
    | apply stable_modify; intros []; reflexivity
    | solve [auto with stable] ].

(** The y-range and the y-ticks of an axes. *)
Definition y_state (p : axes) : option (pynum * pynum) * option (list pynum) :=
  (ax_ylim p, ticks (ax_yaxis p)).

Lemma stable_y_adjust_spines ax :
  stable y_state (adjust_spines (Some ax) default_spines true false).
Proof.
  intros w u w' H. rewrite adjust_spines_as_update in H.
  simpl in H. unfold bind, ret in H.
  revert H. apply stable_modify. intros p. unfold y_state.
  destruct (adjust_spines_panel_ylim default_spines true false p) as [-> ->].
  reflexivity.
Qed.

Lemma stable_y_plot a xs ys lw : stable y_state (plot a xs ys lw).
Proof. unfold plot. repeat stable_step. Qed.

Lemma stable_y_scatter a xs ys c sz : stable y_state (scatter a xs ys c sz).
Proof. unfold scatter. repeat stable_step. Qed.

Lemma stable_y_plot_series axs xdata item :
  stable y_state (plot_series axs xdata item).
Proof.
  unfold plot_series.
  apply stable_bind.
  { destruct (snd (snd item)) as [l|d]; [apply stable_ret|].
    destruct (d_data d); [apply stable_ret | apply stable_raise]. }
  intro. repeat stable_step.
Qed.

Lemma stable_y_finish_panel n xticks ia :
  stable y_state (finish_panel n xticks ia).
Proof.
  unfold finish_panel. apply stable_bind; [apply stable_y_adjust_spines|].
  intro. apply stable_if; [repeat stable_step|].
  apply stable_bind; [repeat stable_step|]. intro.
  destruct xticks; repeat stable_step.
Qed.

Lemma stable_y_set_ylabel a s r h pad :
  stable y_state (set_ylabel a s r h pad).
Proof. unfold set_ylabel. repeat stable_step. Qed.

Lemma stable_y_set_xlabel a s : stable y_state (set_xlabel a s).
Proof. unfold set_xlabel. repeat stable_step. Qed.

(** ** [stacked_plots]: the y-range of each panel *)

(** What the first loop does to the y-range and y-ticks of its panel,
    read off the descriptor: [limits] wins over [ticks], and without
    either nothing is set. *)
Definition y_effect (cushion : pynum) (ydata : ydata_arg)
    : result (option (pynum * pynum) * option (list pynum) ->
              option (pynum * pynum) * option (list pynum)) :=
  match ydata with
  | Descr d =>
      match d_limits d with
      | Some [lo; hi] =>
          let* v := check_limits lo hi in
          Ok (fun s => (Some v, snd s))
      | Some _ => Raise ValueError
      | None =>
          match d_ticks d with
          | Some tk =>
              let* l := tick_limits tk cushion in
              match l with
              | [lo; hi] =>
                  let* v := check_limits lo hi in
                  Ok (fun _ => (Some v, Some tk))
              | _ => Raise ValueError
              end
          | None => Ok (fun s => s)
          end
      end
  | RawData _ => Ok (fun s => s)
  end.

Lemma py_index_nat {A} (l : list A) i x :
  py_index l (Z.of_nat i) = Ok x <-> nth_error l i = Some x.
Proof.
  unfold py_index.
  destruct (Z.ltb_spec (Z.of_nat i) 0) as [H|H]; [lia|].
  rewrite Nat2Z.id.
  destruct (Z.leb_spec 0 (Z.of_nat i)) as [_|H']; [|lia]. simpl.
  destruct (Z.ltb_spec (Z.of_nat i) (Z.of_nat (List.length l))) as [Hl|Hl].
  - destruct (nth_error l i) eqn:E; split; congruence.
  - split; [discriminate|]. intros E.
    assert (i < List.length l)%nat by (apply nth_error_Some; congruence). lia.
Qed.

Lemma nth_error_seq base n i a :
  nth_error (seq base n) i = Some a <-> (i < n)%nat /\ a = (base + i)%nat.
Proof.
  split.
  - intros H. assert (Hi : (i < n)%nat).
    { rewrite <- (length_seq n base). apply nth_error_Some. congruence. }
    split; [exact Hi|].
    rewrite (nth_error_nth' _ 0%nat) in H by (now rewrite length_seq).
    rewrite seq_nth in H by exact Hi. congruence.
  - intros [Hi ->].
    rewrite (nth_error_nth' _ 0%nat) by (now rewrite length_seq).
    now rewrite seq_nth.
Qed.

Lemma axarr_index_seq base n i a :
  axarr_index (AxesArray (seq base n)) (Z.of_nat i) = Ok a ->
  (i < n)%nat /\ a = (base + i)%nat.
Proof. simpl. intros H. apply py_index_nat in H. now apply nth_error_seq. Qed.

Lemma set_ylim_view a lo hi w u w' :
  set_ylim a lo hi w = Ok (u, w') ->
  exists v, check_limits lo hi = Ok v /\
    view y_state w' = update_nth a (fun s => (Some v, snd s)) (view y_state w).
Proof.
  unfold set_ylim. intros H. run_inv H.
  apply lift_Ok in Hrun. destruct Hrun as [Hc ->].
  exists a0. split; [exact Hc|].
  eapply view_modify; [|exact H]. intros []; reflexivity.
Qed.

Lemma set_yticks_view a tk w u w' :
  set_yticks a tk w = Ok (u, w') ->
  view y_state w' = update_nth a (fun s => (fst s, Some tk)) (view y_state w).
Proof.
  unfold set_yticks. intros H.
  eapply view_modify; [|exact H]. intros [? ? []]; reflexivity.
Qed.

Lemma setup_ylim_view base n cushion i ydata w u w' :
  setup_ylim (AxesArray (seq base n)) cushion i ydata w = Ok (u, w') ->
  exists h, y_effect cushion ydata = Ok h /\
    view y_state w' = update_nth (base + i) h (view y_state w).
Proof.
  unfold setup_ylim, y_effect.
  assert (Hid : forall w0 : pyplot,
             view y_state w0 = update_nth (base + i) (fun s => s) (view y_state w0)).
  { intros w0. symmetry. now apply update_nth_id. }
  destruct ydata as [l|d].
  { unfold ret. intros [= _ <-]. eexists; split; [reflexivity|]. apply Hid. }
  destruct (d_limits d) as [limits|].
  - intros H. run_inv H. apply lift_Ok in Hrun. destruct Hrun as [Ha ->].
    apply axarr_index_seq in Ha. destruct Ha as [_ ->].
    destruct limits as [|lo [|hi [|? ?]]]; try discriminate H.
    apply set_ylim_view in H. destruct H as (v & Hv & Hw).
    rewrite Hv. simpl. eexists; split; [reflexivity|]. exact Hw.
  - destruct (d_ticks d) as [tk|].
    + intros H.
      run_step H a1 w1 Ha. run_step H u1 w2 Ht.
      run_step H limits w3 Hl. run_step H a2 w4 Ha'.
      apply lift_Ok in Ha. destruct Ha as [Ha ->].
      apply axarr_index_seq in Ha. destruct Ha as [_ ->].
      apply set_yticks_view in Ht.
      apply lift_Ok in Hl. destruct Hl as [Hl ->].
      apply lift_Ok in Ha'. destruct Ha' as [Ha ->].
      apply axarr_index_seq in Ha. destruct Ha as [_ ->].
      rewrite Hl. simpl.
      destruct limits as [|lo [|hi [|? ?]]]; try discriminate H.
      apply set_ylim_view in H. destruct H as (v & Hv & Hw).
      rewrite Hv. simpl. eexists; split; [reflexivity|].
      rewrite Hw, Ht, update_nth_compose. reflexivity.
    + unfold ret. intros [= _ <-]. eexists; split; [reflexivity|]. apply Hid.
Qed.

Lemma setup_panel_view base n pad cushion i ylabel ydata w u w' :
  setup_panel (AxesArray (seq base n)) pad cushion (i, (ylabel, ydata)) w
    = Ok (u, w') ->
  (i < n)%nat /\
  exists h, y_effect cushion ydata = Ok h /\
    view y_state w' = update_nth (base + i) h (view y_state w).
Proof.
  unfold setup_panel. simpl. intros H. run_inv H.
  apply setup_ylim_view in Hrun. destruct Hrun as (h & Hh & Hw).
  apply lift_Ok in Hrun0. destruct Hrun0 as [Ha ->].
  apply axarr_index_seq in Ha. destruct Ha as [Hi ->].
  split; [exact Hi|]. exists h. split; [exact Hh|].
  rewrite <- Hw. exact (stable_y_set_ylabel _ _ _ _ _ _ _ _ H).
Qed.

(** The first loop, from index [k] on: the panels outside its range keep
    their state and the panel of each item gets the item's effect. *)
Lemma setup_loop_view base n pad cushion l :
  forall k w u w',
    for_each (combine (seq k (List.length l)) l)
      (setup_panel (AxesArray (seq base n)) pad cushion) w = Ok (u, w') ->
    List.length (view y_state w') = List.length (view y_state w) /\
    (forall b, (b < base + k \/ base + k + List.length l <= b)%nat ->
       nth_error (view y_state w') b = nth_error (view y_state w) b) /\
    (forall j item, nth_error l j = Some item ->
       exists h, y_effect cushion (snd item) = Ok h /\
         nth_error (view y_state w') (base + k + j) =
           option_map h (nth_error (view y_state w) (base + k + j))).
Proof.
  induction l as [|[ylabel ydata] r IH]; intros k w u w'; simpl.
  - unfold ret. intros [= _ <-]. split; [reflexivity|]. split; [reflexivity|].
    intros [|j] item; discriminate.
  - intros H. run_inv H.
    destruct a. apply setup_panel_view in Hrun.
    destruct Hrun as (Hk & h & Hh & Hw0).
    apply IH in H. destruct H as (Hlen & Hframe & Heff).
    split.
    { rewrite Hlen, Hw0. apply update_nth_length. }
    split.
    { intros b Hb. rewrite Hframe by lia. rewrite Hw0.
      apply nth_error_update_nth_neq. lia. }
    intros [|j] item Hitem.
    + injection Hitem as <-. exists h. split; [exact Hh|].
      rewrite Nat.add_0_r. rewrite Hframe by lia.
      rewrite Hw0. apply nth_error_update_nth_eq.
    + destruct (Heff j item Hitem) as (h' & Hh' & E).
      exists h'. split; [exact Hh'|].
      replace (base + k + S j)%nat with (base + S k + j)%nat by lia.
      rewrite E. f_equal. rewrite Hw0.
      apply nth_error_update_nth_neq. lia.
Qed.

Lemma subplots_Ok n figsize w f axs w1 :
  subplots n figsize w = Ok ((f, axs), w1) ->
  n <> 0%nat /\
  all_axes w1 = (all_axes w ++ repeat new_axes n)%list /\
  axs = match seq (List.length (all_axes w)) n with
        | [a] => OneAxes a
        | l => AxesArray l
        end.
Proof.
  unfold subplots. destruct n as [|k]; [discriminate|].
  intros [= <- <- <-]. split; [discriminate|]. split; [reflexivity|].
  simpl. destruct (seq _ k); reflexivity.
Qed.

Lemma nth_error_fresh_view {T} (g : axes -> T) l n i :
  (i < n)%nat ->
  nth_error (map g (l ++ repeat new_axes n)) (List.length l + i) =
    Some (g new_axes).
Proof.
  intros Hi. rewrite nth_error_map, nth_error_app2 by lia.
  replace (List.length l + i - List.length l)%nat with i by lia.
  rewrite (nth_error_nth' _ new_axes) by (now rewrite repeat_length).
  now rewrite nth_repeat.
Qed.

(** When the second statement finds a first mapping, the function walks
    a list: the one it made of a [dict], or the one it was given. *)
Lemma first_item_Ok arg dd :
  first_item (wrap_dict arg) = Ok dd ->
  wrap_dict arg = DictList (as_dict_list arg) /\
  py_index (as_dict_list arg) 0 = Ok dd.
Proof.
  unfold as_dict_list.
  destruct arg as [d|d|l]; cbn [wrap_dict first_item]; intros H;
    try discriminate H; auto.
Qed.

Lemma first_item_list arg dd :
  py_index (as_dict_list arg) 0 = Ok dd -> first_item (wrap_dict arg) = Ok dd.
Proof.
  unfold as_dict_list.
  destruct arg as [d|d|l]; cbn [wrap_dict first_item]; intros H;
    try discriminate H; auto.
Qed.

Ltac on_list H Hd :=
  let Hl := fresh "Hlist" in
  let Hd' := fresh "Hd" in
  destruct (first_item_Ok _ _ Hd) as [Hl Hd'];
  rewrite Hl in H; cbn [for_each_mapping] in H;
  clear Hd Hl; rename Hd' into Hd.

(** When [stacked_plots] returns, there are at least two panels, they
    come as an array with one panel per key of the first mapping, and
    the y-range and y-ticks of each panel are the effect of its
    descriptor on a fresh panel. *)
Lemma stacked_plots_y_state xlabel xdata arg figsize pad filename xticks
    cushion w f axs w' :
  stacked_plots xlabel xdata arg figsize pad filename xticks cushion w
    = Ok ((f, axs), w') ->
  exists data_dict,
    py_index (as_dict_list arg) 0 = Ok data_dict /\
    axs = AxesArray (seq (List.length (all_axes w)) (List.length data_dict)) /\
    forall i item,
      nth_error data_dict i = Some item ->
      exists p' h,
        nth_error (all_axes w') (List.length (all_axes w) + i) = Some p' /\
        y_effect cushion (snd item) = Ok h /\
        y_state p' = h (None, None).
Proof.
  unfold stacked_plots. intros H.
  run_step H dd w0 Hd. apply lift_Ok in Hd. destruct Hd as [Hd ->].
  on_list H Hd.
  run_step H fa w1 Hs. destruct fa as [f0 axs0]. simpl in H.
  apply subplots_Ok in Hs. destruct Hs as (Hn & Hw1 & Haxs).
  run_step H u1 w2 Hloop1. run_step H u2 w3 Hloop2.
  run_step H ids w4 Hids. apply lift_Ok in Hids. destruct Hids as [Hids ->].
  run_step H u3 w5 Hloop3. run_step H u4 w6 Halign.
  run_step H lst w7 Hlast. apply lift_Ok in Hlast. destruct Hlast as [_ ->].
  run_step H u5 w8 Hxl. run_step H u6 w9 Htight. run_step H u7 w10 Hsave.
  unfold ret in H. injection H as <- <- <-.
  (* a single panel is not an array *)
  assert (Harr : axs0 = AxesArray (seq (List.length (all_axes w))
                                     (List.length dd))).
  { rewrite Haxs. destruct (seq _ _) as [|a [|b r]] eqn:E; try reflexivity.
    rewrite Haxs in Hids. discriminate Hids. }
  exists dd. split; [exact Hd|]. split; [exact Harr|].
  (* what the later steps keep *)
  assert (Hkeep : view y_state w10 = view y_state w2).
  { transitivity (view y_state w3).
    2:{ revert Hloop2. apply stable_for_each. intro.
        apply stable_for_each. intro. apply stable_y_plot_series. }
    transitivity (view y_state w5).
    2:{ revert Hloop3. apply stable_for_each. intro.
        apply stable_y_finish_panel. }
    transitivity (view y_state w6).
    2:{ revert Halign. apply stable_modify_figure. }
    transitivity (view y_state w8).
    2:{ revert Hxl. apply stable_y_set_xlabel. }
    transitivity (view y_state w9).
    2:{ revert Htight. unfold tight_layout. repeat stable_step. }
    revert Hsave. unfold savefig. repeat stable_step. }
  rewrite Harr in Hloop1. unfold enumerate in Hloop1.
  apply (setup_loop_view _ _ _ _ _ 0%nat) in Hloop1.
  destruct Hloop1 as (_ & _ & Heff).
  intros i item Hitem.
  destruct (Heff i item Hitem) as (h & Hh & E).
  rewrite Nat.add_0_r in E.
  assert (Hi : (i < List.length dd)%nat).
  { apply nth_error_Some. congruence. }
  unfold view at 2 in E. rewrite Hw1, nth_error_fresh_view in E by exact Hi.
  rewrite <- Hkeep in E. unfold view in E. rewrite nth_error_map in E.
  destruct (nth_error (all_axes w10) (List.length (all_axes w) + i))
    as [p'|]; [|discriminate E].
  exists p', h. split; [reflexivity|]. split; [exact Hh|].
  simpl in E. now injection E.
Qed.

(** *** Limits that the library stores as they are *)

(** The test of [nonsingular] on two floats in increasing order: the
    larger magnitude is below 1e21 times the smallest normal number, or
    the ends are no further apart than 1e-15 times that magnitude. *)
Definition singular (a b : B64.float) : bool :=
  let maxabsvalue := float_max (B64.abs a) (B64.abs b) in
  B64.ltb maxabsvalue
    (B64.mul (B64.div (B64.of_Z 1000000) (B64.lit 1 (10 ^ 15))) finfo_tiny)
  || B64.leb (B64.sub b a) (B64.mul maxabsvalue (B64.lit 1 (10 ^ 15))).

(** Limits that are not given in decreasing order, are not in decreasing
    order as floats either, and do not make a singular interval. *)
Definition plain_limits (lo hi : pynum) : bool :=
  match py_float lo, py_float hi with
  | Ok a, Ok b =>
      negb (py_gt lo hi) && negb (B64.ltb b a) && negb (singular a b)
  | _, _ => false
  end.

Lemma validate_limit_Ok x y : validate_limit x = Ok y -> y = x /\ np_isfinite x = Ok true.
Proof.
  unfold validate_limit. destruct (np_isfinite x) as [[|]|e]; simpl.
  - intros [= <-]. auto.
  - discriminate.
  - discriminate.
Qed.

(** Such limits become the view limits, as floats. *)
Lemma check_limits_plain lo hi v :
  check_limits lo hi = Ok v ->
  plain_limits lo hi = true ->
  exists a b,
    py_float lo = Ok a /\ py_float hi = Ok b /\ v = (PFloat a, PFloat b).
Proof.
  unfold check_limits, plain_limits. intros H Hp.
  apply rbind_Ok in H. destruct H as (lo' & Hlo & H).
  apply validate_limit_Ok in Hlo. destruct Hlo as [-> Flo].
  apply rbind_Ok in H. destruct H as (hi' & Hhi & H).
  apply validate_limit_Ok in Hhi. destruct Hhi as [-> Fhi].
  destruct (py_float lo) as [a|] eqn:Ea; [|discriminate Hp].
  destruct (py_float hi) as [b|] eqn:Eb; [|discriminate Hp].
  apply andb_prop in Hp. destruct Hp as [Hp Hs].
  apply andb_prop in Hp. destruct Hp as [Hgt Hlt].
  apply negb_true_iff in Hgt, Hlt, Hs.
  unfold singular in Hs. apply orb_false_iff in Hs. destruct Hs as [Hs1 Hs2].
  exists a, b. split; [reflexivity|]. split; [reflexivity|].
  unfold nonsingular in H. rewrite Flo, Fhi, Hgt in H. cbn [rbind negb] in H.
  rewrite Ea, Eb in H. cbn [rbind] in H.
  rewrite Hs1, Hs2 in H. cbn [rbind fst snd] in H.
  unfold sorted2 in H. rewrite Hlt in H. now injection H as <-.
Qed.


(** Two named series over the same two abscissae; the second one is a
    descriptor with ticks at 0 and 10. *)
Definition two_series_with_ticks : data_dict :=
  [("plain", RawData [PInt 1; PInt 2]);
   ("ticked", Descr (mk_descriptor (Some [PInt 3; PInt 4]) None
                       (Some [PInt 0; PInt 10])))].









(** *** One mapping or a list of one *)

(** Two series in a mapping that is not a [dict]. *)
Definition two_plain_series : data_dict :=
  [("first", RawData [PInt 1; PInt 2]); ("second", RawData [PInt 3; PInt 4])].

(** A mapping that is not a [dict] is not wrapped: the call with the
    mapping raises [KeyError] at [data_dict_list[0]], while the call with
    the list holding it returns, with two panels.  The two calls are not
    the same for every mapping. *)
Lemma stacked_plots_other_mapping :
  stacked_plots "x" [PInt 0; PInt 1] (OtherMapping two_plain_series)
    (PInt 12, PInt 10) (PInt 200) "stacks.png" None (PFloat (B64.lit 1 10))
    empty_pyplot = Raise KeyError /\
  exists f w',
    stacked_plots "x" [PInt 0; PInt 1] (DictList [two_plain_series])
      (PInt 12, PInt 10) (PInt 200) "stacks.png" None (PFloat (B64.lit 1 10))
      empty_pyplot = Ok ((f, AxesArray [0; 1]%nat), w').
Proof.
  split; [reflexivity|].
  destruct (stacked_plots "x" [PInt 0; PInt 1] (DictList [two_plain_series])
              (PInt 12, PInt 10) (PInt 200) "stacks.png" None
              (PFloat (B64.lit 1 10)) empty_pyplot)
    as [[[f axs] w']|e] eqn:Hrun; [|vm_compute in Hrun; discriminate Hrun].
  vm_compute in Hrun. injection Hrun as <- <- <-.
  eexists. eexists. reflexivity.
Qed.

(** C10, amended.  A [dict] is turned into the one-element list holding
    it before anything else is done: the call with the [dict] and the call
    with that list are the same computation, on every store; and when it
    returns it has made one panel for each series of the [dict], which
    come back as an array. *)
Theorem stacked_plots_single_mapping :
  forall xlabel xdata (d : data_dict) figsize pad filename xticks cushion w,
    wrap_dict (OneDict d) = DictList [d] /\
    stacked_plots xlabel xdata (OneDict d) figsize pad filename xticks cushion w
    = stacked_plots xlabel xdata (DictList [d]) figsize pad filename xticks
        cushion w /\
    forall f axs w',
      stacked_plots xlabel xdata (OneDict d) figsize pad filename xticks
        cushion w = Ok ((f, axs), w') ->
      axs = AxesArray (seq (List.length (all_axes w)) (List.length d)) /\
      forall i item,
        nth_error d i = Some item ->
        exists p',
          nth_error (all_axes w') (List.length (all_axes w) + i) = Some p'.
Proof.
  intros xlabel xdata d figsize pad filename xticks cushion w.
  split; [reflexivity|]. split; [reflexivity|].
  intros f axs w' Hrun.
  destruct (stacked_plots_y_state _ _ _ _ _ _ _ _ _ _ _ _ Hrun)
    as (dd & Hdd & Haxs & Hall).
  injection Hdd as <-.
  split; [exact Haxs|].
  intros i item Hitem.
  destruct (Hall i item Hitem) as (p' & _ & Hp' & _). eauto.
Qed.

(** The two calls on the series with ticks at 0 and 10: the same result,
    with two panels. *)
Lemma stacked_plots_single_mapping_witness :
  exists f w',
    stacked_plots "x" [PInt 0; PInt 1] (OneDict two_series_with_ticks)
      (PInt 12, PInt 10) (PInt 200) "stacks.png" None (PFloat (B64.lit 1 10))
      empty_pyplot = Ok ((f, AxesArray [0; 1]%nat), w') /\
    stacked_plots "x" [PInt 0; PInt 1] (DictList [two_series_with_ticks])
      (PInt 12, PInt 10) (PInt 200) "stacks.png" None (PFloat (B64.lit 1 10))
      empty_pyplot = Ok ((f, AxesArray [0; 1]%nat), w') /\
    exists p', nth_error (all_axes w') 1 = Some p'.
Proof.
  destruct (stacked_plots_single_mapping "x" [PInt 0; PInt 1]
              two_series_with_ticks (PInt 12, PInt 10) (PInt 200) "stacks.png"
              None (PFloat (B64.lit 1 10)) empty_pyplot) as (_ & Heq & Hret).
  destruct (stacked_plots "x" [PInt 0; PInt 1] (OneDict two_series_with_ticks)
              (PInt 12, PInt 10) (PInt 200) "stacks.png" None
              (PFloat (B64.lit 1 10)) empty_pyplot)
    as [[[f axs] w']|e] eqn:Hrun; [|vm_compute in Hrun; discriminate Hrun].
  destruct (Hret f axs w' eq_refl) as [-> Hall].
  exists f, w'. split; [reflexivity|]. split; [symmetry; exact Heq|].
  exact (Hall 1%nat _ eq_refl).
Defined.

(** ** Computations that act on one axes *)

(** [acts g a h m]: when [m] returns, no axes was created, [g] changed by
    [h] on the axes [a] and not at all on the others. *)
Definition acts {T A} (g : axes -> T) (a : nat) (h : T -> T) (m : M A) : Prop :=
  forall w x w', m w = Ok (x, w') -> view g w' = update_nth a h (view g w).

Lemma acts_stable {T A} (g : axes -> T) a (m : M A) :
  stable g m -> acts g a (fun s => s) m.
Proof.
  intros Hs w x w' H. rewrite (Hs _ _ _ H). symmetry. now apply update_nth_id.
Qed.

Lemma acts_modify {T} (g : axes -> T) a f h :
  (forall p, g (f p) = h (g p)) -> acts g a h (modify_axes a f).
Proof. intros E w x w' H. exact (view_modify g h a f w x w' E H). Qed.

Lemma acts_bind {T A B} (g : axes -> T) a h1 h2 (m : M A) (k : A -> M B) :
  acts g a h1 m -> (forall x, acts g a h2 (k x)) ->
  acts g a (fun s => h2 (h1 s)) (bind m k).
Proof.
  intros Hm Hk w y w' H. apply bind_Ok in H. destruct H as (x & w1 & H1 & H2).
  rewrite (Hk x _ _ _ H2), (Hm _ _ _ H1). apply update_nth_compose.
Qed.

Lemma acts_stable_bind {T A B} (g : axes -> T) a h (m : M A) (k : A -> M B) :
  stable g m -> (forall x, acts g a h (k x)) -> acts g a h (bind m k).
Proof.
  intros Hm Hk w y w' H. apply bind_Ok in H. destruct H as (x & w1 & H1 & H2).
  rewrite (Hk x _ _ _ H2), (Hm _ _ _ H1). reflexivity.
Qed.

Lemma acts_ext {T A} (g : axes -> T) a h h' (m : M A) :
  (forall s, h s = h' s) -> acts g a h m -> acts g a h' m.
Proof.
  intros E Hm w x w' H. rewrite (Hm _ _ _ H). now apply update_nth_ext.
Qed.

(** A loop whose iterations act on pairwise different axes: each of them
    gets the effect of its own iteration, and the rest is untouched. *)
Lemma for_each_acts {T A} (g : axes -> T) (panel : A -> nat)
    (eff : A -> T -> T) (body : A -> M unit) (l : list A) :
  (forall x, In x l -> acts g (panel x) (eff x) (body x)) ->
  NoDup (map panel l) ->
  forall w u w',
    for_each l body w = Ok (u, w') ->
    List.length (view g w') = List.length (view g w) /\
    (forall b, ~ In b (map panel l) ->
       nth_error (view g w') b = nth_error (view g w) b) /\
    (forall x, In x l ->
       nth_error (view g w') (panel x) =
         option_map (eff x) (nth_error (view g w) (panel x))).
Proof.
  induction l as [|x r IH]; intros Hacts Hnd w u w'; simpl.
  - unfold ret. intros [= _ <-]. repeat split. intros x [].
  - intros H. apply bind_Ok in H. destruct H as (u1 & w1 & H1 & H2).
    inversion Hnd as [|? ? Hnotin Hnd']; subst.
    apply (Hacts x (or_introl eq_refl)) in H1.
    apply IH in H2; [|intros y Hy; apply Hacts; now right|exact Hnd'].
    destruct H2 as (Hlen & Hframe & Heff).
    split.
    { rewrite Hlen, H1. apply update_nth_length. }
    split.
    { intros b Hb. rewrite Hframe by (intro; apply Hb; now right).
      rewrite H1. apply nth_error_update_nth_neq.
      intros E. apply Hb. left. exact E. }
    intros y [<-|Hy].
    + rewrite Hframe by exact Hnotin. rewrite H1.
      apply nth_error_update_nth_eq.
    + rewrite (Heff y Hy). f_equal. rewrite H1.
      apply nth_error_update_nth_neq.
      intros E. apply Hnotin. rewrite E. now apply in_map.
Qed.

Lemma stable_get_axes {T} (g : axes -> T) a : stable g (get_axes a).
Proof.
  intros w x w'. unfold get_axes.
  destruct (nth_error (all_axes w) a); [|discriminate]. now intros [= _ <-].
Qed.

#[export] Hint Resolve stable_get_axes : stable.

Lemma acts_lift_bind {T A B} (g : axes -> T) a h (r : result A) (k : A -> M B) :
  (forall x, r = Ok x -> acts g a h (k x)) -> acts g a h (bind (lift r) k).
Proof.
  intros Hk w y w' H. apply bind_Ok in H. destruct H as (x & w1 & H1 & H2).
  apply lift_Ok in H1. destruct H1 as [E ->]. exact (Hk x E _ _ _ H2).
Qed.

(** ** [horiz_bar] *)

(** The x-range of an axes and the strings of its texts, in the order
    they were added. *)
Definition bar_state (p : axes) : option (pynum * pynum) * list string :=
  (ax_xlim p, map t_text (ax_texts p)).

(** The view limits after [set_xlim(lo, hi)] or [set_ylim(lo, hi)]. *)
Definition new_limits (lo hi : pynum) (old : option (pynum * pynum))
    : option (pynum * pynum) :=
  match check_limits lo hi with
  | Ok v => Some v
  | Raise _ => old
  end.

Lemma acts_set_xlim a lo hi :
  acts bar_state a (fun s => (new_limits lo hi (fst s), snd s))
    (set_xlim a lo hi).
Proof.
  unfold set_xlim, new_limits. apply acts_lift_bind. intros v Hv. rewrite Hv.
  apply acts_modify. intros []; reflexivity.
Qed.

Lemma acts_ax_text a x y s color ha va fs :
  acts bar_state a (fun st => (fst st, snoc (snd st) s))
    (ax_text a x y s color ha va fs).
Proof.
  unfold ax_text. apply acts_stable_bind; [apply stable_get_axes|]. intro p.
  eapply acts_ext; [|eapply acts_bind;
    [apply acts_modify with (h := fun st => (fst st, snoc (snd st) s))
    |intro; apply acts_stable, stable_ret]].
  - reflexivity.
  - intros []. unfold bar_state, with_texts, snoc. simpl.
    now rewrite map_app.
Qed.

Lemma stable_bar_spine_set_visible a loc b :
  stable bar_state (spine_set_visible a loc b).
Proof.
  unfold spine_set_visible. apply stable_bind; [apply stable_get_axes|].
  intro p. destruct (lookup loc (ax_spines p)); repeat stable_step.
Qed.

Lemma stable_bar_set_ylim a lo hi : stable bar_state (set_ylim a lo hi).
Proof. unfold set_ylim. repeat stable_step. Qed.

Lemma stable_bar_axhline a y c lw : stable bar_state (axhline a y c lw).
Proof. unfold axhline. repeat stable_step. Qed.

Lemma stable_bar_scatter a xs ys c sz : stable bar_state (scatter a xs ys c sz).
Proof. unfold scatter. repeat stable_step. Qed.

Lemma stable_bar_add_line a xs ys lw c : stable bar_state (add_line a xs ys lw c).
Proof. unfold add_line. repeat stable_step. Qed.

(** The text drawn for a value. *)
Definition value_text (t : pynum) (nd : Z) : string :=
  match py_format_f t nd with
  | Ok s => s
  | Raise _ => ""
  end.

(** What drawing bar [j] does to its axes: the x-range is set from 0
    and [t_max * 1.05], and the label, the formatted value and, on the
    first bar, the two headers are added to the texts. *)
Definition bar_effect (nd : Z) (lay : bar_layout) (header : list string)
    (jlta : nat * (string * pynum * nat))
    (st : option (pynum * pynum) * list string)
    : option (pynum * pynum) * list string :=
  (new_limits (PInt 0) (bl_xmax lay) (fst st),
   (snd st ++ [fst (fst (snd jlta)); value_text (snd (fst (snd jlta))) nd] ++
    if (fst jlta =? 0)%nat
    then [nth 0 header ""; nth 1 header ""]
    else [])%list).

Lemma py_index_nth (l : list string) i s :
  py_index l (Z.of_nat i) = Ok s -> nth i l "" = s.
Proof.
  intros H. apply py_index_nat in H. now apply nth_error_nth.
Qed.

Lemma acts_draw_bar num tmd nd lay header color jlta :
  acts bar_state (snd (snd jlta)) (bar_effect nd lay header jlta)
    (draw_bar num tmd nd lay header color jlta).
Proof.
  destruct jlta as [j [[l t] ax]]. unfold draw_bar, bar_effect.
  cbn [fst snd].
  apply acts_stable_bind; [apply stable_bar_axhline|intro].
  apply acts_stable_bind; [apply stable_bar_scatter|intro].
  apply acts_stable_bind; [apply stable_bar_set_ylim|intro].
  eapply acts_ext; cycle 1.
  { eapply acts_bind; [apply acts_set_xlim|intro].
    apply acts_stable_bind; [repeat stable_step|intro].
    apply acts_stable_bind; [apply stable_bar_spine_set_visible|intro].
    apply acts_stable_bind; [apply stable_bar_spine_set_visible|intro].
    apply acts_stable_bind; [apply stable_bar_spine_set_visible|intro].
    apply acts_stable_bind; [apply stable_bar_spine_set_visible|intro].
    eapply acts_bind; [apply acts_ax_text|intro].
    apply acts_stable_bind; [apply stable_lift|intro].
    apply acts_lift_bind. intros s Hs.
    assert (Es : s = value_text t nd) by (unfold value_text; now rewrite Hs).
    subst s.
    eapply acts_bind; [apply acts_ax_text|intro].
    instantiate (1 := fun st =>
      (fst st, (snd st ++ if (j =? 0)%nat
                          then [nth 0 header ""; nth 1 header ""]
                          else [])%list)).
    destruct (j =? 0)%nat.
    - apply acts_lift_bind. intros h0 Hh0.
      apply (py_index_nth header 0) in Hh0. subst h0.
      eapply acts_ext; cycle 1.
      { eapply acts_bind; [apply acts_ax_text|intro].
        apply acts_lift_bind. intros h1 Hh1.
        apply (py_index_nth header 1) in Hh1. subst h1.
        eapply acts_bind; [apply acts_ax_text|intro].
        apply acts_stable. apply stable_bar_add_line. }
      intros [xl ts]. unfold snoc. cbn [fst snd].
      rewrite <- app_assoc. reflexivity.
    - eapply acts_ext; [|apply acts_stable, stable_ret].
      intros [xl ts]. cbn [fst snd]. now rewrite app_nil_r. }
  intros [xl ts]. unfold snoc. cbn [fst snd].
  rewrite <- !app_assoc. reflexivity.
Qed.

(** *** The formatted value *)

Definition is_digit (c : ascii) : bool :=
  ((48 <=? nat_of_ascii c) && (nat_of_ascii c <=? 57))%nat.

Fixpoint all_digits (s : string) : bool :=
  match s with
  | EmptyString => true
  | String c r => is_digit c && all_digits r
  end.

(** [s] is written with exactly [nd] digits after the decimal point (and
    without a point when [nd] is zero). *)
Definition has_decimals (nd : nat) (s : string) : Prop :=
  exists ip fp,
    s = ip ++ match nd with O => "" | S _ => String "." fp end /\
    String.length fp = nd /\
    all_digits fp = true.

Lemma string_length_append a b :
  String.length (a ++ b) = (String.length a + String.length b)%nat.
Proof. induction a as [|c a IH]; simpl; auto. Qed.

Lemma string_append_assoc a b c : (a ++ b) ++ c = a ++ (b ++ c).
Proof. induction a as [|x a IH]; simpl; [reflexivity|now rewrite IH]. Qed.

Lemma length_substring s : forall n m,
  (n + m <= String.length s)%nat -> String.length (substring n m s) = m.
Proof.
  induction s as [|c s IH]; intros [|n] [|m] H; simpl in *; try lia; auto.
  - rewrite IH; [reflexivity|lia].
  - apply IH. lia.
  - apply IH. lia.
Qed.

Lemma all_digits_substring s : forall n m,
  all_digits s = true -> all_digits (substring n m s) = true.
Proof.
  induction s as [|c s IH]; intros [|n] [|m] H; simpl in *; auto.
  - apply andb_true_iff in H. destruct H as [-> H]. simpl. now apply IH.
  - apply andb_true_iff in H. destruct H as [_ H]. now apply IH.
  - apply andb_true_iff in H. destruct H as [_ H]. now apply IH.
Qed.

Lemma all_digits_append a b :
  all_digits a = true -> all_digits b = true -> all_digits (a ++ b) = true.
Proof.
  induction a as [|c a IH]; simpl; auto.
  intros H Hb. apply andb_true_iff in H. destruct H as [-> H]. simpl. auto.
Qed.

Lemma all_digits_zeros n : all_digits (zeros n) = true.
Proof. induction n; simpl; auto. Qed.

Lemma length_zeros n : String.length (zeros n) = n.
Proof. induction n; simpl; auto. Qed.

Lemma all_digits_of_uint u : all_digits (NilZero.string_of_uint u) = true.
Proof.
  assert (H : all_digits (NilEmpty.string_of_uint u) = true).
  { induction u; simpl; auto. }
  destruct u; simpl in *; auto.
Qed.

Lemma fixed_point_decimals nd q : has_decimals nd (fixed_point nd q).
Proof.
  unfold fixed_point, has_decimals.
  set (d0 := NilZero.string_of_uint (N.to_uint (Z.to_N q))).
  set (ds := zeros (S nd - String.length d0) ++ d0).
  assert (Hlen : (S nd <= String.length ds)%nat).
  { unfold ds. rewrite string_length_append, length_zeros. lia. }
  assert (Hdig : all_digits ds = true).
  { unfold ds. apply all_digits_append;
      [apply all_digits_zeros | apply all_digits_of_uint]. }
  exists (substring 0 (String.length ds - nd) ds).
  destruct nd as [|k].
  - exists "". auto.
  - exists (substring (String.length ds - S k) (S k) ds).
    split; [reflexivity|]. split.
    + apply length_substring. lia.
    + now apply all_digits_substring.
Qed.

Lemma has_decimals_prefix nd a s :
  has_decimals nd s -> has_decimals nd (a ++ s).
Proof.
  intros (ip & fp & -> & H). exists (a ++ ip), fp.
  split; [|exact H]. symmetry. apply string_append_assoc.
Qed.

Lemma py_format_f_decimals t nd k s :
  py_int t = Ok k ->
  py_format_f t nd = Ok s ->
  has_decimals (Z.to_nat nd) s.
Proof.
  unfold py_format_f. destruct (nd <? 0)%Z; [discriminate|].
  intros Hk H. apply rbind_Ok in H. destruct H as (f & Hf & H).
  injection H as <-.
  assert (Hfin : B64.is_finite f = true).
  { destruct t as [z|g]; simpl in Hf.
    - destruct (B64.is_finite (B64.of_Z z)) eqn:E; [|discriminate].
      now injection Hf as <-.
    - injection Hf as ->. simpl in Hk. now destruct f. }
  destruct f as [sg|sg| |sg m e]; try discriminate Hfin; simpl;
    apply has_decimals_prefix, fixed_point_decimals.
Qed.

(** ** Parts of the store that the axes methods do not touch *)

Definition keeps {T A} (proj : pyplot -> T) (m : M A) : Prop :=
  forall w x w', m w = Ok (x, w') -> proj w' = proj w.

(** A projection that does not look at the axes. *)
Definition axes_blind {T} (proj : pyplot -> T) : Prop :=
  forall l w, proj (set_all_axes l w) = proj w.

Lemma keeps_ret {T A} (proj : pyplot -> T) (x : A) : keeps proj (ret x).
Proof. intros w y w'. unfold ret. now intros [= _ <-]. Qed.

Lemma keeps_lift {T A} (proj : pyplot -> T) (r : result A) : keeps proj (lift r).
Proof. intros w y w' H. apply lift_Ok in H. now destruct H as [_ ->]. Qed.

Lemma keeps_raise {T A} (proj : pyplot -> T) e : keeps proj (@raise A e).
Proof. intros w y w'. discriminate. Qed.

Lemma keeps_bind {T A B} (proj : pyplot -> T) (m : M A) (k : A -> M B) :
  keeps proj m -> (forall a, keeps proj (k a)) -> keeps proj (bind m k).
Proof.
  intros Hm Hk w y w' H. apply bind_Ok in H. destruct H as (a & w1 & H1 & H2).
  rewrite (Hk a _ _ _ H2). exact (Hm _ _ _ H1).
Qed.

Lemma keeps_for_each {T A} (proj : pyplot -> T) (l : list A) body :
  (forall x, keeps proj (body x)) -> keeps proj (for_each l body).
Proof.
  intros Hb. induction l as [|x r IH]; simpl.
  - apply keeps_ret.
  - apply keeps_bind; auto.
Qed.

Lemma keeps_if {T A} (proj : pyplot -> T) (b : bool) (m1 m2 : M A) :
  keeps proj m1 -> keeps proj m2 -> keeps proj (if b then m1 else m2).
Proof. destruct b; auto. Qed.

Lemma keeps_get_axes {T} (proj : pyplot -> T) a : keeps proj (get_axes a).
Proof.
  intros w x w'. unfold get_axes.
  destruct (nth_error (all_axes w) a); [|discriminate]. now intros [= _ <-].
Qed.

Lemma keeps_modify_axes {T} (proj : pyplot -> T) a f :
  axes_blind proj -> keeps proj (modify_axes a f).
Proof.
  intros Hb w x w' H. apply modify_axes_Ok in H. destruct H as [_ ->].
  apply Hb.
Qed.

Ltac keeps_step Hb :=
  lazymatch goal with
  | |- keeps _ (bind _ _) => apply keeps_bind; [|intro]
  | |- keeps _ (ret _) => apply keeps_ret
  | |- keeps _ (lift _) => apply keeps_lift
  | |- keeps _ (raise _) => apply keeps_raise
  | |- keeps _ (get_axes _) => apply keeps_get_axes
  | |- keeps _ (modify_axes _ _) => apply keeps_modify_axes; exact Hb
  | |- keeps _ (for_each _ _) => apply keeps_for_each; intro
  | |- keeps _ (if _ then _ else _) => apply keeps_if
  | |- keeps _ (axhline _ _ _ _) => unfold axhline
  | |- keeps _ (scatter _ _ _ _ _) => unfold scatter
  | |- keeps _ (set_ylim _ _ _) => unfold set_ylim
  | |- keeps _ (set_xlim _ _ _) => unfold set_xlim
  | |- keeps _ (ax_text _ _ _ _ _ _ _ _) => unfold ax_text
  | |- keeps _ (add_line _ _ _ _ _) => unfold add_line
  end.

Lemma keeps_spine_set_visible {T} (proj : pyplot -> T) a loc b :
  axes_blind proj -> keeps proj (spine_set_visible a loc b).
Proof.
  intros Hb. unfold spine_set_visible.
  apply keeps_bind; [apply keeps_get_axes|]. intro p.
  destruct (lookup loc (ax_spines p)); keeps_step Hb.
Qed.

Lemma keeps_draw_bar {T} (proj : pyplot -> T) num tmd nd lay header color jlta :
  axes_blind proj -> keeps proj (draw_bar num tmd nd lay header color jlta).
Proof.
  intros Hb. unfold draw_bar.
  repeat lazymatch goal with
         | |- keeps _ (spine_set_visible _ _ _) =>
             apply keeps_spine_set_visible; exact Hb
         | |- _ => keeps_step Hb
         end.
Qed.

(** ** Lists walked in step *)

Lemma in_combine_seq {A} (l : list A) : forall k i x,
  In (i, x) (combine (seq k (List.length l)) l) <->
  (k <= i)%nat /\ nth_error l (i - k) = Some x.
Proof.
  induction l as [|y r IH]; intros k i x; simpl.
  - split; [intros []|]. intros [_ H]. destruct (i - k)%nat; discriminate.
  - rewrite IH. split.
    + intros [[= <- <-]|[Hk H]].
      * split; [lia|]. now rewrite Nat.sub_diag.
      * split; [lia|]. replace (i - k)%nat with (S (i - S k)) by lia. exact H.
    + intros [Hk H]. destruct (Nat.eq_dec i k) as [->|Hne].
      * left. rewrite Nat.sub_diag in H. simpl in H. now injection H as <-.
      * right. split; [lia|].
        replace (i - k)%nat with (S (i - S k)) in H by lia. exact H.
Qed.

Lemma in_enumerate {A} (l : list A) i x :
  In (i, x) (enumerate l) <-> nth_error l i = Some x.
Proof.
  unfold enumerate. rewrite in_combine_seq, Nat.sub_0_r.
  split; [now intros [_ H] | intros H; split; [lia|exact H]].
Qed.

Lemma map_snd_combine_seq {A} (l : list A) k :
  map snd (combine (seq k (List.length l)) l) = l.
Proof.
  revert k. induction l as [|y r IH]; intros k; simpl; [reflexivity|].
  now rewrite IH.
Qed.

Lemma nth_error_zip3 {A B C} (la : list A) (lb : list B) (lc : list C) :
  forall i a b c,
    nth_error (zip3 la lb lc) i = Some (a, b, c) <->
    nth_error la i = Some a /\ nth_error lb i = Some b /\
    nth_error lc i = Some c.
Proof.
  revert lb lc.
  induction la as [|x ra IH]; intros [|y rb] [|z rc] [|i] a b c; simpl;
    try (split; [discriminate | intros (H1 & H2 & H3); discriminate]).
  - split.
    + intros [= <- <- <-]. auto.
    + intros ([= <-] & [= <-] & [= <-]). reflexivity.
  - apply IH.
Qed.

Lemma in_map_snd_zip3 {A B C} (la : list A) (lb : list B) (lc : list C) c :
  In c (map snd (zip3 la lb lc)) -> In c lc.
Proof.
  revert lb lc.
  induction la as [|x ra IH]; intros [|y rb] [|z rc]; simpl; try tauto.
  intros [H|H]; [now left | right; eapply IH; exact H].
Qed.

Lemma NoDup_map_snd_zip3 {A B C} (la : list A) (lb : list B) (lc : list C) :
  NoDup lc -> NoDup (map snd (zip3 la lb lc)).
Proof.
  revert lb lc.
  induction la as [|x ra IH]; intros [|y rb] [|z rc] H; simpl;
    try constructor.
  - inversion H; subst. intros Hin. apply in_map_snd_zip3 in Hin. contradiction.
  - inversion H; subst. now apply IH.
Qed.

(** Every iteration of a loop that returned did return. *)
Lemma for_each_each {A} (l : list A) (body : A -> M unit) w u w' :
  for_each l body w = Ok (u, w') ->
  forall x, In x l -> exists w1 u1 w2, body x w1 = Ok (u1, w2).
Proof.
  revert w. induction l as [|y r IH]; intros w H x []; simpl in H.
  - subst y. apply bind_Ok in H. destruct H as (u1 & w1 & H1 & _). eauto.
  - apply bind_Ok in H. destruct H as (u1 & w1 & _ & H2). eapply IH; eauto.
Qed.

Lemma subplots_store n figsize w f axs w1 :
  subplots n figsize w = Ok ((f, axs), w1) ->
  f = List.length (all_figures w) /\
  all_figures w1 =
    snoc (all_figures w)
      (new_figure (seq (List.length (all_axes w)) n) figsize) /\
  saved w1 = saved w.
Proof.
  unfold subplots. destruct n as [|k]; [discriminate|].
  intros [= <- _ <-]. repeat split.
Qed.

Lemma axarr_iter_Ok base n axs l :
  axs = match seq base n with [a] => OneAxes a | l0 => AxesArray l0 end ->
  axarr_iter axs = Ok l ->
  l = seq base n /\ axs = AxesArray (seq base n).
Proof.
  intros -> H. destruct (seq base n) as [|a [|b r]]; simpl in H.
  - injection H as <-. auto.
  - discriminate.
  - injection H as <-. auto.
Qed.

Lemma modify_figure_Ok g h w u w' :
  modify_figure g h w = Ok (u, w') ->
  w' = set_all_figures (update_nth g h (all_figures w)) w.
Proof.
  unfold modify_figure. destruct (nth_error (all_figures w) g); [|discriminate].
  now intros [= _ <-].
Qed.

Lemma fig_savefig_Ok g name w u w' :
  fig_savefig g name w = Ok (u, w') ->
  w' = set_saved (snoc (saved w) (name, g)) w.
Proof.
  unfold fig_savefig. destruct (nth_error (all_figures w) g); [|discriminate].
  now intros [= _ <-].
Qed.

Lemma bar_positions_xmax ts t_max l_max header nd lay :
  bar_positions ts t_max l_max header nd = Ok lay ->
  py_mul t_max (PFloat (B64.lit 105 100)) = Ok (bl_xmax lay).
Proof.
  unfold bar_positions. intros H.
  repeat (apply rbind_Ok in H; destruct H as (? & ? & H)).
  injection H as <-. assumption.
Qed.

Lemma py_mul_float_r a f v :
  py_mul a (PFloat f) = Ok v -> exists x, v = PFloat x.
Proof.
  unfold py_mul, py_arith. destruct a as [z|g]; intros H.
  - apply rbind_Ok in H. destruct H as (x & _ & H).
    cbn [py_float rbind] in H. injection H as <-. eauto.
  - cbn [py_float rbind] in H. injection H as <-. eauto.
Qed.

Lemma draw_bar_formats num tmd nd lay header color j l t ax w u w' :
  draw_bar num tmd nd lay header color (j, (l, t, ax)) w = Ok (u, w') ->
  exists k s, py_int t = Ok k /\ py_format_f t nd = Ok s.
Proof.
  unfold draw_bar. cbn [fst snd]. intros H.
  repeat (apply bind_Ok in H; destruct H as (? & ? & ? & H)).
  repeat match goal with
         | Hl : lift _ _ = Ok _ |- _ => apply lift_Ok in Hl; destruct Hl as [Hl _]
         end.
  eauto.
Qed.

Lemma set_xlim_Ok a lo hi w u w' :
  set_xlim a lo hi w = Ok (u, w') -> exists v, check_limits lo hi = Ok v.
Proof.
  unfold set_xlim. intros H. run_step H v w1 Hv.
  apply lift_Ok in Hv. destruct Hv as [Hv _]. eauto.
Qed.

(** A bar that was drawn had its x-range accepted. *)
Lemma draw_bar_xlim num tmd nd lay header color jlta w u w' :
  draw_bar num tmd nd lay header color jlta w = Ok (u, w') ->
  exists v, check_limits (PInt 0) (bl_xmax lay) = Ok v.
Proof.
  unfold draw_bar. intros H.
  run_step H u1 w1 H1. run_step H u2 w2 H2. run_step H u3 w3 H3.
  run_step H u4 w4 H4. exact (set_xlim_Ok _ _ _ _ _ _ H4).
Qed.

(** C3, amended.  When [horiz_bar] returns and there are at least as many
    labels as numbers: one new panel per number, all of them in the
    figure that is saved as [bar_chart.pdf]; the x-range of each panel is
    what [set_xlim] makes of 0 and [max(times) * 1.05], which is
    [(0.0, max(times) * 1.05)] when that product is not below 0 and the
    library does not take the interval for a singular one; and the second
    text of each panel is its number formatted with exactly [nd] digits
    after the decimal point. *)
Theorem horiz_bar_panels labels times header ts nd size color w u w' :
  horiz_bar labels times header ts nd size color w = Ok (u, w') ->
  (List.length times <= List.length labels)%nat ->
  exists t_max xmax fig,
    py_max times = Ok t_max /\
    py_mul t_max (PFloat (B64.lit 105 100)) = Ok (PFloat xmax) /\
    List.length (all_axes w') =
      (List.length (all_axes w) + List.length times)%nat /\
    nth_error (all_figures w') (List.length (all_figures w)) = Some fig /\
    fig_axes fig = seq (List.length (all_axes w)) (List.length times) /\
    saved w' = snoc (saved w) ("bar_chart.pdf", List.length (all_figures w)) /\
    forall i t,
      nth_error times i = Some t ->
      exists p' s v,
        nth_error (all_axes w') (List.length (all_axes w) + i) = Some p' /\
        check_limits (PInt 0) (PFloat xmax) = Ok v /\
        ax_xlim p' = Some v /\
        (plain_limits (PInt 0) (PFloat xmax) = true ->
         ax_xlim p' = Some (PFloat (B64.of_Z 0), PFloat xmax)) /\
        py_format_f t nd = Ok s /\
        nth_error (map t_text (ax_texts p')) 1 = Some s /\
        has_decimals (Z.to_nat nd) s.
Proof.
  unfold horiz_bar. intros H Hlen.
  set (num := List.length times) in *.
  set (base := List.length (all_axes w)).
  run_step H width w0 Hw. apply lift_Ok in Hw. destruct Hw as [_ ->].
  run_step H hh w0 Hh. apply lift_Ok in Hh. destruct Hh as [_ ->].
  run_step H height w0 Hht. apply lift_Ok in Hht. destruct Hht as [_ ->].
  run_step H t_max w0 Ht. apply lift_Ok in Ht. destruct Ht as [Ht ->].
  run_step H longest w0 Hlg. apply lift_Ok in Hlg. destruct Hlg as [_ ->].
  run_step H fa w1 Hs. destruct fa as [fig axs]. cbn [fst snd] in H.
  run_step H lay w0 Hlay. apply lift_Ok in Hlay. destruct Hlay as [Hlay ->].
  run_step H tmd w0 Htmd. apply lift_Ok in Htmd. destruct Htmd as [_ ->].
  run_step H ids w0 Hids. apply lift_Ok in Hids. destruct Hids as [Hids ->].
  run_step H u1 w2 Hloop. run_step H u2 w3 Hsize.
  destruct (subplots_store _ _ _ _ _ _ Hs) as (-> & Hfigs & Hsaved).
  apply subplots_Ok in Hs. destruct Hs as (_ & Haxes & Haxs).
  destruct (axarr_iter_Ok _ _ _ _ Haxs Hids) as [-> _].
  fold base in Haxes, Hfigs, Hloop.
  apply modify_figure_Ok in Hsize. apply fig_savefig_Ok in H.
  (* the loop *)
  assert (Hsv : saved w2 = saved w1).
  { revert Hloop. apply keeps_for_each. intro.
    apply keeps_draw_bar. intros ? ?; reflexivity. }
  assert (Hfg : all_figures w2 = all_figures w1).
  { revert Hloop. apply keeps_for_each. intro.
    apply keeps_draw_bar. intros ? ?; reflexivity. }
  pose proof (for_each_each _ _ _ _ _ Hloop) as Heach.
  apply (for_each_acts bar_state (fun x => snd (snd x))
           (bar_effect nd lay header)) in Hloop.
  2:{ intros x _. apply acts_draw_bar. }
  2:{ rewrite <- map_map. unfold enumerate. rewrite map_snd_combine_seq.
      apply NoDup_map_snd_zip3, seq_NoDup. }
  destruct Hloop as (Hl2 & _ & Heff).
  pose proof (bar_positions_xmax _ _ _ _ _ _ Hlay) as Hxmax.
  destruct (py_mul_float_r _ _ _ Hxmax) as [xmax Exmax].
  rewrite Exmax in Hxmax.
  exists t_max, xmax,
    (mk_figure (seq base num) (Some (width, height)) false false).
  split; [exact Ht|].
  split; [exact Hxmax|].
  split.
  { subst w' w3. simpl. unfold view in Hl2. rewrite !length_map in Hl2.
    rewrite Hl2, Haxes, length_app, repeat_length. reflexivity. }
  split.
  { subst w' w3. simpl. rewrite nth_error_update_nth_eq, Hfg, Hfigs.
    unfold snoc. rewrite nth_error_app2 by lia. rewrite Nat.sub_diag.
    reflexivity. }
  split; [reflexivity|].
  split.
  { subst w' w3. simpl. now rewrite Hsv, Hsaved. }
  intros i t Hit.
  assert (Hi : (i < num)%nat) by (apply nth_error_Some; congruence).
  destruct (nth_error labels i) as [l|] eqn:Hil.
  2:{ apply nth_error_None in Hil. unfold num in *. lia. }
  assert (Hin : In (i, (l, t, (base + i)%nat))
                  (enumerate (zip3 labels times (seq base num)))).
  { apply in_enumerate. apply nth_error_zip3.
    split; [exact Hil|]. split; [exact Hit|]. apply nth_error_seq. auto. }
  destruct (Heach _ Hin) as (wa & ua & wb & Hbar).
  destruct (draw_bar_xlim _ _ _ _ _ _ _ _ _ _ Hbar) as [v Hv].
  apply draw_bar_formats in Hbar. destruct Hbar as (k & s & Hk & Hfmt).
  specialize (Heff _ Hin). cbn [fst snd] in Heff.
  unfold view at 2 in Heff. rewrite Haxes in Heff. unfold base in Heff at 3.
  rewrite nth_error_fresh_view in Heff by exact Hi.
  unfold view in Heff. rewrite nth_error_map in Heff.
  assert (Hax : all_axes w' = all_axes w2) by (subst w' w3; reflexivity).
  rewrite Hax.
  destruct (nth_error (all_axes w2) (base + i)) as [p'|]; [|discriminate Heff].
  simpl in Heff. injection Heff as Hxl Htx.
  unfold new_limits in Hxl. rewrite Hv in Hxl. rewrite Exmax in Hv.
  exists p', s, v. split; [reflexivity|].
  split; [exact Hv|]. split; [exact Hxl|].
  split.
  { intros Hplain. rewrite Hxl.
    destruct (check_limits_plain _ _ _ Hv Hplain) as (a & b & Ea & Eb & ->).
    injection Ea as <-. injection Eb as <-. reflexivity. }
  split; [exact Hfmt|]. split.
  - rewrite Htx. unfold value_text. rewrite Hfmt. reflexivity.
  - exact (py_format_f_decimals _ _ _ _ Hk Hfmt).
Qed.

(** With the defaults of the signature, the labels A and BB, the
    numbers 10 and 20 and the header L, R: two panels, the second value
    text is "20.0", the x-range ends at [20 * 1.05], which is 21.0, and
    the file is [bar_chart.pdf]. *)
Lemma horiz_bar_panels_witness :
  exists w' p1 xmax,
    horiz_bar ["A"; "BB"] [PInt 10; PInt 20] ["L"; "R"] (PInt 1) 1
      [PInt 5; PFloat (B64.lit 5 10)] "#FFCC00" empty_pyplot
      = Ok (tt, w') /\
    List.length (all_axes w') = 2%nat /\
    saved w' = [("bar_chart.pdf", 0%nat)] /\
    nth_error (all_axes w') 1 = Some p1 /\
    py_mul (PInt 20) (PFloat (B64.lit 105 100)) = Ok (PFloat xmax) /\
    xmax = B64.of_Z 21 /\
    ax_xlim p1 = Some (PFloat (B64.of_Z 0), PFloat xmax) /\
    nth_error (map t_text (ax_texts p1)) 1 = Some "20.0".
Proof.
  destruct (horiz_bar ["A"; "BB"] [PInt 10; PInt 20] ["L"; "R"] (PInt 1) 1
              [PInt 5; PFloat (B64.lit 5 10)] "#FFCC00" empty_pyplot) as [[[] w']|e] eqn:Hrun;
    [|vm_compute in Hrun; discriminate Hrun].
  destruct (horiz_bar_panels _ _ _ _ _ _ _ _ _ _ Hrun (le_n 2))
    as (t_max & xmax & fig & Ht & Hx & Hn & _ & _ & Hsv & Hall).
  destruct (Hall 1%nat (PInt 20) eq_refl)
    as (p1 & s & v & Hp1 & _ & _ & Hxl & Hs & Htx & _).
  vm_compute in Ht. injection Ht as <-.
  vm_compute in Hs. injection Hs as <-.
  assert (Ex : xmax = B64.of_Z 21).
  { vm_compute in Hx. injection Hx as <-. vm_compute. reflexivity. }
  exists w', p1, xmax.
  split; [reflexivity|]. split; [exact Hn|]. split; [exact Hsv|].
  split; [exact Hp1|]. split; [exact Hx|]. split; [exact Ex|].
  split; [|exact Htx].
  apply Hxl. rewrite Ex. vm_compute. reflexivity.
Defined.

(** With one label for two numbers the call returns and saves the file,
    but the second panel has no x-range and no text: the statement without
    the condition on the labels fails. *)
Lemma horiz_bar_fewer_labels :
  exists w' p1,
    horiz_bar ["A"] [PInt 10; PInt 20] ["L"; "R"] (PInt 1) 1
      [PInt 5; PFloat (B64.lit 5 10)] "#FFCC00" empty_pyplot
      = Ok (tt, w') /\
    saved w' = [("bar_chart.pdf", 0%nat)] /\
    nth_error (all_axes w') 1 = Some p1 /\
    ax_xlim p1 = None /\
    ax_texts p1 = [].
Proof.
  destruct (horiz_bar ["A"] [PInt 10; PInt 20] ["L"; "R"] (PInt 1) 1
              [PInt 5; PFloat (B64.lit 5 10)] "#FFCC00" empty_pyplot) as [[[] w']|e] eqn:Hrun;
    [|vm_compute in Hrun; discriminate Hrun].
  vm_compute in Hrun. injection Hrun as <-.
  eexists. eexists.
  split; [reflexivity|]. split; [reflexivity|]. split; [reflexivity|].
  split; reflexivity.
Qed.

(** ** [auto_place_legend] *)



(** How the index [idx] of the anchor of line [i], which has [npoints]
    points, comes out of [rel_xloc]: it is [int(rel_xloc[i] * npoints)],
    or any index of the line when no position was given. *)
Definition index_from (rel_xloc : rel_xloc_arg) (i : nat) (npoints idx : Z)
    : Prop :=
  match rel_xloc with
  | RelNone => (0 <= idx < npoints)%Z
  | _ =>
      exists r v,
        rel_xloc_item rel_xloc i = Ok r /\
        py_mul r (PInt npoints) = Ok v /\
        py_int v = Ok idx
  end.

(** The text [t] is the label of [line], placed on the data point of
    the index that [rel_xloc] gives for line [i]. *)
Definition anchored (rel_xloc : rel_xloc_arg) (color_on : bool) (i : nat)
    (line : line2d) (t : text) : Prop :=
  exists idx,
    index_from rel_xloc i (Z.of_nat (List.length (l_xydata line))) idx /\
    py_index (l_xydata line) idx = Ok (t_x t, t_y t) /\
    t_text t = l_label line /\
    t_color t = Some (if color_on then l_color line else "k").


Lemma anchor_index_spec rel_xloc i npoints w idx w1 :
  anchor_index rel_xloc i npoints w = Ok (idx, w1) ->
  all_axes w1 = all_axes w /\ index_from rel_xloc i npoints idx.
Proof.
  unfold anchor_index, index_from.
  assert (Hgen : bind (lift (rel_xloc_item rel_xloc i))
                   (fun r => bind (lift (py_mul r (PInt npoints)))
                               (fun v => lift (py_int v))) w = Ok (idx, w1) ->
                 all_axes w1 = all_axes w /\
                 exists r v,
                   rel_xloc_item rel_xloc i = Ok r /\
                   py_mul r (PInt npoints) = Ok v /\ py_int v = Ok idx).
  { intros H. run_step H r w2 Hr. run_step H v w3 Hv.
    apply lift_Ok in Hr. destruct Hr as [Hr ->].
    apply lift_Ok in Hv. destruct Hv as [Hv ->].
    apply lift_Ok in H. destruct H as [H ->].
    split; [reflexivity|]. exists r, v. auto. }
  destruct rel_xloc as [|x|l]; try exact Hgen.
  unfold randint. destruct (Z.leb_spec npoints 0) as [Hn|Hn]; [discriminate|].
  destruct (randoms w) as [|r rest].
  - intros [= <- <-]. split; [reflexivity|lia].
  - intros [= <- <-]. split; [reflexivity|].
    pose proof (Z.mod_pos_bound r (npoints - 0)). lia.
Qed.

Lemma ax_text_Ok a x y s color ha va fs w h w' p :
  ax_text a x y s color ha va fs w = Ok (h, w') ->
  nth_error (all_axes w) a = Some p ->
  h = (a, List.length (ax_texts p)) /\
  all_axes w' =
    update_nth a
      (with_texts (fun l => snoc l (mk_text x y s color ha va fs None "data" false)))
      (all_axes w).
Proof.
  unfold ax_text. intros H Hp.
  run_step H p0 w1 Hg. run_step H u w2 Hm.
  unfold get_axes in Hg. rewrite Hp in Hg. injection Hg as <- <-.
  apply modify_axes_Ok in Hm. destruct Hm as [_ ->].
  unfold ret in H. injection H as <- <-. auto.
Qed.

(** One turn of the loop adds one anchored text to the axes. *)
Lemma place_text_spec ax rel_xloc color_on i line texts0 w texts w' p :
  place_text ax rel_xloc color_on (i, line) texts0 w = Ok (texts, w') ->
  nth_error (all_axes w) ax = Some p ->
  exists t,
    anchored rel_xloc color_on i line t /\
    texts = snoc texts0 (ax, List.length (ax_texts p)) /\
    all_axes w' = update_nth ax (with_texts (fun l => snoc l t)) (all_axes w).
Proof.
  unfold place_text. cbn [fst snd]. intros H Hp.
  run_step H idx w1 Hidx. run_step H pt w2 Hpt. run_step H h w3 Htext.
  apply anchor_index_spec in Hidx. destruct Hidx as [Haxes Hidx].
  apply lift_Ok in Hpt. destruct Hpt as [Hpt ->].
  rewrite <- Haxes in Hp.
  destruct (ax_text_Ok _ _ _ _ _ _ _ _ _ _ _ _ Htext Hp) as [-> Hw3].
  unfold ret in H. injection H as <- <-.
  eexists. split; [|split; [reflexivity|rewrite Hw3, Haxes; reflexivity]].
  exists idx. cbn [t_x t_y t_text t_color].
  split; [exact Hidx|]. split; [|auto].
  rewrite Hpt. now destruct pt.
Qed.

(** The loop from line [k] on. *)
Lemma place_loop_spec ax rel_xloc color_on lines :
  forall k texts0 w texts w' p,
    for_fold (combine (seq k (List.length lines)) lines) texts0
      (place_text ax rel_xloc color_on) w = Ok (texts, w') ->
    nth_error (all_axes w) ax = Some p ->
    exists new,
      nth_error (all_axes w') ax = Some (with_texts (fun l => (l ++ new)%list) p) /\
      texts = (texts0 ++
               map (fun j => (ax, (List.length (ax_texts p) + j)%nat))
                 (seq 0 (List.length lines)))%list /\
      Forall2 (fun il t => anchored rel_xloc color_on (fst il) (snd il) t)
        (combine (seq k (List.length lines)) lines) new.
Proof.
  induction lines as [|line r IH]; intros k texts0 w texts w' p; simpl.
  - unfold ret. intros [= <- <-] Hp. exists [].
    split; [|split; [now rewrite app_nil_r|constructor]].
    rewrite Hp. f_equal. destruct p. unfold with_texts. simpl.
    now rewrite app_nil_r.
  - intros H Hp. run_step H texts1 w1 Hstep.
    destruct (place_text_spec _ _ _ _ _ _ _ _ _ _ Hstep Hp)
      as (t & Ht & -> & Hw1).
    assert (Hp1 : nth_error (all_axes w1) ax
                  = Some (with_texts (fun l => snoc l t) p)).
    { rewrite Hw1, nth_error_update_nth_eq, Hp. reflexivity. }
    destruct (IH _ _ _ _ _ _ H Hp1) as (new & Hp' & -> & Hall).
    exists (t :: new). split; [|split].
    + rewrite Hp'. f_equal. destruct p. unfold with_texts, snoc. simpl.
      now rewrite <- app_assoc.
    + unfold snoc. rewrite <- app_assoc. f_equal. simpl. f_equal.
      * now rewrite Nat.add_0_r.
      * rewrite <- seq_shift, map_map. apply map_ext. intros j.
        destruct p. unfold with_texts, snoc. simpl.
        rewrite length_app. simpl. f_equal. lia.
    + constructor; [exact Ht|exact Hall].
Qed.

(** When the placement loop returns, one text per line was added to the
    axes, in the order of the lines, each anchored on the point of its
    line that [rel_xloc] (after the broadcast of a float) designates, and
    the texts handed to [adjust_text] are exactly these. *)
Lemma place_texts_spec ax rel_xloc color_on w texts w' p :
  place_texts ax rel_xloc color_on w = Ok (texts, w') ->
  nth_error (all_axes w) ax = Some p ->
  exists new,
    nth_error (all_axes w') ax = Some (with_texts (fun l => (l ++ new)%list) p) /\
    texts = map (fun j => (ax, (List.length (ax_texts p) + j)%nat))
              (seq 0 (List.length (ax_lines p))) /\
    Forall2
      (fun il t =>
         anchored (broadcast_rel_xloc (List.length (ax_lines p)) rel_xloc)
           color_on (fst il) (snd il) t)
      (enumerate (ax_lines p)) new.
Proof.
  unfold place_texts. intros H Hp. run_step H p0 w1 Hg.
  unfold get_axes in Hg. rewrite Hp in Hg. injection Hg as <- <-.
  unfold enumerate in *.
  destruct (place_loop_spec _ _ _ _ _ _ _ _ _ _ H Hp) as (new & H1 & H2 & H3).
  exists new. auto.
Qed.

Lemma Forall2_nth_error {A B} (R : A -> B -> Prop) l1 l2 :
  Forall2 R l1 l2 ->
  forall i a b, nth_error l1 i = Some a -> nth_error l2 i = Some b -> R a b.
Proof.
  induction 1 as [|x y r1 r2 Hxy _ IH]; intros [|i] a b; simpl;
    try discriminate.
  - now intros [= <-] [= <-].
  - apply IH.
Qed.

Lemma nth_error_combine_seq {A} (l : list A) : forall k i x,
  nth_error l i = Some x ->
  nth_error (combine (seq k (List.length l)) l) i = Some ((k + i)%nat, x).
Proof.
  induction l as [|y r IH]; intros k [|i] x; simpl; try discriminate.
  - intros [= <-]. now rewrite Nat.add_0_r.
  - intros H. rewrite (IH (S k) i x H). f_equal. f_equal. lia.
Qed.


(** A line through the eleven points (k, k * k), k from 0 to 10. *)
Definition eleven_points : line2d :=
  mk_line "squares" "C0"
    (map (fun k => (PInt (Z.of_nat k), PInt (Z.of_nat (k * k)))) (seq 0 11))
    None true.

Definition eleven_points_panel : pyplot :=
  one_panel (with_lines (fun _ => [eleven_points]) new_axes).



(** X24. A float scalar is broadcast: the call is the call with the list
    of as many copies of it as the axes has lines. *)
Theorem float_rel_xloc_is_broadcast :
  forall (kwargs : Type)
         (adjust_text : list (nat * nat) -> nat -> kwargs -> M unit)
         (kw : kwargs) ax (f : B64.float) color_on w p,
    nth_error (all_axes w) ax = Some p ->
    auto_place_legend kwargs adjust_text ax (RelScalar (PFloat f)) color_on kw w
    = auto_place_legend kwargs adjust_text ax
        (RelList (repeat (PFloat f) (List.length (ax_lines p)))) color_on kw w.
Proof.
  intros kwargs adjust_text kw ax f color_on w p Hp.
  assert (Hg : get_axes ax w = Ok (p, w)) by (unfold get_axes; now rewrite Hp).
  assert (E : place_texts ax (RelScalar (PFloat f)) color_on w
              = place_texts ax
                  (RelList (repeat (PFloat f) (List.length (ax_lines p))))
                  color_on w).
  { unfold place_texts. rewrite !(bind_run _ _ _ _ _ Hg). reflexivity. }
  unfold auto_place_legend, bind. rewrite E. reflexivity.
Qed.

Lemma float_rel_xloc_is_broadcast_witness :
  auto_place_legend unit (fun _ _ _ => ret tt) 0
    (RelScalar (PFloat (B64.lit 5 10))) true tt eleven_points_panel
  = auto_place_legend unit (fun _ _ _ => ret tt) 0
      (RelList [PFloat (B64.lit 5 10)]) true tt eleven_points_panel.
Proof.
  exact (float_rel_xloc_is_broadcast unit (fun _ _ _ => ret tt) tt 0%nat
           (B64.lit 5 10) true eleven_points_panel
           (with_lines (fun _ => [eleven_points]) new_axes) eq_refl).
Defined.


(** ** [auto_place_legend]: a scalar position *)




(** * Further properties *)

Section Rounding.

Local Open Scope Z_scope.

(** ** Rounding to binary64 *)

Lemma fexp_eq e : fexp 53 1024 e = Z.max (e - 53) (-1074).
Proof. reflexivity. Qed.

Lemma digits2_pos_bounds p :
  2 ^ (Zpos (digits2_pos p) - 1) <= Zpos p < 2 ^ Zpos (digits2_pos p).
Proof.
  induction p as [p IH|p IH|]; simpl digits2_pos.
  - rewrite Pos2Z.inj_succ.
    replace (Z.succ (Zpos (digits2_pos p)) - 1) with (Zpos (digits2_pos p)) by lia.
    rewrite Z.pow_succ_r by lia.
    assert (H : 2 ^ Zpos (digits2_pos p) = 2 * 2 ^ (Zpos (digits2_pos p) - 1)).
    { rewrite <- Z.pow_succ_r by lia. f_equal. lia. }
    lia.
  - rewrite Pos2Z.inj_succ.
    replace (Z.succ (Zpos (digits2_pos p)) - 1) with (Zpos (digits2_pos p)) by lia.
    rewrite Z.pow_succ_r by lia.
    assert (H : 2 ^ Zpos (digits2_pos p) = 2 * 2 ^ (Zpos (digits2_pos p) - 1)).
    { rewrite <- Z.pow_succ_r by lia. f_equal. lia. }
    lia.
  - simpl. lia.
Qed.

(** The state of a right shift by [n] bits of [m0]: the quotient, and a
    remainder that is at least half when the round bit is set. *)
Definition shr_inv (m0 n : Z) (x : shr_record) : Prop :=
  0 <= shr_m x /\
  exists t, m0 = shr_m x * 2 ^ n + t /\ 0 <= t < 2 ^ n /\
            (shr_r x = true -> 2 ^ n <= 2 * t).

Lemma shr_1_inv m0 n x :
  0 <= n -> shr_inv m0 n x -> shr_inv m0 (n + 1) (shr_1 x).
Proof.
  intros Hn (Hm & t & Hm0 & Ht & Hr).
  destruct x as [m r s]. simpl in *.
  assert (Hp : 2 ^ (n + 1) = 2 * 2 ^ n) by (rewrite Z.pow_add_r by lia; lia).
  unfold shr_inv.
  destruct m as [|[p|p|]|p]; cbn [shr_1 shr_m shr_r]; try lia.
  - split; [lia|]. exists t. rewrite Hp. repeat split; try lia; discriminate.
  - split; [lia|]. exists (2 ^ n + t). rewrite Hp.
    repeat split; try lia; discriminate.
  - split; [lia|]. exists t. rewrite Hp. repeat split; try lia; discriminate.
  - split; [lia|]. exists (2 ^ n + t). rewrite Hp.
    repeat split; try lia; discriminate.
Qed.

Lemma iter_pos_shr_inv k : forall m0 n x,
  0 <= n -> shr_inv m0 n x -> shr_inv m0 (n + Zpos k) (iter_pos shr_1 k x).
Proof.
  induction k as [k IH|k IH|]; intros m0 n x Hn Hx; simpl.
  - replace (n + Zpos k~1) with (n + 1 + Zpos k + Zpos k) by lia.
    apply IH; [lia|]. apply IH; [lia|]. now apply shr_1_inv.
  - replace (n + Zpos k~0) with (n + Zpos k + Zpos k) by lia.
    apply IH; [lia|]. now apply IH.
  - now apply shr_1_inv.
Qed.

Lemma shr_spec m0 e n :
  0 <= m0 ->
  snd (shr (Build_shr_record m0 false false) e n) = e + Z.max n 0 /\
  shr_inv m0 (Z.max n 0) (fst (shr (Build_shr_record m0 false false) e n)).
Proof.
  intros Hm0.
  assert (H0 : shr_inv m0 0 (Build_shr_record m0 false false)).
  { split; [exact Hm0|]. exists 0. simpl. repeat split; try lia; discriminate. }
  destruct n as [|k|k]; simpl.
  - split; [lia|exact H0].
  - split; [lia|]. exact (iter_pos_shr_inv k m0 0 _ (Z.le_refl 0) H0).
  - split; [lia|exact H0].
Qed.

Lemma round_nearest_even_bound x :
  shr_m x <= round_nearest_even (shr_m x) (loc_of_shr_record x) <= shr_m x + 1 /\
  (shr_r x = false ->
   round_nearest_even (shr_m x) (loc_of_shr_record x) = shr_m x).
Proof.
  destruct x as [m [|] [|]]; simpl; try (split; [lia|auto; discriminate]).
  destruct (Z.even m); split; try lia; discriminate.
Qed.

Lemma shr_fexp_spec m e :
  0 <= m ->
  let n := Z.max (fexp 53 1024 (Zdigits2 m + e) - e) 0 in
  snd (shr_fexp 53 1024 m e loc_Exact) = e + n /\
  shr_inv m n (fst (shr_fexp 53 1024 m e loc_Exact)).
Proof.
  intros Hm n. unfold shr_fexp. simpl shr_record_of_loc.
  apply shr_spec. exact Hm.
Qed.

(** The result of rounding [m * 2^e]: a float built from a mantissa and an
    exponent, with the overflow test of the format. *)
Definition build (s : bool) (m e : Z) : spec_float :=
  match m with
  | Z0 => S754_zero s
  | Zpos p => if e <=? 971 then S754_finite s p e else S754_infinity s
  | Zneg _ => S754_nan
  end.

(** Rounding never adds more than half a unit of the shift it makes. *)
Lemma binary_round_aux_bound s p E :
  let n := Z.max (fexp 53 1024 (Zpos (digits2_pos p) + E) - E) 0 in
  exists m3 e3,
    binary_round_aux 53 1024 s (Zpos p) E loc_Exact = build s m3 e3 /\
    0 <= m3 /\ E + n <= e3 /\
    2 * (m3 * 2 ^ (e3 - E)) <= 2 * Zpos p + 2 ^ n.
Proof.
  intros n. unfold binary_round_aux.
  destruct (shr_fexp_spec (Zpos p) E (Pos2Z.is_nonneg p)) as [He1 Hx1].
  fold n in He1, Hx1. simpl Zdigits2 in He1, Hx1. fold n in He1, Hx1.
  destruct (shr_fexp 53 1024 (Zpos p) E loc_Exact) as [x1 e1].
  simpl in He1, Hx1. subst e1.
  destruct Hx1 as (Hm1 & t & HP & Ht & Hr).
  destruct (round_nearest_even_bound x1) as [Hb Hf].
  set (m2 := round_nearest_even (shr_m x1) (loc_of_shr_record x1)) in *.
  assert (Hm2 : 0 <= m2) by lia.
  destruct (shr_fexp_spec m2 (E + n) Hm2) as [He3 Hx3].
  destruct (shr_fexp 53 1024 m2 (E + n) loc_Exact) as [x3 e3].
  simpl in He3, Hx3.
  set (n2 := Z.max (fexp 53 1024 (Zdigits2 m2 + (E + n)) - (E + n)) 0) in *.
  destruct Hx3 as (Hm3 & t3 & Hm2' & Ht3 & _).
  exists (shr_m x3), e3. split; [reflexivity|].
  split; [exact Hm3|]. split; [lia|].
  assert (Hn : 0 <= n) by (unfold n; lia).
  assert (Hn2 : 0 <= n2) by (unfold n2; lia).
  replace (e3 - E) with (n2 + n) by lia.
  rewrite Z.pow_add_r by lia.
  assert (Hpn : 0 < 2 ^ n) by (apply Z.pow_pos_nonneg; lia).
  assert (H1 : shr_m x3 * 2 ^ n2 <= m2) by lia.
  assert (H2 : 2 * (m2 * 2 ^ n) <= 2 * Zpos p + 2 ^ n).
  { destruct (shr_r x1) eqn:Er.
    - specialize (Hr eq_refl). nia.
    - rewrite (Hf eq_refl). nia. }
  nia.
Qed.

Lemma digits2_pos_unique p a :
  2 ^ (a - 1) <= Zpos p < 2 ^ a -> Zpos (digits2_pos p) = a.
Proof.
  intros [Hl Hu]. destruct (digits2_pos_bounds p) as [Hl' Hu'].
  assert (Ha : 0 < a).
  { destruct (Z_lt_le_dec 0 a) as [H|H]; [exact H|].
    destruct a as [|a|a]; try lia; simpl in Hu; lia. }
  assert (H1 : a - 1 < Zpos (digits2_pos p)).
  { apply (Z.pow_lt_mono_r_iff 2); lia. }
  assert (H2 : Zpos (digits2_pos p) - 1 < a).
  { apply (Z.pow_lt_mono_r_iff 2); lia. }
  lia.
Qed.

(** A mantissa that already fits is left as it is. *)
Lemma binary_round_aux_exact s p q k E :
  0 <= k -> Zpos p = Zpos q * 2 ^ k ->
  fexp 53 1024 (Zpos (digits2_pos q) + (E + k)) = E + k ->
  binary_round_aux 53 1024 s (Zpos p) E loc_Exact = build s (Zpos q) (E + k).
Proof.
  intros Hk Hp Hq.
  assert (Hpk : 0 < 2 ^ k) by (apply Z.pow_pos_nonneg; lia).
  assert (Hd : Zpos (digits2_pos p) = Zpos (digits2_pos q) + k).
  { apply digits2_pos_unique. destruct (digits2_pos_bounds q) as [Hl Hu].
    replace (Zpos (digits2_pos q) + k - 1) with (Zpos (digits2_pos q) - 1 + k) by lia.
    rewrite !Z.pow_add_r by lia. rewrite Hp. nia. }
  unfold binary_round_aux.
  destruct (shr_fexp_spec (Zpos p) E (Pos2Z.is_nonneg p)) as [He1 Hx1].
  simpl Zdigits2 in He1, Hx1. rewrite Hd in He1, Hx1.
  replace (Zpos (digits2_pos q) + k + E) with (Zpos (digits2_pos q) + (E + k))
    in He1, Hx1 by lia.
  rewrite Hq in He1, Hx1.
  replace (Z.max (E + k - E) 0) with k in He1, Hx1 by lia.
  destruct (shr_fexp 53 1024 (Zpos p) E loc_Exact) as [x1 e1].
  simpl in He1, Hx1. subst e1.
  destruct Hx1 as (Hm1 & t & HP & Ht & Hr).
  assert (Em1 : shr_m x1 = Zpos q).
  { rewrite (Z.div_unique (Zpos p) (2 ^ k) (shr_m x1) t (or_introl Ht)) by lia.
    rewrite Hp. apply Z.div_mul. lia. }
  assert (Et : t = 0) by (rewrite Em1 in HP; lia).
  subst t.
  destruct (round_nearest_even_bound x1) as [_ Hf].
  assert (Er : shr_r x1 = false).
  { destruct (shr_r x1); [specialize (Hr eq_refl); lia|reflexivity]. }
  rewrite (Hf Er), Em1.
  unfold shr_fexp. simpl Zdigits2. rewrite Hq, Z.sub_diag. reflexivity.
Qed.

Lemma iter_xO_value k : forall n,
  Zpos (Pos.iter xO n k) = Zpos n * 2 ^ Zpos k.
Proof.
  induction k as [|k IH] using Pos.peano_ind; intros n.
  - simpl. lia.
  - rewrite Pos.iter_succ, Pos2Z.inj_xO, IH, Pos2Z.inj_succ, Z.pow_succ_r by lia.
    lia.
Qed.

(** An integer below [2^53] is a float: its mantissa is the integer
    shifted left to 53 bits. *)
Lemma of_Z_small N :
  1 <= N < 2 ^ 53 ->
  exists mN eN,
    B64.of_Z N = S754_finite false mN eN /\
    - 52 <= eN <= 0 /\ Zpos mN = N * 2 ^ (- eN) /\
    2 ^ 52 <= Zpos mN < 2 ^ 53.
Proof.
  intros HN. destruct N as [|n|n]; try lia.
  destruct (digits2_pos_bounds n) as [Hl Hu].
  set (d := Zpos (digits2_pos n)) in *.
  assert (Hd : 1 <= d <= 53).
  { split; [unfold d; lia|].
    assert (d - 1 < 53); [|lia]. apply (Z.pow_lt_mono_r_iff 2); lia. }
  unfold B64.of_Z, binary_normalize, binary_round, B64.prec, B64.emax.
  fold d.
  assert (Hf : fexp 53 1024 (d + 0) = d - 53) by (rewrite fexp_eq; lia).
  rewrite Hf. unfold shl_align.
  assert (Hpow : 2 ^ 52 = 2 ^ (d - 1) * 2 ^ (53 - d)).
  { rewrite <- Z.pow_add_r by lia. f_equal. lia. }
  assert (Hpow' : 2 ^ 53 = 2 ^ d * 2 ^ (53 - d)).
  { rewrite <- Z.pow_add_r by lia. f_equal. lia. }
  assert (Hpd : 0 < 2 ^ (53 - d)) by (apply Z.pow_pos_nonneg; lia).
  destruct (d - 53 - 0) as [|k|k] eqn:Ek; try lia.
  - exists n, 0. split.
    + rewrite (binary_round_aux_exact false n n 0 0); simpl; try lia.
      * reflexivity.
      * fold d. rewrite fexp_eq. lia.
    + replace (53 - d) with 0 in * by lia. simpl in *. lia.
  - exists (Pos.iter xO n k), (d - 53). split.
    + rewrite (binary_round_aux_exact false _ (Pos.iter xO n k) 0 (d - 53));
        simpl Z.pow; try lia.
      * rewrite Z.add_0_r. unfold build.
        destruct (d - 53 <=? 971) eqn:El; [reflexivity|].
        apply Z.leb_gt in El. lia.
      * rewrite Z.add_0_r, fexp_eq.
        rewrite (digits2_pos_unique (Pos.iter xO n k) 53); [lia|].
        rewrite iter_xO_value. replace (Zpos k) with (53 - d) by lia.
        change (53 - 1) with 52. rewrite Hpow, Hpow'. nia.
    + rewrite iter_xO_value. replace (Zpos k) with (53 - d) by lia.
      replace (- (d - 53)) with (53 - d) by lia.
      split; [lia|]. split; [reflexivity|]. nia.
Qed.

Lemma valid_finite s m e :
  B64.valid (S754_finite s m e) = true ->
  fexp 53 1024 (Zpos (digits2_pos m) + e) = e /\ e <= 971.
Proof.
  unfold B64.valid, valid_binary, bounded, canonical_mantissa.
  intros H. apply andb_prop in H. destruct H as [H1 H2].
  split; [apply Z.eqb_eq; exact H1|apply Z.leb_le in H2; exact H2].
Qed.

Lemma trunc_build_zero s e : B64.trunc (build s 0 e) = Some 0.
Proof. reflexivity. Qed.

(** A float below one, times the number of points, stays below it. *)
Lemma mul_of_Z_below mr er N :
  B64.valid (S754_finite false mr er) = true ->
  er <= -53 ->
  1 <= N < 2 ^ 53 ->
  exists z,
    B64.trunc (B64.mul (S754_finite false mr er) (B64.of_Z N)) = Some z /\
    0 <= z < N.
Proof.
  intros Hv Her HN.
  destruct (valid_finite _ _ _ Hv) as [Hc _]. rewrite fexp_eq in Hc.
  destruct (digits2_pos_bounds mr) as [_ Hur].
  set (dr := Zpos (digits2_pos mr)) in *.
  assert (Hdr : 1 <= dr <= 53) by (unfold dr; lia).
  assert (Hmr : Zpos mr < 2 ^ 53).
  { apply Z.lt_le_trans with (1 := Hur). apply Z.pow_le_mono_r; lia. }
  assert (Her' : -1074 <= er) by lia.
  destruct (of_Z_small N HN) as (mN & eN & EN & HeN & HmN & HmN52 & _).
  rewrite EN. unfold B64.mul, SFmul, B64.prec, B64.emax. simpl xorb.
  destruct (binary_round_aux_bound false (mr * mN) (er + eN))
    as (m3 & e3 & -> & Hm3 & He3 & Hb).
  destruct (digits2_pos_bounds (mr * mN)) as [Hl _].
  set (d := Zpos (digits2_pos (mr * mN))) in *.
  set (E := er + eN) in *.
  set (n := Z.max (fexp 53 1024 (d + E) - E) 0) in *.
  rewrite Pos2Z.inj_mul in Hb, Hl.
  assert (Hn : 0 <= n) by (unfold n; lia).
  (* the half unit of the shift is below the mantissa of [N] *)
  assert (Hhalf : 2 ^ n < 2 * Zpos mN).
  { unfold n. rewrite fexp_eq.
    destruct (Z_le_gt_dec (Z.max (d + E - 53) (-1074) - E) 0) as [H0|H0].
    - rewrite Z.max_r by lia. simpl. lia.
    - rewrite Z.max_l by lia.
      destruct (Z_le_gt_dec (d + E - 53) (-1074)) as [H1|H1].
      + rewrite Z.max_r by lia.
        assert (2 ^ (-1074 - E) <= 2 ^ 52); [|lia].
        apply Z.pow_le_mono_r; unfold E; lia.
      + rewrite Z.max_l by lia. rewrite Z.max_l in H0 by lia.
        replace (d + E - 53 - E) with (d - 53) by lia.
        assert (Hp : 2 ^ (d - 1) = 2 ^ (d - 53) * 2 ^ 52).
        { rewrite <- Z.pow_add_r by lia. f_equal. lia. }
        assert (0 < 2 ^ (d - 53)) by (apply Z.pow_pos_nonneg; lia).
        rewrite Hp in Hl. nia. }
  (* so the rounded product is below [N], at the scale of the product *)
  assert (HE : 0 <= - E) by (unfold E; lia).
  assert (Hper : 2 ^ 53 <= 2 ^ (- er)) by (apply Z.pow_le_mono_r; lia).
  assert (HNN : N * 2 ^ (- E) = Zpos mN * 2 ^ (- er)).
  { unfold E. replace (- (er + eN)) with (- eN + - er) by lia.
    rewrite Z.pow_add_r by lia. rewrite HmN. ring. }
  assert (Hlt : m3 * 2 ^ (e3 - E) < N * 2 ^ (- E)).
  { rewrite HNN. nia. }
  destruct m3 as [|m|m]; [exists 0; split; [reflexivity|lia]| |lia].
  destruct (Z_le_gt_dec 0 e3) as [Hpos|Hneg].
  - assert (Hsplit : 2 ^ (e3 - E) = 2 ^ e3 * 2 ^ (- E)).
    { rewrite <- Z.pow_add_r by lia. f_equal; lia. }
    assert (HpE : 0 < 2 ^ (- E)) by (apply Z.pow_pos_nonneg; lia).
    assert (Hpe : 0 < 2 ^ e3) by (apply Z.pow_pos_nonneg; lia).
    assert (Hval : Zpos m * 2 ^ e3 < N).
    { rewrite Hsplit in Hlt. nia. }
    assert (He53 : e3 < 53).
    { apply (Z.pow_lt_mono_r_iff 2); try lia; nia. }
    exists (Zpos m * 2 ^ e3). split; [|nia].
    unfold build. destruct (e3 <=? 971) eqn:El; [|apply Z.leb_gt in El; lia].
    simpl. rewrite Z.shiftl_mul_pow2 by lia. reflexivity.
  - assert (Hsplit : 2 ^ (- E) = 2 ^ (- e3) * 2 ^ (e3 - E)).
    { rewrite <- Z.pow_add_r by lia. f_equal. lia. }
    assert (Hp1 : 0 < 2 ^ (- e3)) by (apply Z.pow_pos_nonneg; lia).
    assert (Hp2 : 0 < 2 ^ (e3 - E)) by (apply Z.pow_pos_nonneg; lia).
    exists (Zpos m / 2 ^ (- e3)). split.
    + unfold build. destruct (e3 <=? 971) eqn:El; [|apply Z.leb_gt in El; lia].
      simpl. rewrite Z.shiftl_div_pow2 by lia. reflexivity.
    + split; [apply Z.div_pos; lia|].
      apply Z.div_lt_upper_bound; [lia|]. rewrite Hsplit in Hlt. nia.
Qed.

Lemma of_Z_one : B64.of_Z 1 = S754_finite false 4503599627370496 (-52).
Proof. reflexivity. Qed.

(** Multiplying by [1.0] gives the number of points back. *)
Lemma mul_one_of_Z N :
  1 <= N < 2 ^ 53 ->
  B64.trunc (B64.mul (B64.of_Z 1) (B64.of_Z N)) = Some N.
Proof.
  intros HN.
  destruct (of_Z_small N HN) as (mN & eN & EN & HeN & HmN & HmN52).
  rewrite of_Z_one, EN. unfold B64.mul, SFmul, B64.prec, B64.emax. simpl xorb.
  rewrite (binary_round_aux_exact false _ mN 52 (-52 + eN)).
  - replace (-52 + eN + 52) with eN by lia.
    unfold build. destruct (eN <=? 971) eqn:El; [|apply Z.leb_gt in El; lia].
    simpl. rewrite Z.shiftl_div_pow2 by lia. rewrite HmN.
    f_equal. apply Z.div_mul.
    assert (0 < 2 ^ (- eN)) by (apply Z.pow_pos_nonneg; lia). lia.
  - lia.
  - rewrite Pos2Z.inj_mul.
    assert (E52 : 2 ^ 52 = 4503599627370496) by reflexivity.
    rewrite E52. lia.
  - rewrite (digits2_pos_unique mN 53) by (replace (53 - 1) with 52 by lia; lia).
    rewrite fexp_eq. lia.
Qed.

(** The floats of the documented domain [[0, 1]]: a zero, a positive float
    with an exponent below that of [1.0], or [1.0] itself. *)
Lemma SFcompare_positive m1 e1 m2 e2 :
  SFcompare (S754_finite false m1 e1) (S754_finite false m2 e2)
  = Some match e1 ?= e2 with
         | Lt => Lt
         | Gt => Gt
         | Eq => Pos.compare m1 m2
         end.
Proof. reflexivity. Qed.

Lemma unit_float_cases f :
  B64.valid f = true ->
  B64.leb (B64.of_Z 0) f = true ->
  B64.leb f (B64.of_Z 1) = true ->
  (exists s, f = S754_zero s /\ B64.ltb f (B64.of_Z 1) = true) \/
  (exists m e, f = S754_finite false m e /\ e <= -53 /\
               B64.ltb f (B64.of_Z 1) = true) \/
  (f = B64.of_Z 1 /\ B64.ltb f (B64.of_Z 1) = false).
Proof.
  intros Hv H0 H1. rewrite of_Z_one in *.
  destruct f as [s|s| |s m e]; try discriminate.
  - left. exists s. split; reflexivity.
  - destruct s; discriminate.
  - destruct s; try discriminate.
    destruct (valid_finite _ _ _ Hv) as [Hc _]. rewrite fexp_eq in Hc.
    destruct (digits2_pos_bounds m) as [Hl Hu].
    unfold B64.leb, SFleb, B64.ltb, SFltb in *.
    rewrite SFcompare_positive in *.
    destruct (Z.compare_spec e (-52)) as [He|He|He]; try discriminate.
    + subst e.
      destruct (Pos.compare_spec m 4503599627370496) as [Hm|Hm|Hm];
        try discriminate.
      * right. right. subst m. split; reflexivity.
      * exfalso.
        assert (Hd : Zpos (digits2_pos m) = 53) by (clear - Hc; lia).
        rewrite Hd in Hl.
        assert (E52 : 2 ^ (53 - 1) = 4503599627370496) by reflexivity.
        rewrite E52 in Hl. apply Pos2Z.pos_lt_pos in Hm.
        clear - Hl Hm. lia.
    + right. left. exists m, e. repeat split; lia.
Qed.

(** The documented domain of a relative position, and its safe part. *)
Definition unit_interval (r : pynum) : bool :=
  match r with
  | PInt z => (0 <=? z) && (z <=? 1)
  | PFloat f =>
      B64.valid f && B64.leb (B64.of_Z 0) f && B64.leb f (B64.of_Z 1)
  end.

Definition below_one (r : pynum) : bool :=
  match r with
  | PInt z => z <? 1
  | PFloat f => B64.ltb f (B64.of_Z 1)
  end.

Lemma of_Z_finite N :
  1 <= N < 2 ^ 53 -> B64.is_finite (B64.of_Z N) = true.
Proof.
  intros HN. destruct (of_Z_small N HN) as (mN & eN & -> & _). reflexivity.
Qed.

Lemma mul_zero_of_Z s N :
  1 <= N < 2 ^ 53 ->
  B64.trunc (B64.mul (S754_zero s) (B64.of_Z N)) = Some 0.
Proof.
  intros HN. destruct (of_Z_small N HN) as (mN & eN & -> & _). reflexivity.
Qed.

Lemma scaled_index r N :
  unit_interval r = true -> 1 <= N < 2 ^ 53 ->
  exists v idx,
    py_mul r (PInt N) = Ok v /\ py_int v = Ok idx /\
    (below_one r = true -> 0 <= idx < N) /\
    (below_one r = false -> idx = N).
Proof.
  intros Hr HN. destruct r as [z|f].
  - simpl in Hr. apply andb_prop in Hr. destruct Hr as [H0 H1].
    apply Z.leb_le in H0, H1.
    exists (PInt (z * N)), (z * N).
    split; [reflexivity|]. split; [reflexivity|]. simpl. split.
    + intros H. apply Z.ltb_lt in H. nia.
    + intros H. apply Z.ltb_ge in H. nia.
  - simpl in Hr. apply andb_prop in Hr. destruct Hr as [Hr H1].
    apply andb_prop in Hr. destruct Hr as [Hv H0].
    exists (PFloat (B64.mul f (B64.of_Z N))).
    assert (Hmul : py_mul (PFloat f) (PInt N)
                   = Ok (PFloat (B64.mul f (B64.of_Z N)))).
    { unfold py_mul, py_arith, py_float. rewrite (of_Z_finite N HN).
      reflexivity. }
    unfold below_one.
    destruct (unit_float_cases f Hv H0 H1)
      as [(s & -> & Hlt)|[(m & e & -> & He & Hlt)|[-> Hlt]]]; rewrite Hlt.
    + exists 0. split; [exact Hmul|]. cbn [py_int].
      rewrite (mul_zero_of_Z s N HN).
      repeat split; try lia; discriminate.
    + destruct (mul_of_Z_below m e N Hv He HN) as (z & Hz & Hrange).
      exists z. split; [exact Hmul|]. cbn [py_int]. rewrite Hz.
      repeat split; try lia; discriminate.
    + exists N. split; [exact Hmul|]. cbn [py_int].
      rewrite (mul_one_of_Z N HN).
      repeat split; try lia; discriminate.
Qed.

End Rounding.

(** ** [auto_place_legend]: which positions are safe *)

Lemma py_index_in_range {A} (l : list A) idx :
  (0 <= idx < Z.of_nat (List.length l))%Z -> exists x, py_index l idx = Ok x.
Proof.
  intros H. unfold py_index.
  destruct (Z.ltb_spec idx 0) as [Hn|_]; [lia|].
  destruct (Z.leb_spec 0 idx) as [_|Hn]; [|lia].
  destruct (Z.ltb_spec idx (Z.of_nat (List.length l))) as [_|Hn]; [|lia].
  simpl. destruct (nth_error l (Z.to_nat idx)) as [x|] eqn:E; [eauto|].
  apply nth_error_None in E. lia.
Qed.

Lemma py_index_at_length {A} (l : list A) :
  py_index l (Z.of_nat (List.length l)) = Raise IndexError.
Proof.
  unfold py_index.
  destruct (Z.ltb_spec (Z.of_nat (List.length l)) 0) as [Hn|_]; [lia|].
  rewrite Z.ltb_irrefl, andb_false_r. reflexivity.
Qed.

Lemma anchor_index_run l i r npoints v idx w :
  rel_xloc_item (RelList l) i = Ok r ->
  py_mul r (PInt npoints) = Ok v ->
  py_int v = Ok idx ->
  anchor_index (RelList l) i npoints w = Ok (idx, w).
Proof.
  intros Hr Hv Hi. unfold anchor_index, bind, lift.
  rewrite Hr, Hv, Hi. reflexivity.
Qed.

(** X1. A relative position inside the documented domain [[0, 1]], on a
    line of N points (N at least 1, and below 2^53 so that it is a float):
    the index [int(r * N)] is computed without an exception, it is a valid
    index of the line exactly when r is below 1, and for r equal to 1 it is
    N, where the look-up of the point raises [IndexError]. *)
Theorem anchor_index_unit_interval :
  forall (l : list pynum) (i : nat) (r : pynum)
         (coords : list (pynum * pynum)) (w : pyplot),
    rel_xloc_item (RelList l) i = Ok r ->
    unit_interval r = true ->
    (1 <= Z.of_nat (List.length coords) < 2 ^ 53)%Z ->
    exists idx,
      anchor_index (RelList l) i (Z.of_nat (List.length coords)) w
        = Ok (idx, w) /\
      (below_one r = true ->
         (0 <= idx < Z.of_nat (List.length coords))%Z /\
         exists pt, py_index coords idx = Ok pt) /\
      (below_one r = false ->
         idx = Z.of_nat (List.length coords) /\
         py_index coords idx = Raise IndexError).
Proof.
  intros l i r coords w Hr Hu HN.
  destruct (scaled_index r _ Hu HN) as (v & idx & Hv & Hi & Hlt & Hge).
  exists idx. split; [exact (anchor_index_run _ _ _ _ _ _ w Hr Hv Hi)|].
  split.
  - intros Hb. specialize (Hlt Hb). split; [exact Hlt|].
    now apply py_index_in_range.
  - intros Hb. rewrite (Hge Hb). split; [reflexivity|].
    apply py_index_at_length.
Qed.

Lemma anchor_index_unit_interval_witness :
  exists idx,
    anchor_index (RelList [PFloat (B64.of_Z 1)]) 0 11 empty_pyplot
      = Ok (idx, empty_pyplot) /\
    idx = 11%Z /\
    py_index (l_xydata eleven_points) idx = Raise IndexError.
Proof.
  destruct (anchor_index_unit_interval [PFloat (B64.of_Z 1)] 0
              (PFloat (B64.of_Z 1)) (l_xydata eleven_points) empty_pyplot
              eq_refl eq_refl)
    as (idx & Hrun & _ & Hone).
  { split; [simpl; lia|]. simpl List.length.
    change (Z.of_nat 11) with 11%Z. lia. }
  exists idx. split; [exact Hrun|]. exact (Hone eq_refl).
Defined.

Lemma ax_text_run a x y s color ha va fs w p :
  nth_error (all_axes w) a = Some p ->
  ax_text a x y s color ha va fs w =
  Ok ((a, List.length (ax_texts p)),
      set_all_axes
        (update_nth a
           (with_texts
              (fun l => snoc l (mk_text x y s color ha va fs None "data" false)))
           (all_axes w)) w).
Proof.
  intros Hp. unfold ax_text.
  assert (Hg : get_axes a w = Ok (p, w)) by (unfold get_axes; now rewrite Hp).
  rewrite (bind_run _ _ _ _ _ Hg).
  rewrite (bind_run _ _ _ _ _ (modify_axes_run _ _ _ _ Hp)).
  reflexivity.
Qed.

(** One turn of the placement loop, when the index can be computed. *)
Lemma place_text_run ax rel color_on i line texts0 w p idx w1 :
  nth_error (all_axes w) ax = Some p ->
  anchor_index rel i (Z.of_nat (List.length (l_xydata line))) w = Ok (idx, w1) ->
  all_axes w1 = all_axes w ->
  match py_index (l_xydata line) idx with
  | Ok _ =>
      exists texts w' p',
        place_text ax rel color_on (i, line) texts0 w = Ok (texts, w') /\
        nth_error (all_axes w') ax = Some p' /\
        List.length texts = S (List.length texts0)
  | Raise e => place_text ax rel color_on (i, line) texts0 w = Raise e
  end.
Proof.
  intros Hp Hidx Haxes. unfold place_text. cbn [fst snd].
  rewrite (bind_run _ _ _ _ _ Hidx).
  destruct (py_index (l_xydata line) idx) as [pt|e] eqn:Hpt.
  - rewrite <- Haxes in Hp.
    unfold bind at 1. unfold lift at 1.
    rewrite (bind_run _ _ _ _ _ (ax_text_run _ _ _ _ _ _ _ _ _ _ Hp)).
    unfold ret. eexists. eexists. eexists.
    split; [reflexivity|]. split.
    + rewrite all_axes_set, nth_error_update_nth_eq, Hp. reflexivity.
    + unfold snoc. rewrite length_app. simpl. lia.
  - reflexivity.
Qed.

(** What one turn of the loop does at line [i]: it goes through, the
    index designating a point of the line, or it raises [e]. *)
Definition turn_ok (rel : rel_xloc_arg) (i : nat) (line : line2d) : Prop :=
  forall w0, exists idx w1 pt,
    anchor_index rel i (Z.of_nat (List.length (l_xydata line))) w0
      = Ok (idx, w1) /\
    all_axes w1 = all_axes w0 /\
    py_index (l_xydata line) idx = Ok pt.

Definition turn_raises (ax : nat) (rel : rel_xloc_arg) (color_on : bool)
    (e : exn) (i : nat) (line : line2d) : Prop :=
  forall texts w0, place_text ax rel color_on (i, line) texts w0 = Raise e.

Lemma place_loop_total ax rel color_on lines :
  forall k texts0 w p,
    nth_error (all_axes w) ax = Some p ->
    (forall j line, nth_error lines j = Some line -> turn_ok rel (k + j) line) ->
    exists texts w',
      for_fold (combine (seq k (List.length lines)) lines) texts0
        (place_text ax rel color_on) w = Ok (texts, w') /\
      List.length texts = (List.length texts0 + List.length lines)%nat.
Proof.
  induction lines as [|line r IH]; intros k texts0 w p Hp Hall; simpl.
  - exists texts0, w. split; [reflexivity|lia].
  - destruct (Hall 0%nat line eq_refl w) as (idx & w1 & pt & Hidx & Hax & Hpt).
    rewrite Nat.add_0_r in Hidx.
    pose proof (place_text_run ax rel color_on k line texts0 w p idx w1
                  Hp Hidx Hax) as Hstep.
    rewrite Hpt in Hstep. destruct Hstep as (texts1 & w2 & p2 & Hrun & Hp2 & Hlen).
    rewrite (bind_run _ _ _ _ _ Hrun).
    destruct (IH (S k) texts1 w2 p2 Hp2) as (texts & w' & Hloop & Hlen').
    { intros j l0 Hj. replace (S k + j)%nat with (k + S j)%nat by lia.
      exact (Hall (S j) l0 Hj). }
    exists texts, w'. split; [exact Hloop|]. lia.
Qed.

(** The loop raises [e] when some turn does and every turn before it goes
    through. *)
Lemma place_loop_raises ax rel color_on e lines :
  forall k texts0 w p,
    nth_error (all_axes w) ax = Some p ->
    (forall j line, nth_error lines j = Some line ->
       turn_ok rel (k + j) line \/ turn_raises ax rel color_on e (k + j) line) ->
    (exists j line, nth_error lines j = Some line /\
                    turn_raises ax rel color_on e (k + j) line) ->
    for_fold (combine (seq k (List.length lines)) lines) texts0
      (place_text ax rel color_on) w = Raise e.
Proof.
  induction lines as [|line rest IH]; intros k texts0 w p Hp Hall Hbad.
  - destruct Hbad as ([|j] & ? & H & _); discriminate H.
  - simpl. destruct (Hall 0%nat line eq_refl) as [Hok|Hno].
    + destruct (Hok w) as (idx & w1 & pt & Hidx & Hax & Hpt).
      rewrite Nat.add_0_r in Hidx.
      pose proof (place_text_run ax rel color_on k line texts0 w p idx w1
                    Hp Hidx Hax) as Hstep.
      rewrite Hpt in Hstep.
      destruct Hstep as (texts1 & w2 & p2 & Hrun & Hp2 & _).
      rewrite (bind_run _ _ _ _ _ Hrun).
      apply (IH (S k) texts1 w2 p2 Hp2).
      * intros j l0 Hj. replace (S k + j)%nat with (k + S j)%nat by lia.
        exact (Hall (S j) l0 Hj).
      * destruct Hbad as ([|j] & l0 & Hl0 & Hr).
        -- injection Hl0 as <-. rewrite Nat.add_0_r in Hr.
           rewrite (Hr texts0 w) in Hrun. discriminate Hrun.
        -- exists j, l0. split; [exact Hl0|].
           replace (S k + j)%nat with (k + S j)%nat by lia. exact Hr.
    + rewrite Nat.add_0_r in Hno. apply bind_raise. apply Hno.
Qed.

Lemma place_texts_loop ax rel color_on w p :
  nth_error (all_axes w) ax = Some p ->
  place_texts ax rel color_on w =
  for_fold (combine (seq 0 (List.length (ax_lines p))) (ax_lines p)) []
    (place_text ax (broadcast_rel_xloc (List.length (ax_lines p)) rel) color_on)
    w.
Proof.
  intros Hp. unfold place_texts.
  assert (Hg : get_axes ax w = Ok (p, w)) by (unfold get_axes; now rewrite Hp).
  rewrite (bind_run _ _ _ _ _ Hg). reflexivity.
Qed.

(** A line of the panel, its position in the list and the conditions of
    the index computation: the position is in [[0, 1]] and the line has
    between 1 and 2^53 points. *)
Definition in_domain (r : pynum) (line : line2d) : Prop :=
  unit_interval r = true /\
  (1 <= Z.of_nat (List.length (l_xydata line)) < 2 ^ 53)%Z.

Lemma rel_xloc_item_nth l i r :
  nth_error l i = Some r -> rel_xloc_item (RelList l) i = Ok r.
Proof. intros H. simpl. now apply py_index_nat. Qed.

Lemma turn_in_domain ax l color_on i r line :
  nth_error l i = Some r -> in_domain r line ->
  if below_one r
  then turn_ok (RelList l) i line
  else turn_raises ax (RelList l) color_on IndexError i line.
Proof.
  intros Hr [Hu HN].
  destruct (scaled_index r _ Hu HN) as (v & idx & Hv & Hi & Hlt & Hge).
  pose proof (fun w0 => anchor_index_run l i r _ v idx w0
                          (rel_xloc_item_nth _ _ _ Hr) Hv Hi) as Hidx.
  destruct (below_one r) eqn:Hb.
  - intros w0.
    destruct (py_index_in_range (l_xydata line) idx (Hlt eq_refl)) as [pt Hpt].
    exists idx, w0, pt. auto.
  - intros texts w0. unfold place_text. cbn [fst snd].
    rewrite (bind_run _ _ _ _ _ (Hidx w0)). apply bind_raise.
    unfold lift. rewrite (Hge eq_refl), py_index_at_length. reflexivity.
Qed.

Lemma Forall2_nth_error_r {A B} (R : A -> B -> Prop) l1 l2 :
  Forall2 R l1 l2 ->
  forall j b, nth_error l2 j = Some b ->
    exists a, nth_error l1 j = Some a /\ R a b.
Proof.
  induction 1 as [|x y r1 r2 Hxy _ IH]; intros [|j] b; simpl;
    try discriminate.
  - intros [= <-]. eauto.
  - apply IH.
Qed.

Lemma Forall2_nth_error_l {A B} (R : A -> B -> Prop) l1 l2 :
  Forall2 R l1 l2 ->
  forall j a, nth_error l1 j = Some a ->
    exists b, nth_error l2 j = Some b /\ R a b.
Proof.
  induction 1 as [|x y r1 r2 Hxy _ IH]; intros [|j] a; simpl;
    try discriminate.
  - intros [= <-]. eauto.
  - apply IH.
Qed.

(** X2. With a list of positions in [[0, 1]], one per line, on a panel whose
    lines have at least one point each: when every position is below 1
    the call goes on to [adjust_text] with one text per line, and when
    some position is 1 it raises [IndexError] before it gets there. *)
Theorem auto_place_legend_unit_interval :
  forall (kwargs : Type)
         (adjust_text : list (nat * nat) -> nat -> kwargs -> M unit)
         (kw : kwargs) ax (l : list pynum) color_on w p,
    nth_error (all_axes w) ax = Some p ->
    Forall2 in_domain l (ax_lines p) ->
    if forallb below_one l
    then exists texts w',
           auto_place_legend kwargs adjust_text ax (RelList l) color_on kw w
             = adjust_text texts ax kw w' /\
           place_texts ax (RelList l) color_on w = Ok (texts, w') /\
           List.length texts = List.length (ax_lines p)
    else auto_place_legend kwargs adjust_text ax (RelList l) color_on kw w
           = Raise IndexError.
Proof.
  intros kwargs adjust_text kw ax l color_on w p Hp Hdom.
  pose proof (place_texts_loop ax (RelList l) color_on w p Hp) as Hloop.
  cbn [broadcast_rel_xloc] in Hloop.
  destruct (forallb below_one l) eqn:Hall.
  - destruct (place_loop_total ax (RelList l) color_on (ax_lines p) 0 [] w p Hp)
      as (texts & w' & Hrun & Hlen).
    { intros j line Hj.
      destruct (Forall2_nth_error_r _ _ _ Hdom j line Hj) as (r & Hr & Hd).
      pose proof (turn_in_domain ax l color_on j r line Hr Hd) as Hturn.
      rewrite forallb_forall in Hall.
      rewrite (Hall r (nth_error_In _ _ Hr)) in Hturn. exact Hturn. }
    rewrite <- Hloop in Hrun. exists texts, w'.
    split; [|split; [exact Hrun|exact Hlen]].
    unfold auto_place_legend. now rewrite (bind_run _ _ _ _ _ Hrun).
  - unfold auto_place_legend. apply bind_raise. rewrite Hloop.
    apply (place_loop_raises ax (RelList l) color_on IndexError _ 0 [] w p Hp).
    + intros j line Hj.
      destruct (Forall2_nth_error_r _ _ _ Hdom j line Hj) as (r & Hr & Hd).
      pose proof (turn_in_domain ax l color_on j r line Hr Hd) as Hturn.
      destruct (below_one r); [left|right]; exact Hturn.
    + assert (Hex : exists r, In r l /\ below_one r = false).
      { clear - Hall. induction l as [|x r IH]; [discriminate|].
        simpl in Hall. destruct (below_one x) eqn:Hx.
        - destruct (IH Hall) as (y & Hy & Hb). exists y. split; [now right|exact Hb].
        - exists x. split; [now left|exact Hx]. }
      destruct Hex as (r & Hin & Hb).
      apply In_nth_error in Hin. destruct Hin as [j Hj].
      destruct (Forall2_nth_error_l _ _ _ Hdom j r Hj) as (line & Hline & Hd).
      exists j, line. split; [exact Hline|].
      pose proof (turn_in_domain ax l color_on j r line Hj Hd) as Hturn.
      rewrite Hb in Hturn. exact Hturn.
Qed.

(** The line of eleven points with the position 0.5, and with 1.0. *)
Lemma auto_place_legend_unit_interval_witness :
  (exists texts w',
     auto_place_legend unit (fun _ _ _ => ret tt) 0
       (RelList [PFloat (B64.lit 5 10)]) true tt eleven_points_panel
       = Ok (tt, w') /\
     place_texts 0 (RelList [PFloat (B64.lit 5 10)]) true eleven_points_panel
       = Ok (texts, w') /\
     List.length texts = 1%nat) /\
  auto_place_legend unit (fun _ _ _ => ret tt) 0
    (RelList [PFloat (B64.of_Z 1)]) true tt eleven_points_panel
    = Raise IndexError.
Proof.
  assert (Hd : forall r, unit_interval r = true ->
                 Forall2 in_domain [r]
                   (ax_lines (with_lines (fun _ => [eleven_points]) new_axes))).
  { intros r Hr. constructor; [|constructor]. split; [exact Hr|].
    simpl List.length. change (Z.of_nat 11) with 11%Z. lia. }
  split.
  - destruct (auto_place_legend_unit_interval unit (fun _ _ _ => ret tt) tt
                0%nat [PFloat (B64.lit 5 10)] true eleven_points_panel _
                eq_refl (Hd (PFloat (B64.lit 5 10)) eq_refl))
      as (texts & w' & Hrun & Hpl & Hlen).
    exists texts, w'. auto.
  - exact (auto_place_legend_unit_interval unit (fun _ _ _ => ret tt) tt
             0%nat [PFloat (B64.of_Z 1)] true eleven_points_panel _
             eq_refl (Hd (PFloat (B64.of_Z 1)) eq_refl)).
Defined.

(** ** [auto_place_legend]: the index of the anchor and its range *)

(** C9, amended.  One turn of the placement loop of [auto_place_legend],
    for a position r of the documented domain [[0, 1]] and a line of N
    points, N at least 1 (and below 2^53, so that it is a float): the
    index [int(r * N)] is computed without an exception; it is a valid
    index of the line, 0 <= idx < N, exactly when r is below 1; and for r
    equal to 1 it is N, where the turn raises [IndexError]. *)
Theorem anchor_index_safe_below_one :
  forall (ax : nat) (l : list pynum) (color_on : bool) (i : nat) (r : pynum)
         (line : line2d),
    nth_error l i = Some r ->
    unit_interval r = true ->
    (1 <= Z.of_nat (List.length (l_xydata line)) < 2 ^ 53)%Z ->
    exists v idx,
      py_mul r (PInt (Z.of_nat (List.length (l_xydata line)))) = Ok v /\
      py_int v = Ok idx /\
      ((0 <= idx < Z.of_nat (List.length (l_xydata line)))%Z <->
       below_one r = true) /\
      (below_one r = false ->
       idx = Z.of_nat (List.length (l_xydata line)) /\
       forall texts w,
         place_text ax (RelList l) color_on (i, line) texts w
         = Raise IndexError).
Proof.
  intros ax l color_on i r line Hr Hu HN.
  destruct (scaled_index r _ Hu HN) as (v & idx & Hv & Hi & Hlt & Hge).
  exists v, idx. split; [exact Hv|]. split; [exact Hi|]. split.
  - split; [|exact Hlt].
    intros Hidx. destruct (below_one r); [reflexivity|].
    specialize (Hge eq_refl). lia.
  - intros Hb. split; [exact (Hge Hb)|].
    pose proof (turn_in_domain ax l color_on i r line Hr (conj Hu HN)) as Ht.
    rewrite Hb in Ht. exact Ht.
Qed.

(** The position 1.0 on the line of eleven points: the index is 11 and
    the turn raises [IndexError]. *)
Lemma anchor_index_safe_below_one_witness :
  exists v idx,
    py_mul (PFloat (B64.of_Z 1)) (PInt 11) = Ok v /\
    py_int v = Ok idx /\
    idx = 11%Z /\
    forall texts w,
      place_text 0 (RelList [PFloat (B64.of_Z 1)]) true (0%nat, eleven_points)
        texts w = Raise IndexError.
Proof.
  destruct (anchor_index_safe_below_one 0 [PFloat (B64.of_Z 1)] true 0
              (PFloat (B64.of_Z 1)) eleven_points eq_refl eq_refl)
    as (v & idx & Hv & Hi & _ & Hone).
  { simpl List.length. change (Z.of_nat 11) with 11%Z. lia. }
  destruct (Hone eq_refl) as [Hidx Hraise].
  exists v, idx. split; [exact Hv|]. split; [exact Hi|].
  split; [exact Hidx|exact Hraise].
Defined.

(** A line without any point. *)
Definition no_points : line2d := mk_line "empty" "C0" [] None true.

(** The condition 0 <= r < 1 is neither needed nor enough.  The position
    -0.05, outside of it, gives the index 0 on the line of eleven points,
    which is valid, and the loop returns with the label on the first
    point.  The position 0.5, inside of it, gives the index 0 on a line
    without points, which has no valid index, and the loop raises
    [IndexError]. *)
Lemma anchor_index_outside_condition :
  (exists v texts w' t,
     unit_interval (PFloat (B64.lit (-5) 100)) = false /\
     py_mul (PFloat (B64.lit (-5) 100)) (PInt 11) = Ok v /\
     py_int v = Ok 0%Z /\
     place_texts 0 (RelList [PFloat (B64.lit (-5) 100)]) true
       eleven_points_panel = Ok (texts, w') /\
     option_map ax_texts (nth_error (all_axes w') 0) = Some [t] /\
     (t_x t, t_y t) = (PInt 0, PInt 0)) /\
  (exists v,
     unit_interval (PFloat (B64.lit 5 10)) = true /\
     below_one (PFloat (B64.lit 5 10)) = true /\
     py_mul (PFloat (B64.lit 5 10))
       (PInt (Z.of_nat (List.length (l_xydata no_points)))) = Ok v /\
     py_int v = Ok 0%Z /\
     place_texts 0 (RelList [PFloat (B64.lit 5 10)]) true
       (one_panel (with_lines (fun _ => [no_points]) new_axes))
     = Raise IndexError).
Proof.
  split.
  - destruct (place_texts 0 (RelList [PFloat (B64.lit (-5) 100)]) true
                eleven_points_panel) as [[texts w']|e] eqn:Hrun;
      [|vm_compute in Hrun; discriminate Hrun].
    vm_compute in Hrun. injection Hrun as <- <-.
    eexists. eexists. eexists. eexists.
    split; [vm_compute; reflexivity|].
    split; [vm_compute; reflexivity|].
    split; [reflexivity|]. split; [reflexivity|]. split; reflexivity.
  - eexists.
    split; [vm_compute; reflexivity|].
    split; [vm_compute; reflexivity|].
    split; [vm_compute; reflexivity|].
    split; [reflexivity|]. vm_compute. reflexivity.
Qed.

(** ** [auto_place_legend]: random positions *)

Lemma turn_random ax color_on i line :
  if Nat.eqb (List.length (l_xydata line)) 0
  then turn_raises ax RelNone color_on ValueError i line
  else turn_ok RelNone i line.
Proof.
  destruct (Nat.eqb_spec (List.length (l_xydata line)) 0) as [E|E].
  - intros texts w0. unfold place_text. cbn [fst snd]. rewrite E.
    apply bind_raise. reflexivity.
  - intros w0. unfold anchor_index, randint.
    set (n := Z.of_nat (List.length (l_xydata line))).
    assert (Hn : (0 < n)%Z) by (unfold n; lia).
    destruct (Z.leb_spec n 0) as [H|_]; [lia|].
    destruct (randoms w0) as [|r rest].
    + destruct (py_index_in_range (l_xydata line) 0) as [pt Hpt]; [fold n; lia|].
      exists 0%Z, w0, pt. auto.
    + pose proof (Z.mod_pos_bound r (n - 0)) as Hm.
      destruct (py_index_in_range (l_xydata line) (0 + r mod (n - 0))) as [pt Hpt];
        [fold n; lia|].
      exists (0 + r mod (n - 0))%Z, (set_randoms rest w0), pt. auto.
Qed.

(** X3. Without [rel_xloc] the positions are drawn at random.  On a panel
    whose lines all have at least one point the call goes on to
    [adjust_text] with one text per line, whatever the generator draws; if
    some line has no point it raises [ValueError] instead. *)
Theorem auto_place_legend_random :
  forall (kwargs : Type)
         (adjust_text : list (nat * nat) -> nat -> kwargs -> M unit)
         (kw : kwargs) ax color_on w p,
    nth_error (all_axes w) ax = Some p ->
    if forallb (fun line => negb (Nat.eqb (List.length (l_xydata line)) 0))
         (ax_lines p)
    then exists texts w',
           auto_place_legend kwargs adjust_text ax RelNone color_on kw w
             = adjust_text texts ax kw w' /\
           place_texts ax RelNone color_on w = Ok (texts, w') /\
           List.length texts = List.length (ax_lines p)
    else auto_place_legend kwargs adjust_text ax RelNone color_on kw w
           = Raise ValueError.
Proof.
  intros kwargs adjust_text kw ax color_on w p Hp.
  pose proof (place_texts_loop ax RelNone color_on w p Hp) as Hloop.
  cbn [broadcast_rel_xloc] in Hloop.
  destruct (forallb _ (ax_lines p)) eqn:Hall.
  - destruct (place_loop_total ax RelNone color_on (ax_lines p) 0 [] w p Hp)
      as (texts & w' & Hrun & Hlen).
    { intros j line Hj. rewrite forallb_forall in Hall.
      specialize (Hall line (nth_error_In _ _ Hj)).
      pose proof (turn_random ax color_on (0 + j) line) as Hturn.
      destruct (Nat.eqb (List.length (l_xydata line)) 0); [discriminate|].
      exact Hturn. }
    rewrite <- Hloop in Hrun. exists texts, w'.
    split; [|split; [exact Hrun|exact Hlen]].
    unfold auto_place_legend. now rewrite (bind_run _ _ _ _ _ Hrun).
  - unfold auto_place_legend. apply bind_raise. rewrite Hloop.
    apply (place_loop_raises ax RelNone color_on ValueError _ 0 [] w p Hp).
    + intros j line Hj.
      pose proof (turn_random ax color_on (0 + j) line) as Hturn.
      destruct (Nat.eqb (List.length (l_xydata line)) 0); [right|left];
        exact Hturn.
    + assert (Hex : exists line, In line (ax_lines p) /\
                      Nat.eqb (List.length (l_xydata line)) 0 = true).
      { clear - Hall. induction (ax_lines p) as [|x r IH]; [discriminate|].
        simpl in Hall.
        destruct (Nat.eqb (List.length (l_xydata x)) 0) eqn:Hx.
        - exists x. split; [now left|exact Hx].
        - destruct (IH Hall) as (y & Hy & Hb).
          exists y. split; [now right|exact Hb]. }
      destruct Hex as (line & Hin & Hb).
      apply In_nth_error in Hin. destruct Hin as [j Hj].
      exists j, line. split; [exact Hj|].
      pose proof (turn_random ax color_on (0 + j) line) as Hturn.
      rewrite Hb in Hturn. exact Hturn.
Qed.

Lemma auto_place_legend_random_witness :
  exists texts w',
    auto_place_legend unit (fun _ _ _ => ret tt) 0 RelNone true tt
      eleven_points_panel = Ok (tt, w') /\
    place_texts 0 RelNone true eleven_points_panel = Ok (texts, w') /\
    List.length texts = 1%nat.
Proof.
  exact (auto_place_legend_random unit (fun _ _ _ => ret tt) tt 0%nat true
           eleven_points_panel _ eq_refl).
Defined.

(** ** [auto_place_legend]: arguments that are refused *)

Lemma py_index_raises {A} (l : list A) i e :
  py_index l i = Raise e -> e = IndexError.
Proof.
  unfold py_index.
  destruct (_ && _)%bool; [destruct (nth_error l _)|]; congruence.
Qed.

(** X4. An integer scalar is not broadcast: on a panel with at least one
    line the call raises [TypeError], at the subscript of [rel_xloc]. *)
Theorem auto_place_legend_int_scalar :
  forall (kwargs : Type)
         (adjust_text : list (nat * nat) -> nat -> kwargs -> M unit)
         (kw : kwargs) ax (z : Z) color_on w p,
    nth_error (all_axes w) ax = Some p ->
    ax_lines p <> [] ->
    auto_place_legend kwargs adjust_text ax (RelScalar (PInt z)) color_on kw w
    = Raise TypeError.
Proof.
  intros kwargs adjust_text kw ax z color_on w p Hp Hne.
  unfold auto_place_legend. apply bind_raise.
  rewrite (place_texts_loop _ _ _ _ _ Hp). cbn [broadcast_rel_xloc].
  destruct (ax_lines p) as [|line rest]; [congruence|].
  simpl. apply bind_raise. unfold place_text. cbn [fst snd].
  apply bind_raise. reflexivity.
Qed.

Lemma auto_place_legend_int_scalar_witness :
  auto_place_legend unit (fun _ _ _ => ret tt) 0 (RelScalar (PInt 0)) true tt
    eleven_points_panel = Raise TypeError.
Proof.
  apply (auto_place_legend_int_scalar unit (fun _ _ _ => ret tt) tt 0%nat 0%Z
           true eleven_points_panel
           (with_lines (fun _ => [eleven_points]) new_axes) eq_refl).
  discriminate.
Defined.

(** X5. A list with fewer positions than the panel has lines, all of them
    in [[0, 1)]: the call raises [IndexError] at the first line without a
    position. *)
Theorem auto_place_legend_short_list :
  forall (kwargs : Type)
         (adjust_text : list (nat * nat) -> nat -> kwargs -> M unit)
         (kw : kwargs) ax (l : list pynum) color_on w p,
    nth_error (all_axes w) ax = Some p ->
    (List.length l < List.length (ax_lines p))%nat ->
    Forall2 (fun r line => in_domain r line /\ below_one r = true)
      l (firstn (List.length l) (ax_lines p)) ->
    auto_place_legend kwargs adjust_text ax (RelList l) color_on kw w
    = Raise IndexError.
Proof.
  intros kwargs adjust_text kw ax l color_on w p Hp Hlen Hdom.
  unfold auto_place_legend. apply bind_raise.
  rewrite (place_texts_loop _ _ _ _ _ Hp). cbn [broadcast_rel_xloc].
  assert (Hmiss : forall j line, nth_error (ax_lines p) j = Some line ->
             nth_error l j = None ->
             turn_raises ax (RelList l) color_on IndexError j line).
  { intros j line _ Hnone texts w0. unfold place_text. cbn [fst snd].
    apply bind_raise. unfold anchor_index. apply bind_raise.
    unfold lift, rel_xloc_item.
    destruct (py_index l (Z.of_nat j)) as [r|e] eqn:E.
    - apply py_index_nat in E. congruence.
    - now rewrite (py_index_raises _ _ _ E). }
  apply (place_loop_raises ax (RelList l) color_on IndexError _ 0 [] w p Hp).
  - intros j line Hj. simpl.
    destruct (nth_error l j) as [r|] eqn:Hr.
    + left.
      destruct (Forall2_nth_error_l _ _ _ Hdom j r Hr) as (line' & Hl' & Hd & Hb).
      assert (Hjl : (j < List.length l)%nat) by (apply nth_error_Some; congruence).
      rewrite nth_error_firstn in Hl'.
      destruct (Nat.ltb_spec j (List.length l)) as [_|]; [|lia].
      assert (line' = line) by congruence. subst line'.
      pose proof (turn_in_domain ax l color_on j r line Hr Hd) as Hturn.
      rewrite Hb in Hturn. exact Hturn.
    + right. now apply Hmiss.
  - destruct (nth_error (ax_lines p) (List.length l)) as [line|] eqn:Hline.
    + exists (List.length l), line. split; [exact Hline|]. simpl.
      apply Hmiss; [exact Hline|]. apply nth_error_None. lia.
    + apply nth_error_None in Hline. lia.
Qed.

Lemma auto_place_legend_short_list_witness :
  auto_place_legend unit (fun _ _ _ => ret tt) 0 (RelList []) true tt
    eleven_points_panel = Raise IndexError.
Proof.
  apply (auto_place_legend_short_list unit (fun _ _ _ => ret tt) tt 0%nat []
           true eleven_points_panel
           (with_lines (fun _ => [eleven_points]) new_axes) eq_refl).
  - simpl. lia.
  - constructor.
Defined.

(** ** [draggable_legend] *)

(** The label made for line [line] at the grid position [(x, y)]: an
    annotation in axes fractions, centred, draggable, whose [xy] is the
    buffer [b]. *)
Definition grid_label (color_on : bool) (b : nat) (x y : B64.float)
    (line : line2d) : text :=
  mk_text (PFloat x) (PFloat y) (l_label line)
    (Some (if color_on then l_color line else "k")) "center" "center" None
    (Some b) "axes fraction" true.

(** The body of the loop of [draggable_legend]. *)
Definition label_line (axis : nat) (color_on : bool) (xs ys : list B64.float)
    (coords : nat) (il : nat * line2d) (legend : list (nat * nat))
    : M (list (nat * nat)) :=
  let idx := fst il in
  let line := snd il in
  x <- lift (np_index xs idx) ;;
  buf_set coords 0 x ;;
  y <- lift (np_index ys idx) ;;
  buf_set coords 1 y ;;
  let label := l_label line in
  let color := if color_on then l_color line else "k" in
  h <- annotate axis label coords "center" "center" color "axes fraction" ;;
  let legend := snoc legend h in
  h' <- lift (np_index legend idx) ;;
  draggable h' ;;
  ret legend.

Lemma draggable_legend_unfold axis color_on :
  draggable_legend axis color_on =
  (axis <- default_axes axis ;;
   p <- get_axes axis ;;
   s <- lift (np_sqrt (PInt (Z.of_nat (List.length (ax_lines p))))) ;;
   lins <- lift (np_linspace (B64.lit 1 10) (B64.lit 9 10) (np_ceil s)) ;;
   coords <- np_zeros 2 ;;
   for_fold (enumerate (ax_lines p)) []
     (label_line axis color_on
        (reshape_flat (fst (np_meshgrid lins lins)))
        (reshape_flat (snd (np_meshgrid lins lins))) coords) ;;
   ret tt).
Proof. reflexivity. Qed.

Lemma np_index_Ok {A} (l : list A) i x :
  np_index l i = Ok x <-> nth_error l i = Some x.
Proof.
  unfold np_index. destruct (nth_error l i); split; congruence.
Qed.

Lemma buf_set_Ok b i v w u w' :
  buf_set b i v w = Ok (u, w') ->
  exists l, nth_error (buffers w) b = Some l /\ (i < List.length l)%nat /\
    w' = set_buffers (update_nth b (update_nth i (fun _ => v)) (buffers w)) w.
Proof.
  unfold buf_set. intros H. run_step H l w1 Hg.
  unfold get_buffer in Hg.
  destruct (nth_error (buffers w) b) as [l0|] eqn:E; [|discriminate].
  injection Hg as <- <-.
  destruct (Nat.ltb_spec i (List.length l0)) as [Hi|Hi]; [|discriminate].
  injection H as <- <-. eauto.
Qed.

Lemma buf_set_run b i v w l :
  nth_error (buffers w) b = Some l -> (i < List.length l)%nat ->
  buf_set b i v w =
  Ok (tt, set_buffers (update_nth b (update_nth i (fun _ => v)) (buffers w)) w).
Proof.
  intros Hl Hi. unfold buf_set.
  assert (Hg : get_buffer b w = Ok (l, w)) by (unfold get_buffer; now rewrite Hl).
  rewrite (bind_run _ _ _ _ _ Hg).
  destruct (Nat.ltb_spec i (List.length l)) as [_|]; [reflexivity|lia].
Qed.

Lemma annotate_run a s xy ha va color xycoords w x y p :
  nth_error (buffers w) xy = Some [x; y] ->
  nth_error (all_axes w) a = Some p ->
  annotate a s xy ha va color xycoords w =
  Ok ((a, List.length (ax_texts p)),
      set_all_axes
        (update_nth a
           (with_texts
              (fun l => snoc l (mk_text (PFloat x) (PFloat y) s (Some color)
                                  ha va None (Some xy) xycoords false)))
           (all_axes w)) w).
Proof.
  intros Hb Hp. unfold annotate.
  assert (Hg : get_buffer xy w = Ok ([x; y], w))
    by (unfold get_buffer; now rewrite Hb).
  rewrite (bind_run _ _ _ _ _ Hg).
  assert (Ha : get_axes a w = Ok (p, w)) by (unfold get_axes; now rewrite Hp).
  rewrite (bind_run _ _ _ _ _ Ha).
  rewrite (bind_run _ _ _ _ _ (modify_axes_run _ _ _ _ Hp)).
  reflexivity.
Qed.

Lemma update_twice_pair (l : list B64.float) x y :
  List.length l = 2%nat ->
  update_nth 1 (fun _ => y) (update_nth 0 (fun _ => x) l) = [x; y].
Proof. destruct l as [|a [|c [|? ?]]]; try discriminate. reflexivity. Qed.

Lemma with_texts_snoc_draggable t p :
  with_texts (update_nth (List.length (ax_texts p)) set_draggable)
    (with_texts (fun l => snoc l t) p)
  = with_texts (fun l => snoc l (set_draggable t)) p.
Proof.
  destruct p as [sp xa ya xl yl ls ts cs tp]. unfold with_texts, snoc. simpl.
  f_equal. induction ts as [|t0 r IH]; simpl; [reflexivity|]. now rewrite IH.
Qed.

Lemma update_nth_const {A} a (f : A -> A) l x :
  nth_error l a = Some x -> update_nth a f l = update_nth a (fun _ => f x) l.
Proof.
  revert a. induction l as [|y r IH]; intros [|a]; simpl; try discriminate.
  - now intros [= ->].
  - intros H. now rewrite (IH a H).
Qed.

(** One turn of the loop: the store after it, when the line has a grid
    position and the legend so far has one handle per earlier line. *)
Lemma label_line_run axis color_on xs ys b i line legend w p x y :
  nth_error (all_axes w) axis = Some p ->
  (exists l, nth_error (buffers w) b = Some l /\ List.length l = 2%nat) ->
  List.length legend = i ->
  nth_error xs i = Some x ->
  nth_error ys i = Some y ->
  label_line axis color_on xs ys b (i, line) legend w =
  Ok (snoc legend (axis, List.length (ax_texts p)),
      set_all_axes
        (update_nth axis
           (fun _ => with_texts
                       (fun l => snoc l (grid_label color_on b x y line)) p)
           (all_axes w))
        (set_buffers (update_nth b (fun _ => [x; y]) (buffers w)) w)).
Proof.
  intros Hp (l & Hb & Hl) Hleg Hx Hy. unfold label_line. cbn [fst snd].
  apply np_index_Ok in Hx, Hy.
  unfold bind at 1. unfold lift at 1. rewrite Hx.
  rewrite (bind_run _ _ _ _ _ (buf_set_run b 0 x w l Hb ltac:(lia))).
  unfold bind at 1. unfold lift at 1. rewrite Hy.
  set (w1 := set_buffers _ w).
  assert (Hb1 : nth_error (buffers w1) b = Some (update_nth 0 (fun _ => x) l)).
  { unfold w1. simpl. rewrite nth_error_update_nth_eq, Hb. reflexivity. }
  rewrite (bind_run _ _ _ _ _
             (buf_set_run b 1 y w1 _ Hb1
                ltac:(rewrite update_nth_length; lia))).
  set (w2 := set_buffers _ w1).
  assert (Hbs : buffers w2 = update_nth b (fun _ => [x; y]) (buffers w)).
  { unfold w2, w1. simpl. rewrite update_nth_compose.
    rewrite (update_nth_const _ _ _ _ Hb). apply update_nth_ext. intros _.
    now apply update_twice_pair. }
  assert (Hb2 : nth_error (buffers w2) b = Some [x; y]).
  { rewrite Hbs, nth_error_update_nth_eq, Hb. reflexivity. }
  assert (Hp2 : nth_error (all_axes w2) axis = Some p) by exact Hp.
  rewrite (bind_run _ _ _ _ _ (annotate_run _ _ _ _ _ _ _ _ _ _ _ Hb2 Hp2)).
  set (w3 := set_all_axes _ w2).
  assert (Hh : np_index (snoc legend (axis, List.length (ax_texts p))) i
               = Ok (axis, List.length (ax_texts p))).
  { apply np_index_Ok. unfold snoc. rewrite nth_error_app2 by lia.
    rewrite Hleg, Nat.sub_diag. reflexivity. }
  unfold bind at 1. unfold lift at 1. rewrite Hh. cbn [fst snd].
  unfold draggable. cbn [fst snd].
  assert (Hp3 : nth_error (all_axes w3) axis
                = Some (with_texts
                          (fun l0 => snoc l0
                             (mk_text (PFloat x) (PFloat y) (l_label line)
                                (Some (if color_on then l_color line else "k"))
                                "center" "center" None (Some b)
                                "axes fraction" false)) p)).
  { unfold w3. rewrite all_axes_set, nth_error_update_nth_eq.
    change (all_axes w2) with (all_axes w). rewrite Hp. reflexivity. }
  rewrite (bind_run _ _ _ _ _ (modify_axes_run _ _ _ _ Hp3)).
  unfold ret. f_equal. f_equal.
  rewrite (update_nth_const _ _ _ _ Hp3).
  rewrite with_texts_snoc_draggable.
  unfold w3. rewrite all_axes_set, set_all_axes_twice, update_nth_compose.
  change (all_axes w2) with (all_axes w).
  unfold set_all_axes. rewrite Hbs. reflexivity.
Qed.

Lemma label_line_Ok axis color_on xs ys b i line legend w legend' w' :
  label_line axis color_on xs ys b (i, line) legend w = Ok (legend', w') ->
  exists x y, nth_error xs i = Some x /\ nth_error ys i = Some y.
Proof.
  unfold label_line. cbn [fst snd]. intros H.
  run_step H x w1 Hx. run_step H u1 w2 Hs1. run_step H y w3 Hy.
  apply lift_Ok in Hx. destruct Hx as [Hx _].
  apply lift_Ok in Hy. destruct Hy as [Hy _].
  apply np_index_Ok in Hx, Hy. eauto.
Qed.

(** The texts a run of the loop adds: one label per line, at the grid
    position of the line's index. *)
Definition labelled (color_on : bool) (b : nat) (xs ys : list B64.float)
    (il : nat * line2d) (t : text) : Prop :=
  exists x y,
    nth_error xs (fst il) = Some x /\ nth_error ys (fst il) = Some y /\
    t = grid_label color_on b x y (snd il).

Lemma with_texts_app_nil p : with_texts (fun l => (l ++ [])%list) p = p.
Proof. destruct p. unfold with_texts. simpl. now rewrite app_nil_r. Qed.

Lemma with_texts_app_cons t new p :
  with_texts (fun l => (l ++ new)%list) (with_texts (fun l => snoc l t) p)
  = with_texts (fun l => (l ++ t :: new)%list) p.
Proof.
  destruct p. unfold with_texts, snoc. simpl. now rewrite <- app_assoc.
Qed.

Lemma label_loop_spec axis color_on xs ys b lines :
  forall k legend w legend' w' p,
    for_fold (combine (seq k (List.length lines)) lines) legend
      (label_line axis color_on xs ys b) w = Ok (legend', w') ->
    nth_error (all_axes w) axis = Some p ->
    (exists l, nth_error (buffers w) b = Some l /\ List.length l = 2%nat) ->
    List.length legend = k ->
    exists new,
      nth_error (all_axes w') axis
        = Some (with_texts (fun l => (l ++ new)%list) p) /\
      Forall2 (labelled color_on b xs ys)
        (combine (seq k (List.length lines)) lines) new /\
      List.length (all_axes w') = List.length (all_axes w) /\
      (forall a', a' <> axis ->
         nth_error (all_axes w') a' = nth_error (all_axes w) a') /\
      all_figures w' = all_figures w /\ saved w' = saved w.
Proof.
  induction lines as [|line r IH]; intros k legend w legend' w' p; simpl.
  - unfold ret. intros [= <- <-] Hp _ _. exists [].
    rewrite with_texts_app_nil. repeat split; auto; constructor.
  - intros H Hp Hb Hleg. run_step H legend1 w1 Hstep.
    destruct (label_line_Ok _ _ _ _ _ _ _ _ _ _ _ Hstep) as (x & y & Hx & Hy).
    rewrite (label_line_run _ _ _ _ _ _ _ _ _ _ _ _ Hp Hb Hleg Hx Hy) in Hstep.
    injection Hstep as <- <-.
    apply IH with
      (p := with_texts (fun l => snoc l (grid_label color_on b x y line)) p)
      in H.
    + destruct H as (new & Hp' & Hall & Hlen & Hframe & Hfig & Hsv).
      exists (grid_label color_on b x y line :: new).
      split; [now rewrite Hp', with_texts_app_cons|].
      split.
      { constructor; [|exact Hall]. exists x, y. auto. }
      split.
      { rewrite Hlen, all_axes_set. apply update_nth_length. }
      split.
      { intros a' Ha'. rewrite (Hframe a' Ha'), all_axes_set.
        apply nth_error_update_nth_neq. congruence. }
      split; [exact Hfig|exact Hsv].
    + rewrite all_axes_set, nth_error_update_nth_eq, Hp. reflexivity.
    + destruct Hb as (l & Hl & Hlen). exists [x; y]. split; [|reflexivity].
      simpl. rewrite nth_error_update_nth_eq, Hl. reflexivity.
    + unfold snoc. rewrite length_app. simpl. lia.
Qed.

Lemma label_loop_total axis color_on xs ys b lines :
  forall k legend w p,
    nth_error (all_axes w) axis = Some p ->
    (exists l, nth_error (buffers w) b = Some l /\ List.length l = 2%nat) ->
    List.length legend = k ->
    (k + List.length lines <= List.length xs)%nat ->
    (k + List.length lines <= List.length ys)%nat ->
    exists legend' w',
      for_fold (combine (seq k (List.length lines)) lines) legend
        (label_line axis color_on xs ys b) w = Ok (legend', w').
Proof.
  induction lines as [|line r IH]; intros k legend w p Hp Hb Hleg Hxs Hys;
    simpl in *.
  - eexists. eexists. reflexivity.
  - destruct (nth_error xs k) as [x|] eqn:Hx;
      [|apply nth_error_None in Hx; lia].
    destruct (nth_error ys k) as [y|] eqn:Hy;
      [|apply nth_error_None in Hy; lia].
    rewrite (bind_run _ _ _ _ _
               (label_line_run _ color_on _ _ _ _ line _ _ _ _ _
                  Hp Hb Hleg Hx Hy)).
    eapply IH.
    + rewrite all_axes_set, nth_error_update_nth_eq, Hp. reflexivity.
    + destruct Hb as (l & Hl & Hlen). exists [x; y]. split; [|reflexivity].
      simpl. rewrite nth_error_update_nth_eq, Hl. reflexivity.
    + unfold snoc. rewrite length_app. simpl. lia.
    + lia.
    + lia.
Qed.

(** *** The grid *)

Lemma nth_error_concat_rows {A} (s : nat) (rows : list (list A)) :
  (0 < s)%nat -> Forall (fun r => List.length r = s) rows ->
  forall i,
    nth_error (List.concat rows) i =
    match nth_error rows (i / s) with
    | Some r => nth_error r (i mod s)
    | None => None
    end.
Proof.
  intros Hs Hall. induction Hall as [|r rows Hr _ IH]; intros i; simpl.
  - assert (E : forall j : nat, @nth_error (list A) [] j = None)
      by (intros []; reflexivity).
    rewrite E. now destruct i.
  - destruct (Nat.lt_ge_cases i s) as [Hi|Hi].
    + rewrite Nat.div_small, Nat.mod_small by exact Hi. simpl.
      apply nth_error_app1. lia.
    + assert (Hd : (i / s)%nat = S ((i - s) / s)).
      { transitivity (((i - s) + 1 * s) / s)%nat; [f_equal; lia|].
        rewrite Nat.div_add by lia. lia. }
      assert (Hm : (i mod s)%nat = ((i - s) mod s)%nat).
      { transitivity (((i - s) + 1 * s) mod s)%nat; [f_equal; lia|].
        apply Nat.Div0.mod_add. }
      rewrite nth_error_app2 by lia. rewrite Hr, IH, Hd, Hm. reflexivity.
Qed.

(** The two flattened arrays of [np.meshgrid(lins, lins)]: entry [i] of
    the first is [lins[i mod s]] and entry [i] of the second is
    [lins[i / s]], for [s] the length of [lins]. *)
Lemma meshgrid_flat (lins : list B64.float) i x y :
  nth_error (reshape_flat (fst (np_meshgrid lins lins))) i = Some x ->
  nth_error (reshape_flat (snd (np_meshgrid lins lins))) i = Some y ->
  nth_error lins (i mod List.length lins) = Some x /\
  nth_error lins (i / List.length lins) = Some y.
Proof.
  unfold reshape_flat, np_meshgrid. cbn [fst snd].
  destruct lins as [|v0 rest] eqn:El; [destruct i; discriminate|].
  rewrite <- El. set (s := List.length lins).
  assert (Hs : (0 < s)%nat) by (unfold s; rewrite El; simpl; lia).
  rewrite (nth_error_concat_rows s), (nth_error_concat_rows s); try exact Hs.
  - rewrite !nth_error_map.
    destruct (nth_error lins (i / s)) as [v|]; simpl; [|discriminate].
    rewrite nth_error_map.
    destruct (nth_error lins (i mod s)) as [u|]; simpl; [|discriminate].
    intros [= <-] [= <-]. auto.
  - apply Forall_map, Forall_forall. intros v _. apply length_map.
  - apply Forall_map, Forall_forall. intros v _. reflexivity.
Qed.

Lemma meshgrid_flat_length (lins : list B64.float) :
  List.length (reshape_flat (fst (np_meshgrid lins lins)))
    = (List.length lins * List.length lins)%nat /\
  List.length (reshape_flat (snd (np_meshgrid lins lins)))
    = (List.length lins * List.length lins)%nat.
Proof.
  unfold reshape_flat, np_meshgrid. cbn [fst snd].
  assert (H : forall (x rows : list B64.float),
             List.length (List.concat (map (fun _ => x) rows))
               = (List.length rows * List.length x)%nat /\
             List.length (List.concat (map (fun v => map (fun _ => v) x) rows))
               = (List.length rows * List.length x)%nat).
  { intros x rows. induction rows as [|v r [IH1 IH2]]; simpl; [auto|].
    rewrite !length_app, length_map, IH1, IH2. auto. }
  apply H.
Qed.

Lemma set_last_length {A} (l : list A) x :
  List.length (set_last l x) = List.length l.
Proof.
  unfold set_last. destruct l as [|a r]; [reflexivity|].
  rewrite length_app. simpl Datatypes.length at 2.
  assert (H : forall (b : A) (t : list A),
             List.length (removelast (b :: t)) = List.length t).
  { intros b t. revert b. induction t as [|c t IH]; intros b; [reflexivity|].
    change (removelast (b :: c :: t)) with (b :: removelast (c :: t)).
    cbn [Datatypes.length]. now rewrite (IH c). }
  rewrite H. simpl. lia.
Qed.

(** [np.linspace] gives as many samples as the count says. *)
Lemma np_linspace_length start stop num l :
  np_linspace start stop num = Ok l ->
  exists z, py_int (PFloat num) = Ok z /\ (0 <= z)%Z /\
            List.length l = Z.to_nat z.
Proof.
  unfold np_linspace. destruct (py_int (PFloat num)) as [z|e]; [|discriminate].
  simpl. destruct (Z.ltb_spec z 0) as [Hz|Hz]; [discriminate|].
  intros [= <-]. exists z. split; [reflexivity|]. split; [exact Hz|].
  destruct (1 <? Z.to_nat z)%nat.
  - rewrite set_last_length, length_map.
    destruct (B64.is_zero _); now rewrite length_map, length_map, length_seq.
  - now rewrite !length_map, length_seq.
Qed.

Lemma np_zeros_Ok n w b w' :
  np_zeros n w = Ok (b, w') ->
  b = List.length (buffers w) /\
  w' = set_buffers (snoc (buffers w) (repeat (S754_zero false) n)) w.
Proof. unfold np_zeros. now intros [= <- <-]. Qed.

(** X6. When [draggable_legend] returns on a panel with n lines: n labels
    were added to the panel, in the order of the lines, and nothing else
    changed on it; label i carries the text of line i, the colour of the
    line (or "k"), is centred, in axes fractions, and draggable; it sits at
    column [i mod s] and row [i / s] of the grid [lins] x [lins], where
    [lins = np.linspace(.1, .9, ceil(sqrt(n)))] has s samples; and the
    [xy] of all the labels is one and the same array. *)
Theorem draggable_legend_grid :
  forall (a : nat) (color_on : bool) (w : pyplot) (u : unit) (w' : pyplot)
         (p : axes),
    draggable_legend (Some a) color_on w = Ok (u, w') ->
    nth_error (all_axes w) a = Some p ->
    exists s side lins new,
      np_sqrt (PInt (Z.of_nat (List.length (ax_lines p)))) = Ok s /\
      py_int (PFloat (np_ceil s)) = Ok side /\
      np_linspace (B64.lit 1 10) (B64.lit 9 10) (np_ceil s) = Ok lins /\
      List.length lins = Z.to_nat side /\
      nth_error (all_axes w') a = Some (with_texts (fun l => (l ++ new)%list) p) /\
      List.length new = List.length (ax_lines p) /\
      forall i line t,
        nth_error (ax_lines p) i = Some line ->
        nth_error new i = Some t ->
        exists x y,
          nth_error lins (i mod List.length lins) = Some x /\
          nth_error lins (i / List.length lins) = Some y /\
          t = grid_label color_on (List.length (buffers w)) x y line.
Proof.
  intros a color_on w u w' p H Hp.
  rewrite draggable_legend_unfold in H. simpl default_axes in H.
  run_step H a0 w0 Ha. unfold ret in Ha. injection Ha as <- <-.
  run_step H p0 w0 Hg. unfold get_axes in Hg. rewrite Hp in Hg.
  injection Hg as <- <-.
  run_step H s w0 Hs. apply lift_Ok in Hs. destruct Hs as [Hs ->].
  run_step H lins w0 Hl. apply lift_Ok in Hl. destruct Hl as [Hl ->].
  run_step H b w1 Hz. apply np_zeros_Ok in Hz. destruct Hz as [-> ->].
  run_step H legend w2 Hloop. unfold ret in H. injection H as _ <-.
  destruct (np_linspace_length _ _ _ _ Hl) as (side & Hside & _ & Hlen).
  unfold enumerate in Hloop.
  apply label_loop_spec with (p := p) in Hloop; [|exact Hp| |reflexivity].
  2:{ exists (repeat (S754_zero false) 2). split; [|reflexivity].
      simpl. unfold snoc. rewrite nth_error_app2 by lia.
      now rewrite Nat.sub_diag. }
  destruct Hloop as (new & Hp' & Hall & _).
  exists s, side, lins, new.
  split; [exact Hs|]. split; [exact Hside|]. split; [exact Hl|].
  split; [exact Hlen|]. split; [exact Hp'|]. split.
  { apply Forall2_length in Hall.
    rewrite length_combine, length_seq, Nat.min_id in Hall. now symmetry. }
  intros i line t Hline Ht.
  pose proof (nth_error_combine_seq _ 0%nat _ _ Hline) as Hil.
  destruct (Forall2_nth_error _ _ _ Hall _ _ _ Hil Ht)
    as (x & y & Hx & Hy & ->).
  cbn [fst snd] in Hx, Hy.
  destruct (meshgrid_flat lins i x y Hx Hy) as [Hx' Hy'].
  exists x, y. auto.
Qed.

(** Four lines, plotted in colours C0 to C3. *)
Definition four_lines : list line2d :=
  map (fun k => mk_line ("line" ++ py_str_int (Z.of_nat k))
                  ("C" ++ py_str_int (Z.of_nat k))
                  [(PInt 0, PInt (Z.of_nat k)); (PInt 1, PInt (Z.of_nat k))]
                  None true)
    (seq 0 4).

(** With four lines the grid has side 2 and the labels start at
    (0.1, 0.1), (0.9, 0.1), (0.1, 0.9) and (0.9, 0.9), in this order. *)
Lemma draggable_legend_grid_witness :
  exists w' p',
    draggable_legend (Some 0%nat) true
      (one_panel (with_lines (fun _ => four_lines) new_axes)) = Ok (tt, w') /\
    nth_error (all_axes w') 0 = Some p' /\
    map (fun t => (t_x t, t_y t, t_text t, t_draggable t)) (ax_texts p') =
      [(PFloat (B64.lit 1 10), PFloat (B64.lit 1 10), "line0", true);
       (PFloat (B64.lit 9 10), PFloat (B64.lit 1 10), "line1", true);
       (PFloat (B64.lit 1 10), PFloat (B64.lit 9 10), "line2", true);
       (PFloat (B64.lit 9 10), PFloat (B64.lit 9 10), "line3", true)].
Proof.
  destruct (draggable_legend (Some 0%nat) true
              (one_panel (with_lines (fun _ => four_lines) new_axes)))
    as [[[] w']|e] eqn:Hrun; [|vm_compute in Hrun; discriminate Hrun].
  destruct (draggable_legend_grid 0 true _ tt w' _ Hrun eq_refl)
    as (s & side & lins & new & Hs & Hside & Hl & Hlen & Hp' & Hn & Hall).
  vm_compute in Hs. injection Hs as <-.
  vm_compute in Hl. injection Hl as <-.
  destruct new as [|t0 [|t1 [|t2 [|t3 [|? ?]]]]]; try discriminate Hn.
  destruct (Hall 0%nat _ t0 eq_refl eq_refl) as (x0 & y0 & Hx0 & Hy0 & ->).
  destruct (Hall 1%nat _ t1 eq_refl eq_refl) as (x1 & y1 & Hx1 & Hy1 & ->).
  destruct (Hall 2%nat _ t2 eq_refl eq_refl) as (x2 & y2 & Hx2 & Hy2 & ->).
  destruct (Hall 3%nat _ t3 eq_refl eq_refl) as (x3 & y3 & Hx3 & Hy3 & ->).
  vm_compute in Hx0, Hy0, Hx1, Hy1, Hx2, Hy2, Hx3, Hy3.
  injection Hx0 as <-. injection Hy0 as <-. injection Hx1 as <-.
  injection Hy1 as <-. injection Hx2 as <-. injection Hy2 as <-.
  injection Hx3 as <-. injection Hy3 as <-.
  exists w'. eexists. split; [reflexivity|]. split; [exact Hp'|].
  vm_compute. reflexivity.
Defined.

(** The side of the grid for [n] lines, as the function computes it:
    [np.ceil(np.sqrt(n))], passed through [int] by [np.linspace]. *)
Definition grid_side (n : nat) : result Z :=
  let* s := np_sqrt (PInt (Z.of_nat n)) in
  py_int (PFloat (np_ceil s)).

Definition grid_side_exact (n : nat) : bool :=
  match grid_side n with
  | Ok z => (z =? Z.sqrt_up (Z.of_nat n))%Z
  | Raise _ => false
  end.

Lemma grid_side_upto_1000 :
  forallb grid_side_exact (seq 0 1001) = true.
Proof. vm_compute. reflexivity. Qed.

Lemma grid_side_small n :
  (n <= 1000)%nat -> grid_side n = Ok (Z.sqrt_up (Z.of_nat n)).
Proof.
  intros Hn. pose proof grid_side_upto_1000 as H.
  rewrite forallb_forall in H.
  specialize (H n). unfold grid_side_exact in H.
  destruct (grid_side n) as [z|e].
  - f_equal. apply Z.eqb_eq. apply H. apply in_seq. lia.
  - discriminate H. apply in_seq. lia.
Qed.

Lemma np_linspace_total start stop num z :
  py_int (PFloat num) = Ok z -> (0 <= z)%Z ->
  exists l, np_linspace start stop num = Ok l.
Proof.
  intros Hz H0. unfold np_linspace. rewrite Hz. simpl.
  destruct (Z.ltb_spec z 0) as [H|_]; [lia|]. eauto.
Qed.

(** The grid for at most 1000 lines: its side is the exact integer
    ceiling of the square root, so that there is a cell for every line. *)
Lemma grid_for_small n :
  (n <= 1000)%nat ->
  exists s lins,
    np_sqrt (PInt (Z.of_nat n)) = Ok s /\
    s = B64.sqrt (B64.of_Z (Z.of_nat n)) /\
    np_linspace (B64.lit 1 10) (B64.lit 9 10) (np_ceil s) = Ok lins /\
    Z.of_nat (List.length lins) = Z.sqrt_up (Z.of_nat n) /\
    (n <= List.length lins * List.length lins)%nat.
Proof.
  intros Hn.
  pose proof (grid_side_small n Hn) as Hside. unfold grid_side in Hside.
  destruct (np_sqrt (PInt (Z.of_nat n))) as [s|e] eqn:Hs; [|discriminate].
  cbn [rbind] in Hside.
  assert (Es : s = B64.sqrt (B64.of_Z (Z.of_nat n))).
  { unfold np_sqrt, py_float in Hs.
    destruct (B64.is_finite (B64.of_Z (Z.of_nat n))); [|discriminate].
    simpl in Hs. now injection Hs. }
  pose proof (Z.sqrt_up_nonneg (Z.of_nat n)) as Hnn.
  destruct (np_linspace_total (B64.lit 1 10) (B64.lit 9 10) _ _ Hside Hnn)
    as [lins Hl].
  destruct (np_linspace_length _ _ _ _ Hl) as (z & Hz & _ & Hlen).
  rewrite Hside in Hz. injection Hz as <-.
  assert (Hlz : Z.of_nat (List.length lins) = Z.sqrt_up (Z.of_nat n)).
  { rewrite Hlen. apply Z2Nat.id. exact Hnn. }
  exists s, lins. repeat (split; [first [reflexivity|assumption]|]).
  destruct (Nat.eq_dec n 0) as [->|Hne]; [apply Nat.le_0_l|].
  pose proof (Z.sqrt_up_spec (Z.of_nat n) ltac:(lia)) as [_ Hup].
  rewrite <- Hlz in Hup. unfold Z.sqrt_up in *. nia.
Qed.

(** The call returns when the grid has a cell for every line. *)
Lemma draggable_legend_on_grid a color_on w p s lins :
  nth_error (all_axes w) a = Some p ->
  np_sqrt (PInt (Z.of_nat (List.length (ax_lines p)))) = Ok s ->
  np_linspace (B64.lit 1 10) (B64.lit 9 10) (np_ceil s) = Ok lins ->
  (List.length (ax_lines p) <= List.length lins * List.length lins)%nat ->
  exists w', draggable_legend (Some a) color_on w = Ok (tt, w').
Proof.
  intros Hp Hs Hl Hsq.
  destruct (meshgrid_flat_length lins) as [Hxs Hys].
  destruct (label_loop_total a color_on
              (reshape_flat (fst (np_meshgrid lins lins)))
              (reshape_flat (snd (np_meshgrid lins lins)))
              (List.length (buffers w)) (ax_lines p) 0 []
              (set_buffers (snoc (buffers w) (repeat (S754_zero false) 2)) w) p)
    as (legend & w' & Hloop).
  { exact Hp. }
  { exists (repeat (S754_zero false) 2). split; [|reflexivity].
    simpl. unfold snoc. rewrite nth_error_app2 by lia.
    now rewrite Nat.sub_diag. }
  { reflexivity. }
  { rewrite Hxs. simpl. lia. }
  { rewrite Hys. simpl. lia. }
  exists w'.
  rewrite draggable_legend_unfold. simpl default_axes.
  unfold bind at 1. unfold ret at 1.
  assert (Hg : get_axes a w = Ok (p, w)) by (unfold get_axes; now rewrite Hp).
  rewrite (bind_run _ _ _ _ _ Hg).
  unfold bind at 1. unfold lift at 1. rewrite Hs.
  unfold bind at 1. unfold lift at 1. rewrite Hl.
  unfold bind at 1. unfold np_zeros at 1.
  unfold enumerate. rewrite (bind_run _ _ _ _ _ Hloop). reflexivity.
Qed.

(** X7. On a panel with at most 1000 lines [draggable_legend] returns: the
    side of its grid, computed in floating point, is the integer ceiling
    of the square root of the number of lines, so that every line has a
    position on the grid. *)
Theorem draggable_legend_returns :
  forall (a : nat) (color_on : bool) (w : pyplot) (p : axes),
    nth_error (all_axes w) a = Some p ->
    (List.length (ax_lines p) <= 1000)%nat ->
    exists w' lins,
      draggable_legend (Some a) color_on w = Ok (tt, w') /\
      np_linspace (B64.lit 1 10) (B64.lit 9 10)
        (np_ceil (B64.sqrt (B64.of_Z (Z.of_nat (List.length (ax_lines p))))))
        = Ok lins /\
      Z.of_nat (List.length lins)
        = Z.sqrt_up (Z.of_nat (List.length (ax_lines p))) /\
      (List.length (ax_lines p) <= List.length lins * List.length lins)%nat.
Proof.
  intros a color_on w p Hp Hn.
  destruct (grid_for_small _ Hn) as (s & lins & Hs & Es & Hl & Hlz & Hsq).
  destruct (draggable_legend_on_grid a color_on w p s lins Hp Hs Hl Hsq)
    as [w' Hrun].
  exists w', lins. rewrite <- Es.
  split; [exact Hrun|]. split; [exact Hl|]. split; [exact Hlz|exact Hsq].
Qed.

Lemma draggable_legend_returns_witness :
  exists w' lins,
    draggable_legend (Some 0%nat) true
      (one_panel (with_lines (fun _ => four_lines) new_axes)) = Ok (tt, w') /\
    np_linspace (B64.lit 1 10) (B64.lit 9 10)
      (np_ceil (B64.sqrt (B64.of_Z 4))) = Ok lins /\
    List.length lins = 2%nat.
Proof.
  destruct (draggable_legend_returns 0 true
              (one_panel (with_lines (fun _ => four_lines) new_axes))
              (with_lines (fun _ => four_lines) new_axes) eq_refl)
    as (w' & lins & Hrun & Hl & Hlen & _).
  { simpl. lia. }
  exists w', lins. split; [exact Hrun|]. split; [exact Hl|].
  change (Z.of_nat (List.length
            (ax_lines (with_lines (fun _ => four_lines) new_axes))))
    with 4%Z in Hlen.
  change (Z.sqrt_up 4) with 2%Z in Hlen. lia.
Defined.

(** ** [draggable_legend]: the labels and where they start *)




(** ** [adjust_spines]: more on what a call does *)


(** X8. Two calls in a row on the same panel, with keep-sets S1 and S2:
    a spine is drawn afterwards exactly when it is in both keep-sets and
    was drawn at the start.  So a spine hidden by one call is not brought
    back by a later call that keeps it. *)
Theorem adjust_spines_never_restores :
  forall (a : nat) (S1 S2 : list string) (sb1 ow1 sb2 ow2 : bool)
         (w : pyplot) (p : axes),
    nth_error (all_axes w) a = Some p ->
    exists w' p',
      bind (adjust_spines (Some a) S1 sb1 ow1)
        (fun _ => adjust_spines (Some a) S2 sb2 ow2) w = Ok (tt, w') /\
      nth_error (all_axes w') a = Some p' /\
      Forall2 (fun old new =>
                 fst new = fst old /\
                 spine_drawn (snd new) =
                   (py_in (fst old) S1 && py_in (fst old) S2
                    && spine_drawn (snd old))%bool)
        (ax_spines p) (ax_spines p').
Proof.
  intros a S1 S2 sb1 ow1 sb2 ow2 w p Hp.
  pose proof (adjust_spines_run (Some a) S1 sb1 ow1 w a w p eq_refl Hp) as H1.
  set (w1 := set_all_axes _ w) in H1.
  assert (Hp1 : nth_error (all_axes w1) a
                = Some (adjust_spines_panel S1 sb1 ow1 p)).
  { unfold w1. rewrite all_axes_set, nth_error_update_nth_eq, Hp. reflexivity. }
  pose proof (adjust_spines_run (Some a) S2 sb2 ow2 w1 a w1 _ eq_refl Hp1) as H2.
  eexists. exists (adjust_spines_panel S2 sb2 ow2 (adjust_spines_panel S1 sb1 ow1 p)).
  split; [rewrite (bind_run _ _ _ _ _ H1); exact H2|].
  split.
  { rewrite all_axes_set, nth_error_update_nth_eq, Hp1. reflexivity. }
  rewrite !adjust_spines_panel_spines.
  induction (ax_spines p) as [|item r IH]; simpl; constructor; [|exact IH].
  destruct (adjust_spine_drawn S1 sb1 ow1 item) as [E1 D1].
  destruct (adjust_spine_drawn S2 sb2 ow2 (adjust_spine S1 sb1 ow1 item))
    as [E2 D2].
  split; [congruence|]. rewrite D2, E1, D1.
  destruct (py_in (fst item) S1), (py_in (fst item) S2); reflexivity.
Qed.

(** Hiding everything and then asking for the default spines leaves a
    fresh panel without any spine. *)
Lemma adjust_spines_never_restores_witness :
  exists w' p',
    bind (adjust_spines (Some 0%nat) [] true false)
      (fun _ => adjust_spines (Some 0%nat) default_spines true false)
      (one_panel new_axes) = Ok (tt, w') /\
    nth_error (all_axes w') 0 = Some p' /\
    map (fun item => (fst item, spine_drawn (snd item))) (ax_spines p') =
      [("left", false); ("right", false); ("bottom", false); ("top", false)].
Proof.
  destruct (adjust_spines_never_restores 0 [] default_spines true false true
              false (one_panel new_axes) new_axes eq_refl)
    as (w' & p' & Hrun & Hp' & _).
  exists w', p'. split; [exact Hrun|]. split; [exact Hp'|].
  vm_compute in Hrun. injection Hrun as <-.
  vm_compute in Hp'. injection Hp' as <-.
  reflexivity.
Defined.




(** X10. What a call sets on each spine of its panel.  A spine of the
    keep-set keeps its colour and visibility, gets [smart_bounds], and is
    moved outward by 12 points when [outward] is set (its position is left
    alone otherwise); any other spine gets the colour "none" and keeps its
    position and bounds.  The y-ticks go to the left when "left" is kept
    and the x-ticks to the bottom when "bottom" is kept, the tick
    locations being left alone. *)
Theorem adjust_spines_settings :
  forall (ax : option nat) (spines : list string) (smart_bounds outward : bool)
         (w w1 : pyplot) (a : nat) (p : axes),
    default_axes ax w = Ok (a, w1) ->
    nth_error (all_axes w1) a = Some p ->
    exists w' p',
      adjust_spines ax spines smart_bounds outward w = Ok (tt, w') /\
      nth_error (all_axes w') a = Some p' /\
      Forall2 (fun old new =>
                 fst new = fst old /\
                 sp_visible (snd new) = sp_visible (snd old) /\
                 if py_in (fst old) spines
                 then sp_color (snd new) = sp_color (snd old) /\
                      sp_smart_bounds (snd new) = smart_bounds /\
                      sp_position (snd new) =
                        (if outward then Some ("outward", 12%Z)
                         else sp_position (snd old))
                 else sp_color (snd new) = "none" /\
                      sp_smart_bounds (snd new) = sp_smart_bounds (snd old) /\
                      sp_position (snd new) = sp_position (snd old))
        (ax_spines p) (ax_spines p') /\
      (py_in "left" spines = true ->
         ticks_position (ax_yaxis p') = "left" /\
         ticks (ax_yaxis p') = ticks (ax_yaxis p)) /\
      (py_in "bottom" spines = true ->
         ticks_position (ax_xaxis p') = "bottom" /\
         ticks (ax_xaxis p') = ticks (ax_xaxis p)).
Proof.
  intros ax spines sb ow w w1 a p Ha Hp.
  exists (set_all_axes
            (update_nth a (adjust_spines_panel spines sb ow) (all_axes w1)) w1).
  exists (adjust_spines_panel spines sb ow p).
  split; [exact (adjust_spines_run _ _ _ _ _ _ _ _ Ha Hp)|].
  split.
  { rewrite all_axes_set, nth_error_update_nth_eq, Hp. reflexivity. }
  split.
  { rewrite adjust_spines_panel_spines.
    induction (ax_spines p) as [|[loc [c v pos b]] r IH]; simpl;
      constructor; [|exact IH].
    unfold adjust_spine. cbn [fst snd].
    destruct (py_in loc spines); [destruct ow|]; cbn; auto. }
  unfold adjust_spines_panel.
  split; intros ->; destruct (py_in _ spines); split; reflexivity.
Qed.

Lemma adjust_spines_settings_witness :
  exists w' p',
    adjust_spines None default_spines true true (one_panel new_axes)
      = Ok (tt, w') /\
    nth_error (all_axes w') 0 = Some p' /\
    map (fun item => (fst item, sp_position (snd item), sp_color (snd item)))
      (ax_spines p') =
      [("left", Some ("outward", 12%Z), "black"); ("right", None, "none");
       ("bottom", Some ("outward", 12%Z), "black"); ("top", None, "none")].
Proof.
  destruct (adjust_spines_settings None default_spines true true
              (one_panel new_axes) (one_panel new_axes) 0%nat new_axes
              eq_refl eq_refl)
    as (w' & p' & Hrun & Hp' & _).
  exists w', p'. split; [exact Hrun|]. split; [exact Hp'|].
  vm_compute in Hrun. injection Hrun as <-.
  vm_compute in Hp'. injection Hp' as <-.
  reflexivity.
Defined.

Lemma update_nth_app_length {A} (f : A -> A) l x :
  update_nth (List.length l) f (l ++ [x]) = (l ++ [f x])%list.
Proof. induction l as [|y r IH]; simpl; [reflexivity|]. now rewrite IH. Qed.

(** X11. Without an axes argument and with no current figure or axes, a
    call creates one figure holding one panel, makes them current, and
    adjusts that new panel: of its four spines those of the keep-set are
    drawn, and it has no lines and no texts. *)
Theorem adjust_spines_creates_panel :
  forall (spines : list string) (smart_bounds outward : bool) (w : pyplot),
    gca_ w = None -> gcf_ w = None ->
    exists w' p',
      adjust_spines None spines smart_bounds outward w = Ok (tt, w') /\
      all_axes w' = (all_axes w ++ [p'])%list /\
      all_figures w' =
        (all_figures w ++ [new_figure [List.length (all_axes w)] None])%list /\
      gcf_ w' = Some (List.length (all_figures w)) /\
      gca_ w' = Some (List.length (all_axes w)) /\
      map (fun item => (fst item, spine_drawn (snd item))) (ax_spines p') =
        map (fun loc => (loc, py_in loc spines))
          ["left"; "right"; "bottom"; "top"] /\
      ax_lines p' = [] /\ ax_texts p' = [].
Proof.
  intros spines sb ow w Ha Hf.
  assert (Hgca : exists w1,
             default_axes None w = Ok (List.length (all_axes w), w1) /\
             all_axes w1 = (all_axes w ++ [new_axes])%list /\
             all_figures w1 =
               (all_figures w ++ [new_figure [List.length (all_axes w)] None])%list /\
             gcf_ w1 = Some (List.length (all_figures w)) /\
             gca_ w1 = Some (List.length (all_axes w)) /\
             saved w1 = saved w).
  { simpl. unfold gca, gcf. rewrite Ha, Hf. simpl. eexists.
    split; [reflexivity|]. simpl.
    split; [reflexivity|]. split; [|auto].
    unfold snoc. now rewrite update_nth_app_length. }
  destruct Hgca as (w1 & Hd & Hax & Hfig & Hcf & Hca & _).
  assert (Hp : nth_error (all_axes w1) (List.length (all_axes w)) = Some new_axes).
  { rewrite Hax, nth_error_app2 by lia. now rewrite Nat.sub_diag. }
  eexists. exists (adjust_spines_panel spines sb ow new_axes).
  split; [exact (adjust_spines_run _ spines sb ow _ _ _ _ Hd Hp)|].
  split.
  { rewrite all_axes_set, Hax. apply update_nth_app_length. }
  split; [exact Hfig|]. split; [exact Hcf|]. split; [exact Hca|].
  split.
  { rewrite adjust_spines_panel_spines. unfold new_axes, adjust_spine.
    cbn [ax_spines map fst snd].
    destruct (py_in "left" spines), (py_in "right" spines),
      (py_in "bottom" spines), (py_in "top" spines), ow; reflexivity. }
  unfold adjust_spines_panel.
  destruct (py_in "left" spines), (py_in "bottom" spines); split; reflexivity.
Qed.

Lemma adjust_spines_creates_panel_witness :
  exists w' p',
    adjust_spines None default_spines true false empty_pyplot = Ok (tt, w') /\
    all_axes w' = [p'] /\
    gca_ w' = Some 0%nat /\
    map (fun item => (fst item, spine_drawn (snd item))) (ax_spines p') =
      [("left", true); ("right", false); ("bottom", true); ("top", false)].
Proof.
  destruct (adjust_spines_creates_panel default_spines true false empty_pyplot
              eq_refl eq_refl)
    as (w' & p' & Hrun & Hax & _ & _ & Hca & Hsp & _).
  exists w', p'. split; [exact Hrun|]. split; [exact Hax|].
  split; [exact Hca|exact Hsp].
Defined.

(** ** [horiz_bar]: inputs that are refused *)

Lemma bind_lift_Ok {A B} (x : A) (k : A -> M B) w :
  bind (lift (Ok x)) k w = k x w.
Proof. reflexivity. Qed.

Lemma bind_lift_Raise {A B} e (k : A -> M B) w :
  bind (lift (@Raise A e)) k w = Raise e.
Proof. reflexivity. Qed.

Lemma subplots_one figsize w :
  subplots 1 figsize w =
  Ok ((List.length (all_figures w), OneAxes (List.length (all_axes w))),
      set_current (Some (List.length (all_figures w)))
        (Some (List.length (all_axes w) + 0)%nat)
        (set_all_figures
           (snoc (all_figures w)
              (new_figure [List.length (all_axes w)] figsize))
           (set_all_axes (all_axes w ++ [new_axes])%list w))).
Proof. reflexivity. Qed.

(** Going through the statements that come before a loop: each of them
    returns or raises. *)
Ltac through_lift :=
  match goal with
  | |- exists e, bind (lift ?r) _ _ = Raise e =>
      let e0 := fresh "e" in
      destruct r as [?|e0];
      [rewrite bind_lift_Ok
      |exists e0; apply bind_lift_Raise]
  end.

(** X12. With exactly one number [horiz_bar] never returns, whatever the
    other arguments, and so never writes its file: [plt.subplots(1, 1)]
    hands back a single axes, and the loop over [zip(labels, times,
    axarr)] cannot iterate over it. *)
Theorem horiz_bar_single_entry :
  forall (labels : list string) (t : pynum) (header : list string)
         (ts : pynum) (nd : Z) (size : list pynum) (color : string)
         (w : pyplot),
    exists e,
      horiz_bar labels [t] header ts nd size color w = Raise e.
Proof.
  intros labels t header ts nd size color w. unfold horiz_bar.
  cbn [List.length].
  do 5 through_lift.
  rewrite (bind_run _ _ _ _ _ (subplots_one None w)). cbn [fst snd].
  do 2 through_lift.
  exists TypeError. reflexivity.
Qed.

Lemma py_mul_int_zero h : exists v, py_mul h (PInt 0) = Ok v.
Proof. destruct h as [z|f]; eexists; reflexivity. Qed.

(** X13. Without any number [horiz_bar] raises [ValueError], at
    [max(times)], before a figure is created (the size being a list of
    two numbers, as documented). *)
Theorem horiz_bar_no_entry :
  forall (labels header : list string) (ts : pynum) (nd : Z)
         (width h : pynum) (rest : list pynum) (color : string) (w : pyplot),
    horiz_bar labels [] header ts nd (width :: h :: rest) color w
    = Raise ValueError.
Proof.
  intros labels header ts nd width h rest color w. unfold horiz_bar.
  cbn [List.length].
  assert (H0 : py_index (width :: h :: rest) 0 = Ok width)
    by (apply (py_index_nat _ 0%nat); reflexivity).
  assert (H1 : py_index (width :: h :: rest) 1 = Ok h)
    by (apply (py_index_nat _ 1%nat); reflexivity).
  rewrite H0, bind_lift_Ok, H1, bind_lift_Ok.
  destruct (py_mul_int_zero h) as [v Hv].
  change (Z.of_nat 0) with 0%Z. rewrite Hv, bind_lift_Ok.
  reflexivity.
Qed.

(** ** [horiz_bar]: the trimmings of each panel *)

(** The tick parameters, the visibility of each spine and the y-range of
    an axes. *)
Definition trim_state (p : axes)
    : option tick_params_obj * list (string * bool) * option (pynum * pynum) :=
  (ax_tick_params p,
   map (fun kv => (fst kv, sp_visible (snd kv))) (ax_spines p),
   ax_ylim p).

(** What drawing bar [j] of [num] does to them. *)
Definition trim_effect (num j : nat)
    (s : option tick_params_obj * list (string * bool) * option (pynum * pynum))
    : option tick_params_obj * list (string * bool) * option (pynum * pynum) :=
  (Some (mk_tick_params "both" "both"
           [("left", false); ("labelleft", false); ("labelright", false);
            ("labelbottom", false); ("right", false);
            ("bottom", (j =? num)%nat); ("top", false)]),
   update_key "bottom" (fun _ => false)
     (update_key "right" (fun _ => false)
        (update_key "left" (fun _ => false)
           (update_key "top" (fun _ => false) (snd (fst s))))),
   Some (PFloat (B64.lit 99 100), PFloat (B64.lit 101 100))).

Lemma map_visible_update_key loc b (l : list (string * spine)) :
  map (fun kv => (fst kv, sp_visible (snd kv)))
    (update_key loc (set_visible b) l)
  = update_key loc (fun _ => b)
      (map (fun kv => (fst kv, sp_visible (snd kv))) l).
Proof.
  induction l as [|[k v] r IH]; simpl; [reflexivity|].
  destruct (String.eqb loc k); simpl; [reflexivity|]. now rewrite IH.
Qed.

Lemma acts_trim_spine_set_visible a loc b :
  acts trim_state a
    (fun s => (fst (fst s), update_key loc (fun _ => b) (snd (fst s)), snd s))
    (spine_set_visible a loc b).
Proof.
  unfold spine_set_visible. apply acts_stable_bind; [apply stable_get_axes|].
  intro p. destruct (lookup loc (ax_spines p)).
  - apply acts_modify. intros q. unfold trim_state.
    destruct q. unfold with_spines. cbn. now rewrite map_visible_update_key.
  - intros w x w' H. discriminate H.
Qed.

Lemma acts_trim_set_ylim a lo hi v :
  check_limits lo hi = Ok v ->
  acts trim_state a (fun s => (fst s, Some v)) (set_ylim a lo hi).
Proof.
  intros Hc. unfold set_ylim. apply acts_lift_bind. intros v' Hv.
  rewrite Hc in Hv. injection Hv as <-.
  apply acts_modify. intros []; reflexivity.
Qed.

(** The y-range of a bar is far from singular: it is stored as given. *)
Lemma bar_ylim :
  check_limits (PFloat (B64.lit 99 100)) (PFloat (B64.lit 101 100))
  = Ok (PFloat (B64.lit 99 100), PFloat (B64.lit 101 100)).
Proof. vm_compute. reflexivity. Qed.

Lemma stable_trim_ax_text a x y s color ha va fs :
  stable trim_state (ax_text a x y s color ha va fs).
Proof. unfold ax_text. repeat stable_step. Qed.

Lemma acts_trim_draw_bar num tmd nd lay header color jlta :
  acts trim_state (snd (snd jlta)) (trim_effect num (fst jlta))
    (draw_bar num tmd nd lay header color jlta).
Proof.
  destruct jlta as [j [[l t] ax]]. unfold draw_bar, trim_effect.
  cbn [fst snd].
  apply acts_stable_bind; [unfold axhline; repeat stable_step|intro].
  apply acts_stable_bind; [unfold scatter; repeat stable_step|intro].
  eapply acts_ext; cycle 1.
  { eapply acts_bind; [apply (acts_trim_set_ylim _ _ _ _ bar_ylim)|intro].
    apply acts_stable_bind; [unfold set_xlim; repeat stable_step|intro].
    eapply acts_bind;
      [apply acts_modify with
         (h := fun s => (Some (mk_tick_params "both" "both"
                                 [("left", false); ("labelleft", false);
                                  ("labelright", false); ("labelbottom", false);
                                  ("right", false); ("bottom", (j =? num)%nat);
                                  ("top", false)]), snd (fst s), snd s));
       intros []; reflexivity|intro].
    eapply acts_bind; [apply acts_trim_spine_set_visible|intro].
    eapply acts_bind; [apply acts_trim_spine_set_visible|intro].
    eapply acts_bind; [apply acts_trim_spine_set_visible|intro].
    eapply acts_bind; [apply acts_trim_spine_set_visible|intro].
    apply acts_stable.
    apply stable_bind; [apply stable_trim_ax_text|intro].
    apply stable_bind; [apply stable_lift|intro].
    apply stable_bind; [apply stable_lift|intro].
    apply stable_bind; [apply stable_trim_ax_text|intro].
    destruct (j =? 0)%nat; [|apply stable_ret].
    apply stable_bind; [apply stable_lift|intro].
    apply stable_bind; [apply stable_trim_ax_text|intro].
    apply stable_bind; [apply stable_lift|intro].
    apply stable_bind; [apply stable_trim_ax_text|intro].
    unfold add_line. repeat stable_step. }
  intros [[tp sp] yl]. reflexivity.
Qed.

(** X14. When [horiz_bar] returns, with at least as many labels as
    numbers: every panel has its four spines invisible, the y-range
    [0.99, 1.01] and all the tick marks and tick labels switched off, the
    bottom ticks of the last panel included ([bottom=j==num] is false at
    every turn of the loop, [j] stopping at [num - 1]); and the figure
    saved has the size [(size[0], size[1] * num)]. *)
Theorem horiz_bar_trimmings :
  forall labels times header ts nd size color w u w',
    horiz_bar labels times header ts nd size color w = Ok (u, w') ->
    (List.length times <= List.length labels)%nat ->
    (exists width h height fig,
       py_index size 0 = Ok width /\ py_index size 1 = Ok h /\
       py_mul h (PInt (Z.of_nat (List.length times))) = Ok height /\
       nth_error (all_figures w') (List.length (all_figures w)) = Some fig /\
       fig_size fig = Some (width, height)) /\
    forall i,
      (i < List.length times)%nat ->
      exists p',
        nth_error (all_axes w') (List.length (all_axes w) + i) = Some p' /\
        ax_tick_params p' =
          Some (mk_tick_params "both" "both"
                  [("left", false); ("labelleft", false); ("labelright", false);
                   ("labelbottom", false); ("right", false); ("bottom", false);
                   ("top", false)]) /\
        map (fun kv => (fst kv, sp_visible (snd kv))) (ax_spines p') =
          [("left", false); ("right", false); ("bottom", false);
           ("top", false)] /\
        ax_ylim p' = Some (PFloat (B64.lit 99 100), PFloat (B64.lit 101 100)).
Proof.
  intros labels times header ts nd size color w u w'.
  unfold horiz_bar. intros H Hlen.
  set (num := List.length times) in *.
  set (base := List.length (all_axes w)).
  run_step H width w0 Hw. apply lift_Ok in Hw. destruct Hw as [Hw ->].
  run_step H hh w0 Hh. apply lift_Ok in Hh. destruct Hh as [Hh ->].
  run_step H height w0 Hht. apply lift_Ok in Hht. destruct Hht as [Hht ->].
  run_step H t_max w0 Ht. apply lift_Ok in Ht. destruct Ht as [Ht ->].
  run_step H longest w0 Hlg. apply lift_Ok in Hlg. destruct Hlg as [_ ->].
  run_step H fa w1 Hs. destruct fa as [fig axs]. cbn [fst snd] in H.
  run_step H lay w0 Hlay. apply lift_Ok in Hlay. destruct Hlay as [Hlay ->].
  run_step H tmd w0 Htmd. apply lift_Ok in Htmd. destruct Htmd as [_ ->].
  run_step H ids w0 Hids. apply lift_Ok in Hids. destruct Hids as [Hids ->].
  run_step H u1 w2 Hloop. run_step H u2 w3 Hsize.
  destruct (subplots_store _ _ _ _ _ _ Hs) as (-> & Hfigs & Hsaved).
  apply subplots_Ok in Hs. destruct Hs as (_ & Haxes & Haxs).
  destruct (axarr_iter_Ok _ _ _ _ Haxs Hids) as [-> _].
  fold base in Haxes, Hfigs, Hloop.
  apply modify_figure_Ok in Hsize. apply fig_savefig_Ok in H.
  assert (Hfg : all_figures w2 = all_figures w1).
  { revert Hloop. apply keeps_for_each. intro.
    apply keeps_draw_bar. intros ? ?; reflexivity. }
  apply (for_each_acts trim_state (fun x => snd (snd x))
           (fun x => trim_effect num (fst x))) in Hloop.
  2:{ intros x _. apply acts_trim_draw_bar. }
  2:{ rewrite <- map_map. unfold enumerate. rewrite map_snd_combine_seq.
      apply NoDup_map_snd_zip3, seq_NoDup. }
  destruct Hloop as (_ & _ & Heff).
  split.
  { exists width, hh, height,
      (mk_figure (seq base num) (Some (width, height)) false false).
    split; [exact Hw|]. split; [exact Hh|]. split; [exact Hht|].
    split; [|reflexivity].
    subst w' w3. simpl. rewrite nth_error_update_nth_eq, Hfg, Hfigs.
    unfold snoc. rewrite nth_error_app2 by lia. rewrite Nat.sub_diag.
    reflexivity. }
  intros i Hi.
  destruct (nth_error times i) as [t|] eqn:Hit;
    [|apply nth_error_None in Hit; unfold num in *; lia].
  destruct (nth_error labels i) as [l|] eqn:Hil;
    [|apply nth_error_None in Hil; unfold num in *; lia].
  assert (Hin : In (i, (l, t, (base + i)%nat))
                  (enumerate (zip3 labels times (seq base num)))).
  { apply in_enumerate. apply nth_error_zip3.
    split; [exact Hil|]. split; [exact Hit|]. apply nth_error_seq. auto. }
  specialize (Heff _ Hin). cbn [fst snd] in Heff.
  unfold view at 2 in Heff. rewrite Haxes in Heff. unfold base in Heff at 2.
  rewrite nth_error_fresh_view in Heff by exact Hi.
  unfold view in Heff. rewrite nth_error_map in Heff.
  assert (Hax : all_axes w' = all_axes w2) by (subst w' w3; reflexivity).
  rewrite Hax.
  destruct (nth_error (all_axes w2) (base + i)) as [p'|]; [|discriminate Heff].
  simpl in Heff. injection Heff as Htp Hsp Hyl.
  exists p'. split; [reflexivity|].
  split; [|split; [exact Hsp|exact Hyl]].
  rewrite Htp. destruct (Nat.eqb_spec i num) as [E|_]; [lia|reflexivity].
Qed.

Lemma horiz_bar_trimmings_witness :
  exists w' p1,
    horiz_bar ["A"; "BB"] [PInt 10; PInt 20] ["L"; "R"] (PInt 1) 1
      [PInt 5; PFloat (B64.lit 5 10)] "#FFCC00" empty_pyplot
      = Ok (tt, w') /\
    nth_error (all_axes w') 1 = Some p1 /\
    option_map tp_flags (ax_tick_params p1) =
      Some [("left", false); ("labelleft", false); ("labelright", false);
            ("labelbottom", false); ("right", false); ("bottom", false);
            ("top", false)].
Proof.
  destruct (horiz_bar ["A"; "BB"] [PInt 10; PInt 20] ["L"; "R"] (PInt 1) 1
              [PInt 5; PFloat (B64.lit 5 10)] "#FFCC00" empty_pyplot)
    as [[[] w']|e] eqn:Hrun; [|vm_compute in Hrun; discriminate Hrun].
  destruct (horiz_bar_trimmings _ _ _ _ _ _ _ _ _ _ Hrun (le_n 2))
    as (_ & Hall).
  destruct (Hall 1%nat (le_n 2)) as (p1 & Hp1 & Htp & _).
  exists w', p1. split; [reflexivity|]. split; [exact Hp1|].
  now rewrite Htp.
Defined.

(** ** [stacked_plots]: a single series *)

(** X15. When the first mapping has exactly one series, [stacked_plots]
    raises [TypeError] in its first loop, whatever the series holds:
    [plt.subplots(1)] hands back a single axes, which [axarr[i]] cannot
    subscript.  Nothing is plotted or saved. *)
Theorem stacked_plots_single_series :
  forall xlabel xdata (arg : data_arg) figsize pad filename xticks cushion
         (w : pyplot) (item : string * ydata_arg),
    py_index (as_dict_list arg) 0 = Ok [item] ->
    stacked_plots xlabel xdata arg figsize pad filename xticks cushion w
    = Raise TypeError.
Proof.
  intros xlabel xdata arg figsize pad filename xticks cushion w
    [ylabel ydata] Hd.
  unfold stacked_plots.
  rewrite (first_item_list _ _ Hd), bind_lift_Ok. cbn [List.length].
  rewrite (bind_run _ _ _ _ _ (subplots_one (Some figsize) w)).
  cbn [fst snd]. apply bind_raise.
  unfold enumerate. cbn [List.length seq combine for_each].
  apply bind_raise. unfold setup_panel. cbn [fst snd].
  destruct ydata as [l|d]; [reflexivity|].
  unfold setup_ylim.
  destruct (d_limits d); [reflexivity|].
  destruct (d_ticks d); reflexivity.
Qed.

Lemma stacked_plots_single_series_witness :
  stacked_plots "t" [PInt 0; PInt 1]
    (OneDict [("y", RawData [PInt 3; PInt 4])])
    (PInt 12, PInt 10) (PInt 200) "stacks.png" None
    (PFloat (B64.lit 1 10)) empty_pyplot
  = Raise TypeError.
Proof.
  exact (stacked_plots_single_series "t" [PInt 0; PInt 1]
           (OneDict [("y", RawData [PInt 3; PInt 4])])
           (PInt 12, PInt 10) (PInt 200) "stacks.png" None
           (PFloat (B64.lit 1 10)) empty_pyplot
           ("y", RawData [PInt 3; PInt 4]) eq_refl).
Defined.

(** ** [stacked_plots]: the dressing of each panel *)

(** The x-axis of an axes (side and locations of its ticks, label), the
    label of its y-axis, and which of its spines are drawn. *)
Definition dress_state (p : axes)
    : string * option (list pynum) * option axis_label * option axis_label
      * list (string * bool) :=
  (ticks_position (ax_xaxis p), ticks (ax_xaxis p), axis_lab (ax_xaxis p),
   axis_lab (ax_yaxis p),
   map (fun kv => (fst kv, spine_drawn (snd kv))) (ax_spines p)).

Lemma stable_dress_set_ylim_seq a l : stable dress_state (set_ylim_seq a l).
Proof.
  unfold set_ylim_seq.
  destruct l as [|lo [|hi [|? ?]]]; try apply stable_raise.
  unfold set_ylim. repeat stable_step.
Qed.

Lemma stable_dress_setup_ylim axs cushion i ydata :
  stable dress_state (setup_ylim axs cushion i ydata).
Proof.
  unfold setup_ylim. destruct ydata as [l|d]; [apply stable_ret|].
  destruct (d_limits d).
  - apply stable_bind; [apply stable_lift|intro].
    apply stable_dress_set_ylim_seq.
  - destruct (d_ticks d); [|apply stable_ret].
    apply stable_bind; [apply stable_lift|intro].
    apply stable_bind.
    { unfold set_yticks. apply stable_modify. intros [? ? []]; reflexivity. }
    intro. apply stable_bind; [apply stable_lift|intro].
    apply stable_bind; [apply stable_lift|intro].
    apply stable_dress_set_ylim_seq.
Qed.

Lemma stable_dress_plot_series axs xdata item :
  stable dress_state (plot_series axs xdata item).
Proof.
  unfold plot_series.
  apply stable_bind.
  { destruct (snd (snd item)) as [l|d]; [apply stable_ret|].
    destruct (d_data d); [apply stable_ret | apply stable_raise]. }
  intro. unfold plot, scatter. repeat stable_step.
Qed.

(** What the first loop does to the dressing of panel [i]: the y-label. *)
Lemma acts_dress_setup_panel base n pad cushion i ylabel ydata :
  acts dress_state (base + i)
    (fun s => (fst (fst s),
               Some (mk_axis_label ylabel (Some "horizontal") (Some "left")
                       (Some pad)),
               snd s))
    (setup_panel (AxesArray (seq base n)) pad cushion (i, (ylabel, ydata))).
Proof.
  unfold setup_panel. cbn [fst snd].
  apply acts_stable_bind; [apply stable_dress_setup_ylim|intro].
  apply acts_lift_bind. intros a Ha.
  apply axarr_index_seq in Ha. destruct Ha as [_ ->].
  unfold set_ylabel. apply acts_modify. intros [? ? []]; reflexivity.
Qed.

(** What the third loop does to the dressing of panel [i] of [n]. *)
Definition finish_effect (n : nat) (xticks : option (list pynum)) (i : nat)
    (s : string * option (list pynum) * option axis_label * option axis_label
         * list (string * bool))
    : string * option (list pynum) * option axis_label * option axis_label
      * list (string * bool) :=
  ("bottom",
   (if (Z.of_nat i <? Z.of_nat n - 1)%Z then Some []
    else match xticks with
         | Some l => Some l
         | None => snd (fst (fst (fst s)))
         end),
   snd (fst (fst s)), snd (fst s),
   map (fun kv => (fst kv, (py_in (fst kv) default_spines && snd kv)%bool))
     (snd s)).

Lemma dress_adjust_spines_panel p :
  dress_state (adjust_spines_panel default_spines true false p)
  = ("bottom", ticks (ax_xaxis p), axis_lab (ax_xaxis p),
     axis_lab (ax_yaxis p),
     map (fun kv => (fst kv, (py_in (fst kv) default_spines && snd kv)%bool))
       (map (fun kv => (fst kv, spine_drawn (snd kv))) (ax_spines p))).
Proof.
  unfold dress_state. rewrite adjust_spines_panel_spines, !map_map.
  f_equal.
  apply map_ext. intros item.
  destruct (adjust_spine_drawn default_spines true false item) as [-> ->].
  reflexivity.
Qed.

Lemma acts_dress_finish_panel n xticks i ax :
  acts dress_state ax (finish_effect n xticks i)
    (finish_panel n xticks (i, ax)).
Proof.
  unfold finish_panel. cbn [fst snd].
  eapply acts_ext; cycle 1.
  { eapply acts_bind.
    - intros w u w' H. rewrite adjust_spines_as_update in H.
      simpl in H. unfold bind, ret in H. revert H.
      apply (acts_modify dress_state ax _
               (fun s => ("bottom", snd (fst (fst (fst s))), snd (fst (fst s)),
                          snd (fst s),
                          map (fun kv => (fst kv,
                                 (py_in (fst kv) default_spines && snd kv)%bool))
                            (snd s)))).
      intros p. apply dress_adjust_spines_panel.
    - intro.
      instantiate (1 := fun s =>
        ((if (Z.of_nat i <? Z.of_nat n - 1)%Z
          then fst (fst (fst (fst s))) else "bottom"),
         (if (Z.of_nat i <? Z.of_nat n - 1)%Z then Some []
          else match xticks with
               | Some l => Some l
               | None => snd (fst (fst (fst s)))
               end),
         snd (fst (fst s)), snd (fst s), snd s)).
      destruct (Z.of_nat i <? Z.of_nat n - 1)%Z.
      + apply acts_modify. intros [? [] ? ? ? ? ? ? ?]; reflexivity.
      + eapply acts_ext; cycle 1.
        { eapply acts_bind.
          - apply acts_modify with (h := fun s =>
              ("bottom", snd (fst (fst (fst s))), snd (fst (fst s)),
               snd (fst s), snd s)).
            intros [? [] ? ? ? ? ? ? ?]; reflexivity.
          - intro.
            instantiate (1 := fun s =>
              (fst (fst (fst (fst s))),
               match xticks with
               | Some l => Some l
               | None => snd (fst (fst (fst s)))
               end,
               snd (fst (fst s)), snd (fst s), snd s)).
            destruct xticks as [l|].
            + apply acts_modify. intros [? [] ? ? ? ? ? ? ?]; reflexivity.
            + eapply acts_ext; [|apply acts_stable, stable_ret].
              intros [[[[? ?] ?] ?] ?]; reflexivity. }
        intros [[[[? ?] ?] ?] ?]. reflexivity. }
  intros [[[[? ?] ?] ?] ?]. unfold finish_effect. cbn [fst snd].
  destruct (Z.of_nat i <? Z.of_nat n - 1)%Z; reflexivity.
Qed.

Lemma map_panel_combine_seq {A} base (l : list A) : forall k,
  map (fun x : nat * A => (base + fst x)%nat) (combine (seq k (List.length l)) l)
  = seq (base + k) (List.length l).
Proof.
  induction l as [|y r IH]; intros k; simpl; [reflexivity|].
  rewrite IH. f_equal. f_equal. lia.
Qed.

Lemma axarr_index_last base n a :
  axarr_index (AxesArray (seq base n)) (-1) = Ok a ->
  (0 < n)%nat /\ a = (base + (n - 1))%nat.
Proof.
  unfold axarr_index, py_index. rewrite length_seq.
  assert (E1 : (-1 <? 0)%Z = true) by reflexivity.
  cbv zeta. rewrite E1.
  destruct (Z.leb_spec 0 (-1 + Z.of_nat n)) as [H0|H0]; [|discriminate].
  destruct (Z.ltb_spec (-1 + Z.of_nat n) (Z.of_nat n)) as [H1|H1];
    [|cbn [andb]; discriminate].
  cbn [andb]. replace (Z.to_nat (-1 + Z.of_nat n)) with (n - 1)%nat by lia.
  destruct (nth_error (seq base n) (n - 1)) as [b|] eqn:E; [|discriminate].
  intros [= <-]. apply nth_error_seq in E. destruct E as [_ ->].
  split; [lia|reflexivity].
Qed.

Lemma stable_dress_tail (f : nat * axarr) filename :
  stable dress_state (tight_layout ;; savefig filename ;; ret f).
Proof. unfold tight_layout, savefig. repeat stable_step. Qed.

(** X16. When [stacked_plots] returns, panel [i] of the [n] panels, the
    one of the [i]-th series of the first mapping: its y-label is the name
    of the series, horizontal, left-aligned, with the given pad; its top
    and right spines are hidden and its left and bottom spines drawn; its
    x-ticks are on the bottom side; every panel but the last has its
    x-ticks removed and no x-label, and the last one has the x-label and,
    when [xticks] is given, these tick locations. *)
Theorem stacked_plots_dressing :
  forall xlabel xdata arg figsize pad filename xticks cushion w f axs w'
         dd i ylabel ydata,
    stacked_plots xlabel xdata arg figsize pad filename xticks cushion w
      = Ok ((f, axs), w') ->
    py_index (as_dict_list arg) 0 = Ok dd ->
    nth_error dd i = Some (ylabel, ydata) ->
    exists p',
      nth_error (all_axes w') (List.length (all_axes w) + i) = Some p' /\
      axis_lab (ax_yaxis p') =
        Some (mk_axis_label ylabel (Some "horizontal") (Some "left") (Some pad)) /\
      map (fun kv => (fst kv, spine_drawn (snd kv))) (ax_spines p') =
        [("left", true); ("right", false); ("bottom", true); ("top", false)] /\
      ticks_position (ax_xaxis p') = "bottom" /\
      ticks (ax_xaxis p') =
        (if (S i <? List.length dd)%nat then Some [] else xticks) /\
      axis_lab (ax_xaxis p') =
        (if (S i <? List.length dd)%nat then None
         else Some (mk_axis_label xlabel None None None)).
Proof.
  intros xlabel xdata arg figsize pad filename xticks cushion w f axs w'
    dd0 i ylabel ydata H Hdd Hitem.
  unfold stacked_plots in H.
  run_step H dd w0 Hd. apply lift_Ok in Hd. destruct Hd as [Hd ->].
  on_list H Hd.
  assert (dd = dd0) by congruence. subst dd0. clear Hdd.
  set (n := List.length dd) in *. set (base := List.length (all_axes w)).
  run_step H fa w1 Hs. destruct fa as [f0 axs0]. cbn [fst snd] in H.
  apply subplots_Ok in Hs. destruct Hs as (Hn & Hw1 & Haxs).
  fold base in Hw1, Haxs.
  run_step H u1 w2 Hloop1. run_step H u2 w3 Hloop2.
  run_step H ids w4 Hids. apply lift_Ok in Hids. destruct Hids as [Hids ->].
  destruct (axarr_iter_Ok _ _ _ _ Haxs Hids) as [-> ->].
  run_step H u3 w5 Hloop3. run_step H u4 w6 Halign.
  run_step H lst w7 Hlast. apply lift_Ok in Hlast. destruct Hlast as [Hlast ->].
  apply axarr_index_last in Hlast. destruct Hlast as [Hpos ->].
  run_step H u5 w8 Hxl.
  assert (Hi : (i < n)%nat) by (apply nth_error_Some; congruence).
  (* the first loop *)
  apply (for_each_acts dress_state (fun x => (base + fst x)%nat)
           (fun x s => (fst (fst s),
                        Some (mk_axis_label (fst (snd x)) (Some "horizontal")
                                (Some "left") (Some pad)),
                        snd s))) in Hloop1.
  2:{ intros [j [yl yd]] _. apply acts_dress_setup_panel. }
  2:{ unfold enumerate. rewrite map_panel_combine_seq. apply seq_NoDup. }
  destruct Hloop1 as (_ & _ & Heff1).
  assert (Hin1 : In (i, (ylabel, ydata)) (enumerate dd))
    by (apply in_enumerate; exact Hitem).
  specialize (Heff1 _ Hin1). cbn [fst snd] in Heff1.
  unfold view at 2 in Heff1. rewrite Hw1 in Heff1. unfold base in Heff1 at 2.
  rewrite nth_error_fresh_view in Heff1 by exact Hi.
  (* the second loop *)
  assert (H23 : view dress_state w3 = view dress_state w2).
  { revert Hloop2. apply stable_for_each. intro.
    apply stable_for_each. intro. apply stable_dress_plot_series. }
  (* the third loop *)
  rewrite length_seq in Hloop3.
  apply (for_each_acts dress_state (fun x => snd x)
           (fun x => finish_effect n xticks (fst x))) in Hloop3.
  2:{ intros [j a] _. apply acts_dress_finish_panel. }
  2:{ unfold enumerate. rewrite map_snd_combine_seq. apply seq_NoDup. }
  destruct Hloop3 as (_ & _ & Heff3).
  assert (Hin3 : In (i, (base + i)%nat) (enumerate (seq base n))).
  { apply in_enumerate. apply nth_error_seq. auto. }
  specialize (Heff3 _ Hin3). cbn [fst snd] in Heff3.
  rewrite H23, Heff1 in Heff3. simpl option_map in Heff3.
  (* the rest *)
  assert (H56 : view dress_state w6 = view dress_state w5).
  { revert Halign. apply stable_modify_figure. }
  assert (H68 : view dress_state w8
                = update_nth (base + (n - 1))
                    (fun s => (fst (fst (fst s)),
                               Some (mk_axis_label xlabel None None None),
                               snd (fst s), snd s))
                    (view dress_state w6)).
  { revert Hxl. unfold set_xlabel. apply acts_modify.
    intros [? [] ? ? ? ? ? ? ?]; reflexivity. }
  assert (H8 : view dress_state w' = view dress_state w8).
  { revert H. apply stable_dress_tail. }
  assert (Hfinal : nth_error (view dress_state w') (base + i)
                   = Some ("bottom",
                           (if (S i <? n)%nat then Some [] else xticks),
                           (if (S i <? n)%nat then None
                            else Some (mk_axis_label xlabel None None None)),
                           Some (mk_axis_label ylabel (Some "horizontal")
                                   (Some "left") (Some pad)),
                           [("left", true); ("right", false); ("bottom", true);
                            ("top", false)])).
  { rewrite H8, H68, H56.
    destruct (Nat.ltb_spec (S i) n) as [Hlt|Hge].
    - rewrite nth_error_update_nth_neq by lia. rewrite Heff3.
      unfold finish_effect. cbn [fst snd].
      destruct (Z.ltb_spec (Z.of_nat i) (Z.of_nat n - 1)) as [_|]; [|lia].
      reflexivity.
    - replace (base + (n - 1))%nat with (base + i)%nat by lia.
      rewrite nth_error_update_nth_eq, Heff3. unfold finish_effect.
      cbn [fst snd option_map].
      destruct (Z.ltb_spec (Z.of_nat i) (Z.of_nat n - 1)) as [|_]; [lia|].
      destruct xticks; reflexivity. }
  unfold view in Hfinal. rewrite nth_error_map in Hfinal.
  destruct (nth_error (all_axes w') (base + i)) as [p'|]; [|discriminate].
  simpl in Hfinal. injection Hfinal as H1 H2 H3 H4 H5.
  exists p'. repeat split; assumption.
Qed.

Lemma stacked_plots_dressing_witness :
  exists f axs w' p0 p1,
    stacked_plots "x" [PInt 0; PInt 1] (OneDict two_series_with_ticks)
      (PInt 12, PInt 10) (PInt 200) "stacks.png" None (PFloat (B64.lit 1 10))
      empty_pyplot = Ok ((f, axs), w') /\
    nth_error (all_axes w') 0 = Some p0 /\
    nth_error (all_axes w') 1 = Some p1 /\
    ticks (ax_xaxis p0) = Some [] /\ axis_lab (ax_xaxis p0) = None /\
    ticks (ax_xaxis p1) = None /\
    axis_lab (ax_xaxis p1) = Some (mk_axis_label "x" None None None) /\
    option_map al_text (axis_lab (ax_yaxis p1)) = Some "ticked".
Proof.
  destruct (stacked_plots "x" [PInt 0; PInt 1] (OneDict two_series_with_ticks)
              (PInt 12, PInt 10) (PInt 200) "stacks.png" None
              (PFloat (B64.lit 1 10)) empty_pyplot)
    as [[[f axs] w']|e] eqn:Hrun; [|vm_compute in Hrun; discriminate Hrun].
  destruct (stacked_plots_dressing _ _ _ _ _ _ _ _ _ _ _ _
              two_series_with_ticks 0%nat _ _ Hrun eq_refl eq_refl)
    as (p0 & Hp0 & _ & _ & _ & Ht0 & Hl0).
  destruct (stacked_plots_dressing _ _ _ _ _ _ _ _ _ _ _ _
              two_series_with_ticks 1%nat _ _ Hrun eq_refl eq_refl)
    as (p1 & Hp1 & Hy1 & _ & _ & Ht1 & Hl1).
  exists f, axs, w', p0, p1.
  split; [reflexivity|]. split; [exact Hp0|]. split; [exact Hp1|].
  split; [exact Ht0|]. split; [exact Hl0|]. split; [exact Ht1|].
  split; [exact Hl1|]. now rewrite Hy1.
Defined.

(** ** [stacked_plots]: the figure and the file *)

Lemma keeps_set_ylim_seq {T} (proj : pyplot -> T) a l :
  axes_blind proj -> keeps proj (set_ylim_seq a l).
Proof.
  intros Hb. unfold set_ylim_seq.
  destruct l as [|lo [|hi [|? ?]]]; try apply keeps_raise.
  repeat keeps_step Hb.
Qed.

Lemma keeps_setup_panel {T} (proj : pyplot -> T) axs pad cushion item :
  axes_blind proj -> keeps proj (setup_panel axs pad cushion item).
Proof.
  intros Hb. unfold setup_panel. apply keeps_bind.
  - unfold setup_ylim. destruct (snd (snd item)) as [l|d]; [apply keeps_ret|].
    destruct (d_limits d).
    + apply keeps_bind; [apply keeps_lift|intro]. now apply keeps_set_ylim_seq.
    + destruct (d_ticks d); [|apply keeps_ret].
      apply keeps_bind; [apply keeps_lift|intro].
      apply keeps_bind; [unfold set_yticks; keeps_step Hb|intro].
      apply keeps_bind; [apply keeps_lift|intro].
      apply keeps_bind; [apply keeps_lift|intro].
      now apply keeps_set_ylim_seq.
  - intro. apply keeps_bind; [apply keeps_lift|intro].
    unfold set_ylabel. keeps_step Hb.
Qed.

Lemma keeps_plot_series {T} (proj : pyplot -> T) axs xdata item :
  axes_blind proj -> keeps proj (plot_series axs xdata item).
Proof.
  intros Hb. unfold plot_series. apply keeps_bind.
  - destruct (snd (snd item)) as [l|d]; [apply keeps_ret|].
    destruct (d_data d); [apply keeps_ret|apply keeps_raise].
  - intro. unfold plot. repeat keeps_step Hb.
Qed.

Lemma keeps_finish_panel {T} (proj : pyplot -> T) n xticks ia :
  axes_blind proj -> keeps proj (finish_panel n xticks ia).
Proof.
  intros Hb. unfold finish_panel, adjust_spines, default_axes.
  repeat keeps_step Hb. destruct xticks; keeps_step Hb.
Qed.

(** No helper creates an axes behind the back of [plt.subplots]. *)
Definition no_state (p : axes) : unit := tt.

Lemma stable_count_setup_panel axs pad cushion item :
  stable no_state (setup_panel axs pad cushion item).
Proof.
  unfold setup_panel. apply stable_bind.
  - unfold setup_ylim. destruct (snd (snd item)) as [l|d]; [apply stable_ret|].
    assert (Hseq : forall a l, stable no_state (set_ylim_seq a l)).
    { intros a l. unfold set_ylim_seq.
      destruct l as [|lo [|hi [|? ?]]]; try apply stable_raise.
      unfold set_ylim. repeat stable_step. }
    destruct (d_limits d).
    + apply stable_bind; [apply stable_lift|intro]. apply Hseq.
    + destruct (d_ticks d); [|apply stable_ret].
      apply stable_bind; [apply stable_lift|intro].
      apply stable_bind; [unfold set_yticks; repeat stable_step|intro].
      apply stable_bind; [apply stable_lift|intro].
      apply stable_bind; [apply stable_lift|intro]. apply Hseq.
  - intro. unfold set_ylabel. repeat stable_step.
Qed.

Lemma stable_count_plot_series axs xdata item :
  stable no_state (plot_series axs xdata item).
Proof.
  unfold plot_series. apply stable_bind.
  - destruct (snd (snd item)) as [l|d]; [apply stable_ret|].
    destruct (d_data d); [apply stable_ret|apply stable_raise].
  - intro. unfold plot, scatter. repeat stable_step.
Qed.

Lemma stable_count_finish_panel n xticks ia :
  stable no_state (finish_panel n xticks ia).
Proof.
  unfold finish_panel, adjust_spines, default_axes.
  repeat stable_step. destruct xticks; repeat stable_step.
Qed.

Lemma gcf_current g w : gcf_ w = Some g -> gcf w = Ok (g, w).
Proof. unfold gcf. now intros ->. Qed.

(** X17. When [stacked_plots] returns: it has made one new figure of the
    size asked for, holding one new panel per series of the first mapping
    (and no other panel was created); the labels of that figure have been
    aligned and its layout tightened; it has been saved under [filename],
    and nothing else was saved; the result is that figure with the array
    of its panels. *)
Theorem stacked_plots_figure :
  forall xlabel xdata arg figsize pad filename xticks cushion w f axs w' dd,
    stacked_plots xlabel xdata arg figsize pad filename xticks cushion w
      = Ok ((f, axs), w') ->
    py_index (as_dict_list arg) 0 = Ok dd ->
    f = List.length (all_figures w) /\
    axs = AxesArray (seq (List.length (all_axes w)) (List.length dd)) /\
    List.length (all_axes w') = (List.length (all_axes w) + List.length dd)%nat /\
    all_figures w' =
      snoc (all_figures w)
        (mk_figure (seq (List.length (all_axes w)) (List.length dd))
           (Some figsize) true true) /\
    saved w' = snoc (saved w) (filename, f) /\
    gcf_ w' = Some f.
Proof.
  intros xlabel xdata arg figsize pad filename xticks cushion w f axs w' dd0
    H Hdd.
  unfold stacked_plots in H.
  run_step H dd w0 Hd. apply lift_Ok in Hd. destruct Hd as [Hd ->].
  on_list H Hd.
  assert (dd = dd0) by congruence. subst dd0. clear Hdd.
  set (n := List.length dd) in *. set (base := List.length (all_axes w)).
  run_step H fa w1 Hs. destruct fa as [f0 axs0]. cbn [fst snd] in H.
  assert (Hcur : gcf_ w1 = Some f0).
  { unfold subplots in Hs. destruct n; [discriminate|].
    now injection Hs as <- _ <-. }
  destruct (subplots_store _ _ _ _ _ _ Hs) as (-> & Hfigs & Hsaved).
  apply subplots_Ok in Hs. destruct Hs as (Hn & Hw1 & Haxs).
  fold base in Hw1, Haxs, Hfigs.
  run_step H u1 w2 Hloop1. run_step H u2 w3 Hloop2.
  run_step H ids w4 Hids. apply lift_Ok in Hids. destruct Hids as [Hids ->].
  destruct (axarr_iter_Ok _ _ _ _ Haxs Hids) as [-> ->].
  run_step H u3 w5 Hloop3. run_step H u4 w6 Halign.
  run_step H lst w7 Hlast. apply lift_Ok in Hlast. destruct Hlast as [_ ->].
  run_step H u5 w8 Hxl. run_step H u6 w9 Htight. run_step H u7 w10 Hsave.
  unfold ret in H. injection H as <- <- <-.
  (* what the three loops keep *)
  assert (Hk : forall {T} (proj : pyplot -> T),
             axes_blind proj -> proj w5 = proj w1).
  { intros T proj Hb.
    transitivity (proj w3);
      [revert Hloop3; apply keeps_for_each; intro;
       now apply keeps_finish_panel|].
    transitivity (proj w2);
      [revert Hloop2; apply keeps_for_each; intro; apply keeps_for_each;
       intro; now apply keeps_plot_series|].
    revert Hloop1. apply keeps_for_each. intro. now apply keeps_setup_panel. }
  pose proof (Hk _ all_figures ltac:(intros ? ?; reflexivity)) as Hf5.
  pose proof (Hk _ saved ltac:(intros ? ?; reflexivity)) as Hs5.
  pose proof (Hk _ gcf_ ltac:(intros ? ?; reflexivity)) as Hc5.
  (* the number of axes *)
  assert (Hv : view no_state w10 = view no_state w1).
  { transitivity (view no_state w9);
      [revert Hsave; unfold savefig; repeat stable_step|].
    transitivity (view no_state w8);
      [revert Htight; unfold tight_layout; repeat stable_step|].
    transitivity (view no_state w6);
      [revert Hxl; unfold set_xlabel; repeat stable_step|].
    transitivity (view no_state w5);
      [revert Halign; apply stable_modify_figure|].
    transitivity (view no_state w3);
      [revert Hloop3; apply stable_for_each; intro;
       apply stable_count_finish_panel|].
    transitivity (view no_state w2);
      [revert Hloop2; apply stable_for_each; intro; apply stable_for_each;
       intro; apply stable_count_plot_series|].
    revert Hloop1. apply stable_for_each. intro.
    apply stable_count_setup_panel. }
  apply (f_equal (@List.length unit)) in Hv. unfold view in Hv.
  rewrite !length_map, Hw1, length_app, repeat_length in Hv.
  (* the figure *)
  apply modify_figure_Ok in Halign.
  assert (H68 : all_figures w8 = all_figures w6 /\ saved w8 = saved w6 /\
                gcf_ w8 = gcf_ w6).
  { unfold set_xlabel in Hxl. apply modify_axes_Ok in Hxl.
    destruct Hxl as [_ ->]. auto. }
  destruct H68 as (Hf8 & Hs8 & Hc8).
  assert (Hc6 : gcf_ w6 = Some (List.length (all_figures w))).
  { rewrite Halign. simpl. now rewrite Hc5. }
  unfold tight_layout in Htight.
  rewrite (bind_run _ _ _ _ _ (gcf_current _ _ (eq_trans Hc8 Hc6))) in Htight.
  apply modify_figure_Ok in Htight.
  unfold savefig in Hsave.
  assert (Hc9 : gcf_ w9 = Some (List.length (all_figures w))).
  { rewrite Htight. simpl. now rewrite Hc8. }
  rewrite (bind_run _ _ _ _ _ (gcf_current _ _ Hc9)) in Hsave.
  apply fig_savefig_Ok in Hsave.
  split; [reflexivity|]. split; [reflexivity|]. split; [exact Hv|].
  split.
  { rewrite Hsave. simpl. rewrite Htight. simpl. rewrite Hf8, Halign. simpl.
    rewrite Hf5, Hfigs, update_nth_compose. unfold snoc.
    rewrite update_nth_app_length. reflexivity. }
  split.
  { rewrite Hsave. simpl. rewrite Htight. simpl. rewrite Hs8, Halign. simpl.
    now rewrite Hs5, Hsaved. }
  rewrite Hsave. simpl. exact Hc9.
Qed.

Lemma stacked_plots_figure_witness :
  exists f axs w',
    stacked_plots "x" [PInt 0; PInt 1] (OneDict two_series_with_ticks)
      (PInt 12, PInt 10) (PInt 200) "stacks.png" None (PFloat (B64.lit 1 10))
      empty_pyplot = Ok ((f, axs), w') /\
    f = 0%nat /\ axs = AxesArray [0; 1]%nat /\
    saved w' = [("stacks.png", 0%nat)] /\
    all_figures w' = [mk_figure [0; 1]%nat (Some (PInt 12, PInt 10)) true true].
Proof.
  destruct (stacked_plots "x" [PInt 0; PInt 1] (OneDict two_series_with_ticks)
              (PInt 12, PInt 10) (PInt 200) "stacks.png" None
              (PFloat (B64.lit 1 10)) empty_pyplot)
    as [[[f axs] w']|e] eqn:Hrun; [|vm_compute in Hrun; discriminate Hrun].
  destruct (stacked_plots_figure _ _ _ _ _ _ _ _ _ _ _ _
              two_series_with_ticks Hrun eq_refl)
    as (Hf & Ha & _ & Hfig & Hsv & _).
  exists f, axs, w'. split; [reflexivity|]. split; [exact Hf|].
  split; [exact Ha|]. split; [rewrite Hsv, Hf; reflexivity|exact Hfig].
Defined.

(** ** [stacked_plots]: what is plotted where *)

(** The values of a series: the sequence itself, or the ['data'] entry of
    a descriptor. *)
Definition series_data (ydata : ydata_arg) : result (list pynum) :=
  match ydata with
  | RawData l => Ok l
  | Descr d =>
      match d_data d with
      | Some l => Ok l
      | None => Raise KeyError
      end
  end.

(** The lines of an axes, as their points, and its marker collections, as
    their coordinates. *)
Definition curve_state (p : axes)
    : list (list (pynum * pynum)) * list (list pynum * list pynum) :=
  (map l_xydata (ax_lines p),
   map (fun s => (sc_x s, sc_y s)) (ax_collections p)).

(** What plotting a series adds to them. *)
Definition curve_add (xdata : list pynum) (entry : option (string * ydata_arg))
    (s : list (list (pynum * pynum)) * list (list pynum * list pynum))
    : list (list (pynum * pynum)) * list (list pynum * list pynum) :=
  match entry with
  | Some (_, ydata) =>
      match series_data ydata with
      | Ok data => (fst s ++ [combine xdata data], snd s ++ [(xdata, data)])%list
      | Raise _ => s
      end
  | None => s
  end.

Lemma acts_curve_plot a xs ys lw :
  acts curve_state a (fun s => ((fst s ++ [combine xs ys])%list, snd s))
    (plot a xs ys lw).
Proof.
  unfold plot. destruct (_ =? _)%nat.
  - apply acts_modify. intros p. destruct p. unfold curve_state, with_lines, snoc.
    simpl. now rewrite map_app.
  - intros w x w' H. discriminate H.
Qed.

Lemma acts_curve_scatter a xs ys c sz :
  acts curve_state a (fun s => (fst s, (snd s ++ [(xs, ys)])%list))
    (scatter a xs ys c sz).
Proof.
  unfold scatter. destruct (_ =? _)%nat.
  - apply acts_modify. intros p. destruct p.
    unfold curve_state, with_collections, snoc. simpl. now rewrite map_app.
  - intros w x w' H. discriminate H.
Qed.

Lemma acts_curve_plot_series base n xdata i ylabel ydata :
  acts curve_state (base + i) (curve_add xdata (Some (ylabel, ydata)))
    (plot_series (AxesArray (seq base n)) xdata (i, (ylabel, ydata))).
Proof.
  unfold plot_series, curve_add. cbn [fst snd].
  assert (Hk : forall data,
             acts curve_state (base + i)
               (fun s => ((fst s ++ [combine xdata data])%list,
                          (snd s ++ [(xdata, data)])%list))
               (a <- lift (axarr_index (AxesArray (seq base n)) (Z.of_nat i)) ;;
                plot a xdata data (PInt 6) ;;
                a <- lift (axarr_index (AxesArray (seq base n)) (Z.of_nat i)) ;;
                scatter a xdata data None 100)).
  { intros data. apply acts_lift_bind. intros a Ha.
    apply axarr_index_seq in Ha. destruct Ha as [_ ->].
    eapply acts_ext; cycle 1.
    { eapply acts_bind; [apply acts_curve_plot|intro].
      apply acts_lift_bind. intros a Ha.
      apply axarr_index_seq in Ha. destruct Ha as [_ ->].
      apply acts_curve_scatter. }
    intros [l c]. reflexivity. }
  destruct ydata as [l|d]; simpl series_data.
  - intros w y w'. apply (Hk l).
  - destruct (d_data d) as [l|].
    + intros w y w'. apply (Hk l).
    + intros w y w' H. discriminate H.
Qed.

Lemma option_map_id {A} (x : option A) : option_map (fun s => s) x = x.
Proof. now destruct x. Qed.

(** One mapping: each of its series goes to the panel of its position. *)
Lemma plot_dict_view base n xdata dd w u w' :
  for_each (enumerate dd) (plot_series (AxesArray (seq base n)) xdata) w
    = Ok (u, w') ->
  forall i,
    nth_error (view curve_state w') (base + i) =
    option_map (curve_add xdata (nth_error dd i))
      (nth_error (view curve_state w) (base + i)).
Proof.
  intros H i.
  apply (for_each_acts curve_state (fun x => (base + fst x)%nat)
           (fun x => curve_add xdata (Some (snd x)))) in H.
  2:{ intros [j [yl yd]] _. apply acts_curve_plot_series. }
  2:{ unfold enumerate. rewrite map_panel_combine_seq. apply seq_NoDup. }
  destruct H as (_ & Hframe & Heff).
  destruct (nth_error dd i) as [item|] eqn:Hi.
  - apply in_enumerate in Hi. exact (Heff _ Hi).
  - simpl. rewrite option_map_id. apply Hframe.
    unfold enumerate. rewrite map_panel_combine_seq, in_seq.
    apply nth_error_None in Hi. lia.
Qed.

(** All the mappings, one after the other. *)
Fixpoint curves_of (xdata : list pynum) (dicts : list data_dict) (i : nat)
    (s : list (list (pynum * pynum)) * list (list pynum * list pynum))
    : list (list (pynum * pynum)) * list (list pynum * list pynum) :=
  match dicts with
  | [] => s
  | dd :: r => curves_of xdata r i (curve_add xdata (nth_error dd i) s)
  end.

Lemma plot_loop_view base n xdata dicts :
  forall w u w',
    for_each dicts
      (fun dd => for_each (enumerate dd)
                   (plot_series (AxesArray (seq base n)) xdata)) w
      = Ok (u, w') ->
    forall i,
      nth_error (view curve_state w') (base + i) =
      option_map (curves_of xdata dicts i)
        (nth_error (view curve_state w) (base + i)).
Proof.
  induction dicts as [|dd r IH]; intros w u w' H i; simpl in H.
  - unfold ret in H. injection H as _ <-. simpl. now rewrite option_map_id.
  - run_step H u1 w1 H1. rewrite (IH _ _ _ H i).
    rewrite (plot_dict_view _ _ _ _ _ _ _ H1 i).
    now destruct (nth_error (view curve_state w) (base + i)).
Qed.

(** The curves contributed by the mappings to panel [i]. *)
Definition panel_series (dicts : list data_dict) (i : nat)
    : list (list pynum) :=
  flat_map (fun dd => match nth_error dd i with
                      | Some (_, ydata) =>
                          match series_data ydata with
                          | Ok data => [data]
                          | Raise _ => []
                          end
                      | None => []
                      end) dicts.

Lemma curves_of_panel_series xdata dicts i : forall s,
  curves_of xdata dicts i s =
  ((fst s ++ map (combine xdata) (panel_series dicts i))%list,
   (snd s ++ map (fun data => (xdata, data)) (panel_series dicts i))%list).
Proof.
  induction dicts as [|dd r IH]; intros [l c]; simpl.
  - now rewrite !app_nil_r.
  - rewrite IH. unfold panel_series. simpl.
    destruct (nth_error dd i) as [[yl yd]|]; simpl; [|reflexivity].
    destruct (series_data yd) as [data|e]; simpl; [|reflexivity].
    now rewrite <- !app_assoc.
Qed.

Lemma stable_curve_setup_panel axs pad cushion item :
  stable curve_state (setup_panel axs pad cushion item).
Proof.
  unfold setup_panel. apply stable_bind.
  - unfold setup_ylim. destruct (snd (snd item)) as [l|d]; [apply stable_ret|].
    assert (Hseq : forall a l, stable curve_state (set_ylim_seq a l)).
    { intros a l. unfold set_ylim_seq.
      destruct l as [|lo [|hi [|? ?]]]; try apply stable_raise.
      unfold set_ylim. repeat stable_step. }
    destruct (d_limits d).
    + apply stable_bind; [apply stable_lift|intro]. apply Hseq.
    + destruct (d_ticks d); [|apply stable_ret].
      apply stable_bind; [apply stable_lift|intro].
      apply stable_bind; [unfold set_yticks; repeat stable_step|intro].
      apply stable_bind; [apply stable_lift|intro].
      apply stable_bind; [apply stable_lift|intro]. apply Hseq.
  - intro. unfold set_ylabel. repeat stable_step.
Qed.

Lemma stable_curve_finish_panel n xticks ia :
  stable curve_state (finish_panel n xticks ia).
Proof.
  unfold finish_panel, adjust_spines, default_axes.
  repeat stable_step. destruct xticks; repeat stable_step.
Qed.

Lemma plot_series_Ok base n xdata i ylabel ydata w u w' :
  plot_series (AxesArray (seq base n)) xdata (i, (ylabel, ydata)) w
    = Ok (u, w') ->
  (i < n)%nat /\
  exists data, series_data ydata = Ok data /\
               List.length data = List.length xdata.
Proof.
  unfold plot_series. cbn [fst snd]. intros H.
  run_step H data w1 Hd. run_step H a w2 Ha. run_step H u1 w3 Hp.
  apply lift_Ok in Ha. destruct Ha as [Ha _].
  apply axarr_index_seq in Ha. destruct Ha as [Hi _].
  split; [exact Hi|]. exists data. split.
  - destruct ydata as [l|d]; simpl.
    + unfold ret in Hd. now injection Hd as <- _.
    + destruct (d_data d); [|discriminate Hd].
      unfold ret in Hd. now injection Hd as <- _.
  - unfold plot in Hp.
    destruct (Nat.eqb_spec (List.length xdata) (List.length data)) as [E|];
      [now symmetry|discriminate Hp].
Qed.

(** X18. When [stacked_plots] returns: every series of every mapping has
    as many values as [xdata] and a position below the number of panels;
    and the lines of panel [i] are, in the order of the mappings, the
    [i]-th series of each mapping that has one, plotted against [xdata],
    with one marker collection over the same values for each line.  A
    series of a later mapping goes to the panel of its position, whatever
    its name. *)
Theorem stacked_plots_curves :
  forall xlabel xdata arg figsize pad filename xticks cushion w f axs w' dd,
    stacked_plots xlabel xdata arg figsize pad filename xticks cushion w
      = Ok ((f, axs), w') ->
    py_index (as_dict_list arg) 0 = Ok dd ->
    (forall d i ylabel ydata,
       In d (as_dict_list arg) -> nth_error d i = Some (ylabel, ydata) ->
       (i < List.length dd)%nat /\
       exists data, series_data ydata = Ok data /\
                    List.length data = List.length xdata) /\
    forall i,
      (i < List.length dd)%nat ->
      exists p',
        nth_error (all_axes w') (List.length (all_axes w) + i) = Some p' /\
        map l_xydata (ax_lines p') =
          map (combine xdata) (panel_series (as_dict_list arg) i) /\
        map (fun s => (sc_x s, sc_y s)) (ax_collections p') =
          map (fun data => (xdata, data)) (panel_series (as_dict_list arg) i).
Proof.
  intros xlabel xdata arg figsize pad filename xticks cushion w f axs w' dd0
    H Hdd.
  unfold stacked_plots in H.
  run_step H dd w0 Hd. apply lift_Ok in Hd. destruct Hd as [Hd ->].
  on_list H Hd.
  assert (dd = dd0) by congruence. subst dd0. clear Hdd.
  set (n := List.length dd) in *. set (base := List.length (all_axes w)).
  run_step H fa w1 Hs. destruct fa as [f0 axs0]. cbn [fst snd] in H.
  apply subplots_Ok in Hs. destruct Hs as (Hn & Hw1 & Haxs).
  fold base in Hw1, Haxs.
  run_step H u1 w2 Hloop1. run_step H u2 w3 Hloop2.
  run_step H ids w4 Hids. apply lift_Ok in Hids. destruct Hids as [Hids ->].
  destruct (axarr_iter_Ok _ _ _ _ Haxs Hids) as [-> ->].
  run_step H u3 w5 Hloop3. run_step H u4 w6 Halign.
  run_step H lst w7 Hlast. apply lift_Ok in Hlast. destruct Hlast as [_ ->].
  run_step H u5 w8 Hxl. run_step H u6 w9 Htight. run_step H u7 w10 Hsave.
  unfold ret in H. injection H as _ _ <-.
  split.
  { intros d i ylabel ydata Hin Hitem.
    destruct (for_each_each _ _ _ _ _ Hloop2 d Hin) as (wa & ua & wb & Hd1).
    apply in_enumerate in Hitem.
    destruct (for_each_each _ _ _ _ _ Hd1 _ Hitem) as (wc & uc & wd & Hps).
    exact (plot_series_Ok _ _ _ _ _ _ _ _ _ Hps). }
  intros i Hi.
  assert (H12 : view curve_state w2 = view curve_state w1).
  { revert Hloop1. apply stable_for_each. intro.
    apply stable_curve_setup_panel. }
  pose proof (plot_loop_view _ _ _ _ _ _ _ Hloop2 i) as H23.
  assert (H3 : view curve_state w10 = view curve_state w3).
  { transitivity (view curve_state w9);
      [revert Hsave; unfold savefig; repeat stable_step|].
    transitivity (view curve_state w8);
      [revert Htight; unfold tight_layout; repeat stable_step|].
    transitivity (view curve_state w6);
      [revert Hxl; unfold set_xlabel; repeat stable_step|].
    transitivity (view curve_state w5);
      [revert Halign; apply stable_modify_figure|].
    revert Hloop3. apply stable_for_each. intro.
    apply stable_curve_finish_panel. }
  rewrite <- H3, H12 in H23. unfold view at 2 in H23.
  rewrite Hw1 in H23. unfold base in H23 at 2.
  rewrite nth_error_fresh_view in H23 by exact Hi.
  unfold view in H23. rewrite nth_error_map in H23.
  destruct (nth_error (all_axes w10) (base + i)) as [p'|]; [|discriminate].
  simpl in H23. rewrite curves_of_panel_series in H23.
  injection H23 as Hl Hc.
  exists p'. split; [reflexivity|]. split; [exact Hl|exact Hc].
Qed.

(** Two mappings with different names: the second mapping's series are
    drawn on the panels of the first one's, in order. *)
Definition second_mapping : data_dict :=
  [("other", RawData [PInt 5; PInt 6]); ("names", RawData [PInt 7; PInt 8])].

Lemma stacked_plots_curves_witness :
  exists f axs w' p1,
    stacked_plots "x" [PInt 0; PInt 1]
      (DictList [two_series_with_ticks; second_mapping])
      (PInt 12, PInt 10) (PInt 200) "stacks.png" None (PFloat (B64.lit 1 10))
      empty_pyplot = Ok ((f, axs), w') /\
    nth_error (all_axes w') 1 = Some p1 /\
    map l_xydata (ax_lines p1) =
      [[(PInt 0, PInt 3); (PInt 1, PInt 4)];
       [(PInt 0, PInt 7); (PInt 1, PInt 8)]].
Proof.
  destruct (stacked_plots "x" [PInt 0; PInt 1]
              (DictList [two_series_with_ticks; second_mapping])
              (PInt 12, PInt 10) (PInt 200) "stacks.png" None
              (PFloat (B64.lit 1 10)) empty_pyplot)
    as [[[f axs] w']|e] eqn:Hrun; [|vm_compute in Hrun; discriminate Hrun].
  destruct (stacked_plots_curves _ _ _ _ _ _ _ _ _ _ _ _
              two_series_with_ticks Hrun eq_refl)
    as (_ & Hall).
  destruct (Hall 1%nat (le_n 2)) as (p1 & Hp1 & Hl & _).
  exists f, axs, w', p1. split; [reflexivity|]. split; [exact Hp1|exact Hl].
Defined.

(** ** [handle_close] *)

(** X19. [handle_close] tightens the layout of the current figure and
    saves it as [figure.pdf]; without a current figure it first creates
    an empty one, which becomes current.  It writes that one file and
    changes no axes. *)
Theorem handle_close_saves :
  forall (w : pyplot),
    (forall g, gcf_ w = Some g -> (g < List.length (all_figures w))%nat) ->
    exists g fig w',
      handle_close w = Ok (tt, w') /\
      g = match gcf_ w with
          | Some g0 => g0
          | None => List.length (all_figures w)
          end /\
      gcf_ w' = Some g /\
      saved w' = snoc (saved w) ("figure.pdf", g) /\
      nth_error (all_figures w') g = Some fig /\ fig_tight fig = true /\
      List.length (all_figures w') =
        (match gcf_ w with
         | Some _ => List.length (all_figures w)
         | None => S (List.length (all_figures w))
         end) /\
      all_axes w' = all_axes w.
Proof.
  intros w Hwf.
  set (g := match gcf_ w with
            | Some g0 => g0
            | None => List.length (all_figures w)
            end).
  (* the current figure, after [plt.gcf()] *)
  assert (Hgcf : exists w0 fig0,
             gcf w = Ok (g, w0) /\ gcf_ w0 = Some g /\
             nth_error (all_figures w0) g = Some fig0 /\
             saved w0 = saved w /\ all_axes w0 = all_axes w /\
             List.length (all_figures w0) =
               match gcf_ w with
               | Some _ => List.length (all_figures w)
               | None => S (List.length (all_figures w))
               end).
  { unfold gcf, g. destruct (gcf_ w) as [g0|] eqn:Hg.
    - specialize (Hwf g0 eq_refl).
      destruct (nth_error (all_figures w) g0) as [fig|] eqn:Hfig;
        [|apply nth_error_None in Hfig; lia].
      exists w, fig. repeat split; auto.
    - eexists. exists (new_figure [] None). split; [reflexivity|]. simpl.
      split; [reflexivity|]. unfold snoc. rewrite length_app. simpl.
      split; [|split; [reflexivity|split; [reflexivity|lia]]].
      rewrite nth_error_app2 by lia. now rewrite Nat.sub_diag. }
  destruct Hgcf as (w0 & fig0 & Hgcf & Hc0 & Hfig0 & Hs0 & Ha0 & Hl0).
  set (fig := mk_figure (fig_axes fig0) (fig_size fig0) (fig_aligned fig0) true).
  set (w1 := set_all_figures
               (update_nth g
                  (fun f => mk_figure (fig_axes f) (fig_size f) (fig_aligned f)
                              true)
                  (all_figures w0)) w0).
  assert (Ht : tight_layout w = Ok (tt, w1)).
  { unfold tight_layout. rewrite (bind_run _ _ _ _ _ Hgcf).
    unfold modify_figure. rewrite Hfig0. reflexivity. }
  assert (Hfig1 : nth_error (all_figures w1) g = Some fig).
  { unfold w1. simpl. rewrite nth_error_update_nth_eq, Hfig0. reflexivity. }
  assert (Hsv : savefig "figure.pdf" w1
                = Ok (tt, set_saved (snoc (saved w1) ("figure.pdf", g)) w1)).
  { unfold savefig.
    rewrite (bind_run _ _ _ _ _ (gcf_current g w1 Hc0)).
    unfold fig_savefig. rewrite Hfig1. reflexivity. }
  exists g, fig, (set_saved (snoc (saved w1) ("figure.pdf", g)) w1).
  split.
  { unfold handle_close. rewrite (bind_run _ _ _ _ _ Ht). exact Hsv. }
  split; [reflexivity|]. split; [exact Hc0|].
  split; [simpl; now rewrite Hs0|].
  split; [exact Hfig1|]. split; [reflexivity|].
  split; [|exact Ha0].
  simpl. now rewrite update_nth_length.
Qed.

Lemma handle_close_saves_witness :
  exists w',
    handle_close empty_pyplot = Ok (tt, w') /\
    saved w' = [("figure.pdf", 0%nat)] /\
    all_figures w' = [mk_figure [] None false true].
Proof.
  destruct (handle_close_saves empty_pyplot) as (g & fig & w' & Hrun & _).
  { intros g Hg. discriminate Hg. }
  exists w'. split; [exact Hrun|].
  vm_compute in Hrun. injection Hrun as <-. split; reflexivity.
Defined.

(** ** [all] *)

Lemma keeps_for_fold {T A S} (proj : pyplot -> T) (l : list A)
    (body : A -> S -> M S) :
  (forall x s, keeps proj (body x s)) ->
  forall s, keeps proj (for_fold l s body).
Proof.
  intros Hb. induction l as [|x r IH]; intros s; simpl.
  - apply keeps_ret.
  - apply keeps_bind; auto.
Qed.

Lemma keeps_gcf_buf_set b i v : keeps gcf_ (buf_set b i v).
Proof.
  intros w u w' H. apply buf_set_Ok in H. destruct H as (l & _ & _ & ->).
  reflexivity.
Qed.

Lemma keeps_gcf_annotate a s xy ha va color xycoords :
  keeps gcf_ (annotate a s xy ha va color xycoords).
Proof.
  unfold annotate. apply keeps_bind.
  - intros w l w'. unfold get_buffer.
    destruct (nth_error (buffers w) xy); [|discriminate]. now intros [= _ <-].
  - intros buf. destruct buf as [|x [|y [|? ?]]]; try apply keeps_raise.
    repeat keeps_step (fun (l : list axes) (w : pyplot) =>
                         eq_refl (gcf_ (set_all_axes l w))).
Qed.

Lemma keeps_gcf_draggable_legend a color_on :
  keeps gcf_ (draggable_legend (Some a) color_on).
Proof.
  rewrite draggable_legend_unfold. simpl default_axes.
  apply keeps_bind; [apply keeps_ret|intro].
  apply keeps_bind; [apply keeps_get_axes|intro].
  apply keeps_bind; [apply keeps_lift|intro].
  apply keeps_bind; [apply keeps_lift|intro].
  apply keeps_bind.
  { intros w b w' H. apply np_zeros_Ok in H. destruct H as [_ ->]. reflexivity. }
  intro. apply keeps_bind; [|intro; apply keeps_ret].
  apply keeps_for_fold. intros il legend. unfold label_line.
  apply keeps_bind; [apply keeps_lift|intro].
  apply keeps_bind; [apply keeps_gcf_buf_set|intro].
  apply keeps_bind; [apply keeps_lift|intro].
  apply keeps_bind; [apply keeps_gcf_buf_set|intro].
  apply keeps_bind; [apply keeps_gcf_annotate|intro].
  apply keeps_bind; [apply keeps_lift|intro].
  apply keeps_bind; [|intro; apply keeps_ret].
  unfold draggable. apply keeps_modify_axes. intros ? ?; reflexivity.
Qed.

(** X20. [all()] with a current figure and a current panel of at most
    1000 lines: it returns; what it does is [adjust_spines] and then
    [draggable_legend] on that current panel, and it connects
    [handle_close] to the close event of that current figure. *)
Theorem all_decorates_current :
  forall (registry : list (nat * string * callback)) (w : pyplot)
         (a g : nat) (p : axes),
    gca_ w = Some a -> gcf_ w = Some g ->
    nth_error (all_axes w) a = Some p ->
    (List.length (ax_lines p) <= 1000)%nat ->
    exists w1 w',
      adjust_spines (Some a) default_spines true false w = Ok (tt, w1) /\
      draggable_legend (Some a) true w1 = Ok (tt, w') /\
      all registry w
        = Ok (snoc registry (g, "close_event", HandleClose), w').
Proof.
  intros registry w a g p Ha Hg Hp Hn.
  assert (Hd : default_axes None w = Ok (a, w))
    by (simpl; unfold gca; now rewrite Ha).
  pose proof (adjust_spines_run None default_spines true false w a w p Hd Hp)
    as H1.
  pose proof (adjust_spines_run (Some a) default_spines true false w a w p
                eq_refl Hp) as H1'.
  set (w1 := set_all_axes _ w) in *.
  assert (Hp1 : nth_error (all_axes w1) a
                = Some (adjust_spines_panel default_spines true false p)).
  { unfold w1. rewrite all_axes_set, nth_error_update_nth_eq, Hp. reflexivity. }
  assert (Hl1 : ax_lines (adjust_spines_panel default_spines true false p)
                = ax_lines p) by reflexivity.
  rewrite <- Hl1 in Hn.
  destruct (grid_for_small _ Hn) as (s & lins & Hs & _ & Hl & _ & Hsq).
  destruct (draggable_legend_on_grid a true w1 _ s lins Hp1 Hs Hl Hsq)
    as [w' H2].
  assert (H2' : draggable_legend None true w1 = Ok (tt, w')).
  { rewrite <- H2. unfold draggable_legend.
    assert (Hd1 : default_axes None w1 = Ok (a, w1))
      by (simpl; unfold gca; unfold w1; simpl; now rewrite Ha).
    rewrite (bind_run _ _ _ _ _ Hd1). reflexivity. }
  assert (Hg' : gcf_ w' = Some g).
  { rewrite (keeps_gcf_draggable_legend a true _ _ _ H2). exact Hg. }
  exists w1, w'. split; [exact H1'|]. split; [exact H2|].
  unfold all. rewrite (bind_run _ _ _ _ _ H1), (bind_run _ _ _ _ _ H2').
  rewrite (bind_run _ _ _ _ _ (gcf_current _ _ Hg')). reflexivity.
Qed.

Lemma all_decorates_current_witness :
  exists w',
    all [] (one_panel (with_lines (fun _ => four_lines) new_axes))
      = Ok ([(0%nat, "close_event", HandleClose)], w') /\
    option_map (fun p => List.length (ax_texts p)) (nth_error (all_axes w') 0)
      = Some 4%nat.
Proof.
  destruct (all_decorates_current []
              (one_panel (with_lines (fun _ => four_lines) new_axes))
              0%nat 0%nat (with_lines (fun _ => four_lines) new_axes)
              eq_refl eq_refl eq_refl)
    as (w1 & w' & H1 & H2 & Hall).
  { simpl. lia. }
  exists w'. split; [exact Hall|].
  vm_compute in H1. injection H1 as <-.
  vm_compute in H2. injection H2 as <-.
  reflexivity.
Defined.

(** ** [auto_place_legend]: the labels *)

Lemma place_text_label ax rel color_on i line texts0 w texts w' p :
  place_text ax rel color_on (i, line) texts0 w = Ok (texts, w') ->
  nth_error (all_axes w) ax = Some p ->
  exists idx pt,
    py_index (l_xydata line) idx = Ok pt /\
    texts = snoc texts0 (ax, List.length (ax_texts p)) /\
    all_axes w' =
      update_nth ax
        (with_texts
           (fun l => snoc l (mk_text (fst pt) (snd pt) (l_label line)
                               (Some (if color_on then l_color line else "k"))
                               "center" "center" None None "data" false)))
        (all_axes w).
Proof.
  unfold place_text. cbn [fst snd]. intros H Hp.
  run_step H idx w1 Hidx. run_step H pt w2 Hpt. run_step H h w3 Htext.
  apply anchor_index_spec in Hidx. destruct Hidx as [Haxes _].
  apply lift_Ok in Hpt. destruct Hpt as [Hpt ->].
  rewrite <- Haxes in Hp.
  destruct (ax_text_Ok _ _ _ _ _ _ _ _ _ _ _ _ Htext Hp) as [-> Hw3].
  unfold ret in H. injection H as <- <-.
  exists idx, pt. split; [exact Hpt|]. split; [reflexivity|].
  rewrite Hw3, Haxes. reflexivity.
Qed.

(** The label of a line: a text at one of the line's points, in data
    coordinates, centred, with the line's label and colour. *)
Definition label_of (color_on : bool) (line : line2d) (t : text) : Prop :=
  In (t_x t, t_y t) (l_xydata line) /\
  t_text t = l_label line /\
  t_color t = Some (if color_on then l_color line else "k") /\
  t_ha t = "center" /\ t_va t = "center" /\
  t_xycoords t = "data" /\ t_draggable t = false.

Lemma py_index_In {A} (l : list A) i x : py_index l i = Ok x -> In x l.
Proof.
  unfold py_index. destruct (_ && _)%bool; [|discriminate].
  destruct (nth_error l _) eqn:E; [|discriminate].
  intros [= <-]. eapply nth_error_In. exact E.
Qed.

Lemma place_loop_labels ax rel color_on lines :
  forall k texts0 w texts w' p,
    for_fold (combine (seq k (List.length lines)) lines) texts0
      (place_text ax rel color_on) w = Ok (texts, w') ->
    nth_error (all_axes w) ax = Some p ->
    exists new,
      nth_error (all_axes w') ax = Some (with_texts (fun l => (l ++ new)%list) p) /\
      Forall2 (label_of color_on) lines new /\
      (forall b, b <> ax -> nth_error (all_axes w') b = nth_error (all_axes w) b).
Proof.
  induction lines as [|line r IH]; intros k texts0 w texts w' p; simpl.
  - unfold ret. intros [= <- <-] Hp. exists [].
    rewrite with_texts_app_nil. split; [exact Hp|]. split; [constructor|auto].
  - intros H Hp. run_step H texts1 w1 Hstep.
    destruct (place_text_label _ _ _ _ _ _ _ _ _ _ Hstep Hp)
      as (idx & pt & Hpt & -> & Hw1).
    set (t := mk_text (fst pt) (snd pt) (l_label line)
                (Some (if color_on then l_color line else "k"))
                "center" "center" None None "data" false) in *.
    assert (Hp1 : nth_error (all_axes w1) ax
                  = Some (with_texts (fun l => snoc l t) p)).
    { rewrite Hw1, nth_error_update_nth_eq, Hp. reflexivity. }
    destruct (IH _ _ _ _ _ _ H Hp1) as (new & Hp' & Hall & Hframe).
    exists (t :: new). split; [now rewrite Hp', with_texts_app_cons|].
    split.
    + constructor; [|exact Hall].
      unfold label_of, t. cbn. repeat split.
      apply py_index_In in Hpt. now destruct pt.
    + intros b Hb. rewrite (Hframe b Hb), Hw1.
      apply nth_error_update_nth_neq. congruence.
Qed.

(** X21. When the placement loop of [auto_place_legend] returns, whatever
    [rel_xloc] is: one text per line was added to the panel, in the order
    of the lines and after the texts it had; the text of a line sits on
    one of the points of that line, in data coordinates, centred, with the
    line's label and the line's colour ("k" when [color_on] is off);
    nothing else changed on that panel and the other panels are as they
    were; and [adjust_text] is called with exactly these new texts. *)
Theorem auto_place_legend_labels :
  forall (kwargs : Type)
         (adjust_text : list (nat * nat) -> nat -> kwargs -> M unit)
         (kw : kwargs) ax rel_xloc color_on w texts w' p,
    place_texts ax rel_xloc color_on w = Ok (texts, w') ->
    nth_error (all_axes w) ax = Some p ->
    auto_place_legend kwargs adjust_text ax rel_xloc color_on kw w
      = adjust_text texts ax kw w' /\
    texts = map (fun j => (ax, (List.length (ax_texts p) + j)%nat))
              (seq 0 (List.length (ax_lines p))) /\
    exists new,
      nth_error (all_axes w') ax
        = Some (with_texts (fun l => (l ++ new)%list) p) /\
      Forall2 (label_of color_on) (ax_lines p) new /\
      (forall b, b <> ax ->
         nth_error (all_axes w') b = nth_error (all_axes w) b).
Proof.
  intros kwargs adjust_text kw ax rel_xloc color_on w texts w' p Hrun Hp.
  split.
  { unfold auto_place_legend. now rewrite (bind_run _ _ _ _ _ Hrun). }
  destruct (place_texts_spec _ _ _ _ _ _ _ Hrun Hp) as (new0 & _ & Htexts & _).
  split; [exact Htexts|].
  rewrite (place_texts_loop _ _ _ _ _ Hp) in Hrun.
  exact (place_loop_labels _ _ _ _ _ _ _ _ _ _ Hrun Hp).
Qed.

Lemma auto_place_legend_labels_witness :
  exists texts w' t,
    place_texts 0 (RelScalar (PFloat (B64.lit 5 10))) false eleven_points_panel
      = Ok (texts, w') /\
    texts = [(0, 0)%nat] /\
    option_map ax_texts (nth_error (all_axes w') 0) = Some [t] /\
    t_text t = "squares" /\ t_color t = Some "k".
Proof.
  destruct (place_texts 0 (RelScalar (PFloat (B64.lit 5 10))) false
              eleven_points_panel) as [[texts w']|e] eqn:Hrun;
    [|vm_compute in Hrun; discriminate Hrun].
  destruct (auto_place_legend_labels unit (fun _ _ _ => ret tt) tt
              _ _ _ _ _ _ _ Hrun eq_refl)
    as (_ & Htexts & new & Hp' & Hall & _).
  change (ax_lines (with_lines (fun _ => [eleven_points]) new_axes))
    with [eleven_points] in Hall.
  destruct new as [|t [|t2 r]];
    [apply Forall2_length in Hall; discriminate Hall
    | |apply Forall2_length in Hall; discriminate Hall].
  apply Forall2_cons_iff in Hall. destruct Hall as [Ht _].
  destruct Ht as (_ & Htx & Hc & _).
  exists texts, w', t. split; [reflexivity|]. split; [exact Htexts|].
  split; [now rewrite Hp'|]. split; [exact Htx|exact Hc].
Defined.

(** ** [horiz_bar]: the texts of each panel *)

Lemma bar_positions_header ts t_max l_max header nd lay :
  bar_positions ts t_max l_max header nd = Ok lay ->
  (2 <= List.length header)%nat.
Proof.
  unfold bar_positions. intros H.
  repeat (apply rbind_Ok in H; destruct H as (? & ? & H)).
  match goal with
  | Hh : py_index header 1 = Ok _ |- _ =>
      apply (py_index_nat header 1%nat) in Hh;
      assert (1 < List.length header)%nat by (apply nth_error_Some; congruence)
  end.
  lia.
Qed.

(** X22. When [horiz_bar] returns, with at least as many labels as
    numbers: the texts of panel [i] are, in this order, its label and its
    number formatted with [nd] decimals, followed on the first panel, and
    there only, by the left and the right header. *)
Theorem horiz_bar_texts :
  forall labels times header ts nd size color w u w' i l t,
    horiz_bar labels times header ts nd size color w = Ok (u, w') ->
    nth_error labels i = Some l ->
    nth_error times i = Some t ->
    exists p' s,
      nth_error (all_axes w') (List.length (all_axes w) + i) = Some p' /\
      py_format_f t nd = Ok s /\
      map t_text (ax_texts p') =
        ([l; s] ++ if (i =? 0)%nat
                   then [nth 0 header ""; nth 1 header ""]
                   else [])%list /\
      (i = 0%nat -> (2 <= List.length header)%nat).
Proof.
  intros labels times header ts nd size color w u w' i l t H Hil Hit.
  unfold horiz_bar in H.
  set (num := List.length times) in *.
  set (base := List.length (all_axes w)).
  run_step H width w0 Hw. apply lift_Ok in Hw. destruct Hw as [_ ->].
  run_step H hh w0 Hh. apply lift_Ok in Hh. destruct Hh as [_ ->].
  run_step H height w0 Hht. apply lift_Ok in Hht. destruct Hht as [_ ->].
  run_step H t_max w0 Ht. apply lift_Ok in Ht. destruct Ht as [_ ->].
  run_step H longest w0 Hlg. apply lift_Ok in Hlg. destruct Hlg as [_ ->].
  run_step H fa w1 Hs. destruct fa as [fig axs]. cbn [fst snd] in H.
  run_step H lay w0 Hlay. apply lift_Ok in Hlay. destruct Hlay as [Hlay ->].
  run_step H tmd w0 Htmd. apply lift_Ok in Htmd. destruct Htmd as [_ ->].
  run_step H ids w0 Hids. apply lift_Ok in Hids. destruct Hids as [Hids ->].
  run_step H u1 w2 Hloop. run_step H u2 w3 Hsize.
  apply subplots_Ok in Hs. destruct Hs as (_ & Haxes & Haxs).
  destruct (axarr_iter_Ok _ _ _ _ Haxs Hids) as [-> _].
  fold base in Haxes, Hloop.
  apply modify_figure_Ok in Hsize. apply fig_savefig_Ok in H.
  assert (Hi : (i < num)%nat) by (apply nth_error_Some; congruence).
  assert (Hin : In (i, (l, t, (base + i)%nat))
                  (enumerate (zip3 labels times (seq base num)))).
  { apply in_enumerate. apply nth_error_zip3.
    split; [exact Hil|]. split; [exact Hit|]. apply nth_error_seq. auto. }
  pose proof (for_each_each _ _ _ _ _ Hloop _ Hin) as (wa & ua & wb & Hbar).
  assert (Hhead : i = 0%nat -> (2 <= List.length header)%nat).
  { intros ->. apply bar_positions_header in Hlay. exact Hlay. }
  apply draw_bar_formats in Hbar. destruct Hbar as (k & s & Hk & Hfmt).
  apply (for_each_acts bar_state (fun x => snd (snd x))
           (bar_effect nd lay header)) in Hloop.
  2:{ intros x _. apply acts_draw_bar. }
  2:{ rewrite <- map_map. unfold enumerate. rewrite map_snd_combine_seq.
      apply NoDup_map_snd_zip3, seq_NoDup. }
  destruct Hloop as (_ & _ & Heff).
  specialize (Heff _ Hin). cbn [fst snd] in Heff.
  unfold view at 2 in Heff. rewrite Haxes in Heff. unfold base in Heff at 3.
  rewrite nth_error_fresh_view in Heff by exact Hi.
  unfold view in Heff. rewrite nth_error_map in Heff.
  assert (Hax : all_axes w' = all_axes w2) by (subst w' w3; reflexivity).
  rewrite Hax.
  destruct (nth_error (all_axes w2) (base + i)) as [p'|]; [|discriminate Heff].
  simpl in Heff. injection Heff as _ Htx.
  exists p', s. split; [reflexivity|]. split; [exact Hfmt|].
  split; [|exact Hhead].
  rewrite Htx. unfold value_text. rewrite Hfmt. reflexivity.
Qed.

Lemma horiz_bar_texts_witness :
  exists w' p0,
    horiz_bar ["A"; "BB"] [PInt 10; PInt 20] ["L"; "R"] (PInt 1) 1
      [PInt 5; PFloat (B64.lit 5 10)] "#FFCC00" empty_pyplot
      = Ok (tt, w') /\
    nth_error (all_axes w') 0 = Some p0 /\
    map t_text (ax_texts p0) = ["A"; "10.0"; "L"; "R"].
Proof.
  destruct (horiz_bar ["A"; "BB"] [PInt 10; PInt 20] ["L"; "R"] (PInt 1) 1
              [PInt 5; PFloat (B64.lit 5 10)] "#FFCC00" empty_pyplot)
    as [[[] w']|e] eqn:Hrun; [|vm_compute in Hrun; discriminate Hrun].
  destruct (horiz_bar_texts _ _ _ _ _ _ _ _ _ _ 0%nat "A" (PInt 10) Hrun
              eq_refl eq_refl)
    as (p0 & s & Hp0 & Hs & Htx & _).
  vm_compute in Hs. injection Hs as <-.
  exists w', p0. split; [reflexivity|]. split; [exact Hp0|exact Htx].
Defined.

(** ** [auto_place_legend]: where the labels go, in the safe domain *)

Lemma py_index_nonneg {A} (l : list A) idx x :
  (0 <= idx)%Z -> py_index l idx = Ok x ->
  nth_error l (Z.to_nat idx) = Some x.
Proof.
  intros H0. unfold py_index.
  destruct (Z.ltb_spec idx 0) as [H|_]; [lia|].
  destruct (_ && _)%bool; [|discriminate].
  destruct (nth_error l (Z.to_nat idx)); [|discriminate]. now intros [= <-].
Qed.

(** X23. With a list of positions in [[0, 1)], one per line, on a panel
    whose lines have at least one point each, the placement goes through
    and the label of a line with N points and position r sits on the
    point of index [int(r * N)] of the line, counted from its first point,
    the product being the float product; that index is below N. *)
Theorem auto_place_legend_positions :
  forall ax (l : list pynum) color_on w p,
    nth_error (all_axes w) ax = Some p ->
    Forall2 in_domain l (ax_lines p) ->
    forallb below_one l = true ->
    exists texts w' new,
      place_texts ax (RelList l) color_on w = Ok (texts, w') /\
      nth_error (all_axes w') ax
        = Some (with_texts (fun t => (t ++ new)%list) p) /\
      List.length new = List.length (ax_lines p) /\
      forall i r line t,
        nth_error l i = Some r ->
        nth_error (ax_lines p) i = Some line ->
        nth_error new i = Some t ->
        exists v idx,
          py_mul r (PInt (Z.of_nat (List.length (l_xydata line)))) = Ok v /\
          py_int v = Ok idx /\
          (0 <= idx < Z.of_nat (List.length (l_xydata line)))%Z /\
          nth_error (l_xydata line) (Z.to_nat idx) = Some (t_x t, t_y t).
Proof.
  intros ax l color_on w p Hp Hdom Hall.
  pose proof (place_texts_loop ax (RelList l) color_on w p Hp) as Hloop.
  cbn [broadcast_rel_xloc] in Hloop.
  destruct (place_loop_total ax (RelList l) color_on (ax_lines p) 0 [] w p Hp)
    as (texts & w' & Hrun & _).
  { intros j line Hj.
    destruct (Forall2_nth_error_r _ _ _ Hdom j line Hj) as (r & Hr & Hd).
    pose proof (turn_in_domain ax l color_on j r line Hr Hd) as Hturn.
    rewrite forallb_forall in Hall.
    rewrite (Hall r (nth_error_In _ _ Hr)) in Hturn. exact Hturn. }
  rewrite <- Hloop in Hrun.
  destruct (place_texts_spec _ _ _ _ _ _ _ Hrun Hp) as (new & Hp' & _ & Hanch).
  exists texts, w', new. split; [exact Hrun|]. split; [exact Hp'|].
  split.
  { apply Forall2_length in Hanch. unfold enumerate in Hanch.
    rewrite length_combine, length_seq, Nat.min_id in Hanch. now symmetry. }
  intros i r line t Hr Hline Ht.
  pose proof (nth_error_combine_seq _ 0%nat _ _ Hline) as Hil.
  pose proof (Forall2_nth_error _ _ _ Hanch _ _ _ Hil Ht) as Ha.
  cbn [fst snd broadcast_rel_xloc] in Ha.
  destruct Ha as (idx & (r' & v & Hr' & Hv & Hi) & Hpt & _).
  assert (Er : r' = r).
  { unfold rel_xloc_item in Hr'. apply py_index_nat in Hr'.
    rewrite Nat.add_0_l in Hr'. congruence. }
  subst r'.
  destruct (Forall2_nth_error_r _ _ _ Hdom i line Hline) as (r2 & Hr2 & Hu & HN).
  assert (r2 = r) by congruence. subst r2.
  destruct (scaled_index r _ Hu HN) as (v0 & idx0 & Hv0 & Hi0 & Hlt & _).
  rewrite Hv in Hv0. injection Hv0 as <-.
  rewrite Hi in Hi0. injection Hi0 as <-.
  rewrite forallb_forall in Hall.
  specialize (Hlt (Hall r (nth_error_In _ _ Hr))).
  exists v, idx. split; [exact Hv|]. split; [exact Hi|]. split; [exact Hlt|].
  apply py_index_nonneg; [lia|exact Hpt].
Qed.

(** The line of eleven points with the position 0.5: the label sits on
    the point of index 5, which is (5, 25). *)
Lemma auto_place_legend_positions_witness :
  exists texts w' t,
    place_texts 0 (RelList [PFloat (B64.lit 5 10)]) true eleven_points_panel
      = Ok (texts, w') /\
    option_map ax_texts (nth_error (all_axes w') 0) = Some [t] /\
    (t_x t, t_y t) = (PInt 5, PInt 25).
Proof.
  assert (Hd : Forall2 in_domain [PFloat (B64.lit 5 10)]
                 (ax_lines (with_lines (fun _ => [eleven_points]) new_axes))).
  { constructor; [|constructor]. split; [reflexivity|].
    simpl List.length. change (Z.of_nat 11) with 11%Z. lia. }
  destruct (auto_place_legend_positions 0%nat [PFloat (B64.lit 5 10)] true
              eleven_points_panel _ eq_refl Hd eq_refl)
    as (texts & w' & new & Hrun & Hp' & Hlen & Hall).
  destruct new as [|t [|t2 r]]; try discriminate Hlen.
  destruct (Hall 0%nat _ eleven_points t eq_refl eq_refl eq_refl)
    as (v & idx & Hv & Hi & _ & Hpt).
  vm_compute in Hv. injection Hv as <-.
  vm_compute in Hi. injection Hi as <-.
  exists texts, w', t. split; [exact Hrun|]. split; [now rewrite Hp'|].
  assert (E : nth_error (l_xydata eleven_points) (Z.to_nat 5)
              = Some (PInt 5, PInt 25)) by (vm_compute; reflexivity).
  rewrite E in Hpt. now injection Hpt as <- <-.
Defined.
